(** * TempoBudget: recurring-transaction versioning and materialization

    A shallow embedding of [backend/app/routes/transactions.py]: the
    recurring-template routes, the version store and the monthly
    materialization loop, together with the pieces of Python's
    [datetime] and [calendar] modules the routes call. *)

From Stdlib Require Import ZArith List String Ascii Bool Lia QArith Sorted.
From Stdlib Require Import DecimalString.
From Stdlib Require Import Permutation.
Import ListNotations.
Open Scope Z_scope.

(* ================================================================= *)
(** ** Python's calendar arithmetic *)

Module Calendar.

(** [calendar.isleap] / [datetime._is_leap]. *)
Definition isleap (year : Z) : bool :=
  (year mod 4 =? 0) && (negb (year mod 100 =? 0) || (year mod 400 =? 0)).

(** [calendar.mdays], indexed by month number; index 0 is a filler. *)
Definition mdays : list Z := [0; 31; 28; 31; 30; 31; 30; 31; 31; 30; 31; 30; 31].

(** [calendar.monthrange(year, month)[1]]: the number of days of the month. *)
Definition last_day_of (year month : Z) : Z :=
  nth (Z.to_nat month) mdays 0
  + (if (month =? 2) && isleap year then 1 else 0).

(** [datetime._days_before_year]. *)
Definition days_before_year (year : Z) : Z :=
  let y := year - 1 in
  y * 365 + y / 4 - y / 100 + y / 400.

(** [datetime._DAYS_BEFORE_MONTH]. *)
Definition DAYS_BEFORE_MONTH : list Z :=
  [0; 0; 31; 59; 90; 120; 151; 181; 212; 243; 273; 304; 334].

(** [datetime._days_before_month]. *)
Definition days_before_month (year month : Z) : Z :=
  nth (Z.to_nat month) DAYS_BEFORE_MONTH 0
  + (if (2 <? month) && isleap year then 1 else 0).

(** [datetime._ymd2ord]: the proleptic Gregorian ordinal, 0001-01-01 being day 1. *)
Definition ymd2ord (year month day : Z) : Z :=
  days_before_year year + days_before_month year month + day.

(** [datetime.weekday()]: Monday is 0, Sunday is 6. *)
Definition weekday (year month day : Z) : Z :=
  (ymd2ord year month day + 6) mod 7.

End Calendar.

(* ================================================================= *)
(** ** String formatting used by the routes *)

Module Fmt.

(** [str(n)] for an integer. *)
Definition dec (n : Z) : string := NilZero.string_of_int (Z.to_int n).

(** The format spec [:02d]: zero-padded to width two, sign included. *)
Definition d02 (n : Z) : string :=
  if (0 <=? n) && (n <? 10) then ("0" ++ dec n)%string else dec n.

(** [f"{year}-{month:02d}-{day:02d}"]; for the years the clock supplies
    this is also [strftime("%Y-%m-%d")]. *)
Definition ymd (year month day : Z) : string :=
  (dec year ++ "-" ++ d02 month ++ "-" ++ d02 day)%string.

(** [range(lo, hi)]. *)
Definition range (lo hi : Z) : list Z :=
  map (fun i => lo + Z.of_nat i) (seq 0 (Z.to_nat (hi - lo))).

End Fmt.

(* ================================================================= *)
(** ** Rows, payloads and the store *)

(** An aware UTC [datetime].  The [created_at] columns hold its
    [isoformat()] text and the yearly rule reads it back through
    [datetime.fromisoformat]; the record stands for both. *)
Record datetime : Type := mk_datetime {
  dt_year : Z;
  dt_month : Z;
  dt_day : Z;
  dt_hour : Z;
  dt_minute : Z;
  dt_second : Z;
  dt_microsecond : Z
}.

(** [now.strftime("%Y-%m-%d")]. *)
Definition strftime_ymd (now : datetime) : string :=
  Fmt.ymd (dt_year now) (dt_month now) (dt_day now).

(** Row of [recurring_transactions].  The category reference is
    nullable; [day] is optional.  Amounts are the finite values of a
    REAL column: the routes only copy them and compare them for numeric
    equality, so they are carried as rationals. *)
Record RecurringTransaction : Type := mk_recurring {
  rt_id : string;
  rt_budget_id : string;
  rt_category_id : option string;
  rt_title : string;
  rt_amount : Q;
  rt_transaction_type : string;
  rt_frequency : string;
  rt_day : option Z;
  rt_active : Z;
  rt_created_at : datetime
}.

(** [x or default] on an optional integer: [None] and [0] are both falsy. *)
Definition int_or (x : option Z) (default : Z) : Z :=
  match x with
  | None => default
  | Some v => if v =? 0 then default else v
  end.

(** The [dates_to_create] list built for one template row by
    [process_recurring_transactions]: day numbers first, then the
    date strings the loop appends. *)
Definition due_days (rec : RecurringTransaction)
    (current_year current_month current_day : Z) : list Z :=
  let last_day_of_month := Calendar.last_day_of current_year current_month in
  if (rt_frequency rec =? "monthly")%string then
    let target_day := Z.min (int_or (rt_day rec) 1) last_day_of_month in
    if target_day <=? current_day then [target_day] else []
  else if (rt_frequency rec =? "weekly")%string then
    let rec_day_of_week := int_or (rt_day rec) 0 in
    filter (fun day =>
              Calendar.weekday current_year current_month day =? rec_day_of_week)
           (Fmt.range 1 (current_day + 1))
  else if (rt_frequency rec =? "yearly")%string then
    let target_day := Z.min (int_or (rt_day rec) 1) last_day_of_month in
    let rec_created := rt_created_at rec in
    if (dt_month rec_created =? current_month) && (target_day <=? current_day)
    then [target_day] else []
  else [].

Definition dates_to_create (rec : RecurringTransaction)
    (current_year current_month current_day : Z) : list string :=
  map (Fmt.ymd current_year current_month)
      (due_days rec current_year current_month current_day).

(** Row of [recurring_transaction_versions]. *)
Record RecurringTransactionVersion : Type := mk_version {
  rv_id : string;
  rv_recurring_transaction_id : string;
  rv_title : string;
  rv_amount : Q;
  rv_category_id : option string;
  rv_frequency : string;
  rv_day : option Z;
  rv_effective_from : string;
  rv_effective_until : option string;
  rv_created_at : datetime;
  rv_change_reason : option string
}.

(** Row of [transactions]. *)
Record Transaction : Type := mk_transaction {
  tx_id : string;
  tx_budget_id : string;
  tx_category_id : option string;
  tx_title : string;
  tx_amount : Q;
  tx_transaction_type : string;
  tx_date : string;
  tx_comment : option string;
  tx_is_recurring : Z;
  tx_paid_by_user_id : option string;
  tx_created_at : datetime
}.

(** The columns of [categories] the recurring routes join on. *)
Record Category : Type := mk_category {
  cat_id : string;
  cat_name : string;
  cat_parent_id : option string
}.

(** The store the session [db] talks to; a table is the list of its
    rows in insertion order. *)
Record Database : Type := mk_db {
  recurring_transactions : list RecurringTransaction;
  recurring_transaction_versions : list RecurringTransactionVersion;
  transactions : list Transaction;
  categories : list Category
}.

(** Request body of [POST /budgets/{budget_id}/recurring]. *)
Record CreateRecurringTransaction : Type := mk_create {
  cr_category_id : option string;
  cr_title : string;
  cr_amount : Q;
  cr_transaction_type : string;
  cr_frequency : string;
  cr_day : option Z
}.

(** Request body of [PUT /recurring/{recurring_id}]: a sparse patch. *)
Record UpdateRecurringTransaction : Type := mk_update {
  up_title : option string;
  up_amount : option Q;
  up_category_id : option string;
  up_frequency : option string;
  up_day : option Z;
  up_effective_date : option string;
  up_change_reason : option string
}.

(** Response model of the recurring routes. *)
Record RecurringTransactionWithCategory : Type := mk_with_category {
  wc_id : string;
  wc_budget_id : string;
  wc_category_id : option string;
  wc_category_name : string;
  wc_parent_category_id : option string;
  wc_parent_category_name : option string;
  wc_title : string;
  wc_amount : Q;
  wc_transaction_type : string;
  wc_frequency : string;
  wc_day : option Z;
  wc_active : Z;
  wc_created_at : datetime;
  wc_pending_version : option RecurringTransactionVersion
}.

(* ================================================================= *)
(** ** Comparisons as Python and SQLite make them *)

(** [a <= b] and [a > b] on [str]: code-point order, which is also
    SQLite's BINARY collation on the stored text. *)
Definition str_le (a b : string) : bool := String.leb a b.
Definition str_gt (a b : string) : bool := String.ltb b a.

(** SQL [col = :param] on a nullable text column: a comparison with
    NULL on either side is never true. *)
Definition sql_eq_text (col param : option string) : bool :=
  match col, param with
  | Some a, Some b => (a =? b)%string
  | _, _ => false
  end.

(** [x if x is not None else y]. *)
Definition if_not_none {A : Type} (x : option A) (y : A) : A :=
  match x with Some v => v | None => y end.

(** [x if x is not None else y] where the kept value is itself nullable. *)
Definition patch_nullable {A : Type} (x : option A) (y : option A) : option A :=
  match x with Some v => Some v | None => y end.

(** [s or default] on an optional string: [None] and [""] are falsy. *)
Definition str_or (s : option string) (default : string) : string :=
  match s with
  | None => default
  | Some v => if (v =? "")%string then default else v
  end.

(** [ORDER BY]: rows come out sorted, rows with equal keys in the order
    the table scan met them, which is how SQLite breaks the tie. *)
Section OrderBy.
Context {A : Type} (before : A -> A -> bool).

Fixpoint insert_row (x : A) (l : list A) : list A :=
  match l with
  | [] => [x]
  | y :: l' => if before x y then x :: y :: l' else y :: insert_row x l'
  end.

Fixpoint order_by (l : list A) : list A :=
  match l with
  | [] => []
  | x :: l' => insert_row x (order_by l')
  end.
End OrderBy.

Definition effective_from_asc (a b : RecurringTransactionVersion) : bool :=
  str_le (rv_effective_from a) (rv_effective_from b).
Definition effective_from_desc (a b : RecurringTransactionVersion) : bool :=
  str_le (rv_effective_from b) (rv_effective_from a).

(* ================================================================= *)
(** ** Route handlers: state plus [HTTPException] *)

Inductive HTTPException : Type :=
| HTTP (status_code : Z) (detail : string).

Definition HTTP_404_NOT_FOUND : Z := 404.
Definition HTTP_400_BAD_REQUEST : Z := 400.

Definition Handler (A : Type) : Type :=
  Database -> (HTTPException + A) * Database.

Definition ret {A : Type} (a : A) : Handler A := fun db => (inr a, db).
Definition raise {A : Type} (e : HTTPException) : Handler A := fun db => (inl e, db).
Definition bind {A B : Type} (m : Handler A) (k : A -> Handler B) : Handler B :=
  fun db =>
    match m db with
    | (inl e, db') => (inl e, db')
    | (inr a, db') => k a db'
    end.
Definition query {A : Type} (f : Database -> A) : Handler A := fun db => (inr (f db), db).
Definition execute (f : Database -> Database) : Handler unit := fun db => (inr tt, f db).

Notation "x <- m ;; k" := (bind m (fun x => k))
  (at level 61, m at next level, right associativity).
Notation "m ;;; k" := (bind m (fun _ => k))
  (at level 61, right associativity).

(** Table updates. *)
Definition set_recurring (f : list RecurringTransaction -> list RecurringTransaction)
    (db : Database) : Database :=
  mk_db (f (recurring_transactions db)) (recurring_transaction_versions db)
        (transactions db) (categories db).
Definition set_versions
    (f : list RecurringTransactionVersion -> list RecurringTransactionVersion)
    (db : Database) : Database :=
  mk_db (recurring_transactions db) (f (recurring_transaction_versions db))
        (transactions db) (categories db).
Definition set_transactions (f : list Transaction -> list Transaction)
    (db : Database) : Database :=
  mk_db (recurring_transactions db) (recurring_transaction_versions db)
        (f (transactions db)) (categories db).

(** [SELECT ... FROM recurring_transactions WHERE id = :id], [fetchone()]. *)
Definition select_recurring (recurring_id : string) (db : Database)
    : option RecurringTransaction :=
  find (fun r => (rt_id r =? recurring_id)%string) (recurring_transactions db).

(** The "pending future version" query every recurring route repeats:
    [WHERE recurring_transaction_id = :recurring_id AND effective_from > :today
     AND effective_until IS NULL ORDER BY effective_from ASC LIMIT 1]. *)
Definition is_pending (recurring_id today : string)
    (v : RecurringTransactionVersion) : bool :=
  (rv_recurring_transaction_id v =? recurring_id)%string
  && str_gt (rv_effective_from v) today
  && match rv_effective_until v with None => true | Some _ => false end.

Definition select_pending (recurring_id today : string) (db : Database)
    : option RecurringTransactionVersion :=
  hd_error (order_by effective_from_asc
              (filter (is_pending recurring_id today)
                      (recurring_transaction_versions db))).

(** The two [LEFT JOIN categories] and the response model built from them. *)
Definition find_category (cid : option string) (db : Database) : option Category :=
  match cid with
  | None => None
  | Some c => find (fun k => (cat_id k =? c)%string) (categories db)
  end.

Definition with_category (db : Database) (row : RecurringTransaction)
    (pending_version : option RecurringTransactionVersion)
    : RecurringTransactionWithCategory :=
  let c := find_category (rt_category_id row) db in
  let pc := find_category (match c with Some k => cat_parent_id k | None => None end) db in
  mk_with_category
    (rt_id row) (rt_budget_id row) (rt_category_id row)
    (str_or (option_map cat_name c) "Unknown")
    (match c with Some k => cat_parent_id k | None => None end)
    (option_map cat_name pc)
    (rt_title row) (rt_amount row) (rt_transaction_type row)
    (rt_frequency row) (rt_day row) (rt_active row) (rt_created_at row)
    pending_version.

(** A [None] row dereferenced by the route body: an unhandled
    [AttributeError], which FastAPI answers with status 500. *)
Definition internal_server_error : HTTPException := HTTP 500 "Internal Server Error".

(** A Python [int] bound to an SQLite INTEGER parameter must fit in 64
    signed bits ([None] binds as NULL); outside that range the driver
    raises [OverflowError] at [execute], which no route catches and
    FastAPI answers with status 500. *)
Definition sqlite_integer (x : option Z) : bool :=
  match x with
  | None => true
  | Some v => (- 2 ^ 63 <=? v) && (v <=? 2 ^ 63 - 1)
  end.

Definition overflow_error : HTTPException := HTTP 500 "Internal Server Error".

(** An exception raised before [db.commit()]: the session is closed
    without a commit and the store stays as it was last committed. *)
Definition abort {A : Type} (e : HTTPException) (committed : Database)
    : Handler A :=
  fun _ => (inl e, committed).

(** [create_recurring_transaction]; [recurring_id] is the [uuid4()] drawn
    by the call and [now] the clock reading.  The INSERT binds
    [payload.day] to an INTEGER column and raises when it does not fit;
    nothing has been written by then. *)
Definition create_recurring_transaction (budget_id : string)
    (payload : CreateRecurringTransaction)
    (recurring_id : string) (now : datetime)
    : Handler RecurringTransactionWithCategory :=
  (if sqlite_integer (cr_day payload)
   then execute (set_recurring (fun rows => rows ++
          [mk_recurring recurring_id budget_id (cr_category_id payload)
             (cr_title payload) (cr_amount payload) (cr_transaction_type payload)
             (cr_frequency payload) (cr_day payload) 1 now]))
   else raise overflow_error) ;;;
  row <- query (select_recurring recurring_id) ;;
  db <- query (fun db => db) ;;
  match row with
  | None => raise internal_server_error
  | Some row => ret (with_category db row None)
  end.

(** [delete_recurring_transaction]: one [DELETE ... WHERE id = :id], no
    existence check, status 204.  Whether the versions of a deleted
    template go with it is decided by the schema's foreign key, which
    is not part of the route: [on_delete_cascade] stands for it. *)
Definition delete_recurring_transaction (on_delete_cascade : bool)
    (recurring_id : string) : Handler unit :=
  execute (fun db =>
    let matches (r : RecurringTransaction) := (rt_id r =? recurring_id)%string in
    let deleted := existsb matches (recurring_transactions db) in
    let db' := set_recurring (filter (fun r => negb (matches r))) db in
    if on_delete_cascade && deleted
    then set_versions
           (filter (fun v => negb (rv_recurring_transaction_id v =? recurring_id)%string))
           db'
    else db').

(** The [UPDATE recurring_transaction_versions SET effective_until = :today
    WHERE recurring_transaction_id = :recurring_id AND effective_until IS NULL
    AND effective_from <= :today] of the apply-now path, row by row. *)
Definition is_current_open (recurring_id today : string)
    (v : RecurringTransactionVersion) : bool :=
  (rv_recurring_transaction_id v =? recurring_id)%string
  && match rv_effective_until v with None => true | Some _ => false end
  && str_le (rv_effective_from v) today.

Definition set_effective_until (until : option string)
    (v : RecurringTransactionVersion) : RecurringTransactionVersion :=
  mk_version (rv_id v) (rv_recurring_transaction_id v) (rv_title v) (rv_amount v)
    (rv_category_id v) (rv_frequency v) (rv_day v) (rv_effective_from v)
    until (rv_created_at v) (rv_change_reason v).

Definition close_current (recurring_id today : string)
    (v : RecurringTransactionVersion) : RecurringTransactionVersion :=
  if is_current_open recurring_id today v
  then set_effective_until (Some today) v
  else v.

(** The [UPDATE recurring_transactions SET title = ..., amount = ...,
    category_id = ..., frequency = ..., day = ... WHERE id = :id], row by row. *)
Definition overwrite_fields (recurring_id : string)
    (new_title : string) (new_amount : Q) (new_category_id : option string)
    (new_frequency : string) (new_day : option Z)
    (r : RecurringTransaction) : RecurringTransaction :=
  if (rt_id r =? recurring_id)%string
  then mk_recurring (rt_id r) (rt_budget_id r) new_category_id new_title new_amount
         (rt_transaction_type r) new_frequency new_day (rt_active r) (rt_created_at r)
  else r.

(** The version row both branches of [update_recurring_transaction] insert. *)
Definition new_version_of (row : RecurringTransaction)
    (payload : UpdateRecurringTransaction) (recurring_id version_id : string)
    (now : datetime) : RecurringTransactionVersion :=
  let today := strftime_ymd now in
  let effective_date := str_or (up_effective_date payload) today in
  mk_version version_id recurring_id
    (if_not_none (up_title payload) (rt_title row))
    (if_not_none (up_amount payload) (rt_amount row))
    (patch_nullable (up_category_id payload) (rt_category_id row))
    (if_not_none (up_frequency payload) (rt_frequency row))
    (patch_nullable (up_day payload) (rt_day row))
    effective_date None now (up_change_reason payload).

(** [update_recurring_transaction]; [version_id] is the [uuid4()] drawn
    by the call and [now] the clock reading.  The INSERT of the version
    binds [new_day] to an INTEGER column and raises when it does not
    fit; it comes before the single [db.commit()], so the closing UPDATE
    of the apply-now branch is lost with it and the store stays as the
    call found it. *)
Definition update_recurring_transaction (recurring_id : string)
    (payload : UpdateRecurringTransaction)
    (version_id : string) (now : datetime)
    : Handler RecurringTransactionWithCategory :=
  fun committed =>
  (row <- query (select_recurring recurring_id) ;;
   match row with
   | None => raise (HTTP HTTP_404_NOT_FOUND "Recurring transaction not found")
   | Some row =>
     let today := strftime_ymd now in
     let effective_date := str_or (up_effective_date payload) today in
     let new_title := if_not_none (up_title payload) (rt_title row) in
     let new_amount := if_not_none (up_amount payload) (rt_amount row) in
     let new_category_id := patch_nullable (up_category_id payload) (rt_category_id row) in
     let new_frequency := if_not_none (up_frequency payload) (rt_frequency row) in
     let new_day := patch_nullable (up_day payload) (rt_day row) in
     let version := new_version_of row payload recurring_id version_id now in
     let insert_version :=
       if sqlite_integer new_day
       then execute (set_versions (fun vs => vs ++ [version]))
       else abort overflow_error committed in
     (if str_le effective_date today then
        execute (set_versions (map (close_current recurring_id today))) ;;;
        insert_version ;;;
        execute (set_recurring
                   (map (overwrite_fields recurring_id new_title new_amount
                           new_category_id new_frequency new_day)))
      else
        insert_version) ;;;
     row <- query (select_recurring recurring_id) ;;
     pending_version <- query (select_pending recurring_id today) ;;
     db <- query (fun db => db) ;;
     match row with
     | None => raise internal_server_error
     | Some row => ret (with_category db row pending_version)
     end
   end) committed.

(** [get_recurring_versions]: the history, newest [effective_from] first. *)
Definition get_recurring_versions (recurring_id : string)
    : Handler (list RecurringTransactionVersion) :=
  row <- query (select_recurring recurring_id) ;;
  match row with
  | None => raise (HTTP HTTP_404_NOT_FOUND "Recurring transaction not found")
  | Some _ =>
    query (fun db =>
      order_by effective_from_desc
        (filter (fun v => (rv_recurring_transaction_id v =? recurring_id)%string)
                (recurring_transaction_versions db)))
  end.

(** [delete_recurring_version]: cancel a scheduled version. *)
Definition delete_recurring_version (version_id : string) (now : datetime)
    : Handler unit :=
  let today := strftime_ymd now in
  row <- query (fun db =>
           find (fun v => (rv_id v =? version_id)%string)
                (recurring_transaction_versions db)) ;;
  match row with
  | None => raise (HTTP HTTP_404_NOT_FOUND "Version not found")
  | Some row =>
    if str_le (rv_effective_from row) today
    then raise (HTTP HTTP_400_BAD_REQUEST "Cannot delete past or current versions")
    else execute (set_versions
                    (filter (fun v => negb (rv_id v =? version_id)%string)))
  end.

(* ================================================================= *)
(** ** Materialization *)

(** The existence query guarding every insert:
    [WHERE budget_id = :budget_id AND category_id = :category_id
     AND title = :title AND amount = :amount AND date = :date
     AND is_recurring = 1]. *)
Definition matches_occurrence (budget_id : string) (rec : RecurringTransaction)
    (date_str : string) (t : Transaction) : bool :=
  (tx_budget_id t =? budget_id)%string
  && sql_eq_text (tx_category_id t) (rt_category_id rec)
  && (tx_title t =? rt_title rec)%string
  && Qeq_bool (tx_amount t) (rt_amount rec)
  && (tx_date t =? date_str)%string
  && (tx_is_recurring t =? 1).

Definition existing (budget_id : string) (rec : RecurringTransaction)
    (date_str : string) (rows : list Transaction) : option Transaction :=
  find (matches_occurrence budget_id rec date_str) rows.

(** The transaction inserted for one due date. *)
Definition generated (budget_id : string) (rec : RecurringTransaction)
    (date_str transaction_id : string) (created_at : datetime) : Transaction :=
  mk_transaction transaction_id budget_id (rt_category_id rec) (rt_title rec)
    (rt_amount rec) (rt_transaction_type rec) date_str
    (Some ("Auto-generated from recurring: " ++ rt_title rec)%string)
    1 None created_at.

(** The loops of [process_recurring_transactions] carry the list of
    created transactions and the table; the [n]-th insert of a call draws
    its identifier from [uuid4 n] and its timestamp from [clock n]. *)
Section Materialize.
Variables (uuid4 : nat -> string) (clock : nat -> datetime).
Variable budget_id : string.

Definition process_date (rec : RecurringTransaction)
    (acc : list Transaction * list Transaction) (date_str : string)
    : list Transaction * list Transaction :=
  let '(created_transactions, rows) := acc in
  match existing budget_id rec date_str rows with
  | Some _ => acc
  | None =>
    let n := List.length created_transactions in
    let t := generated budget_id rec date_str (uuid4 n) (clock n) in
    (created_transactions ++ [t], rows ++ [t])
  end.

Definition process_template (current_year current_month current_day : Z)
    (acc : list Transaction * list Transaction) (rec : RecurringTransaction)
    : list Transaction * list Transaction :=
  fold_left (process_date rec)
            (dates_to_create rec current_year current_month current_day) acc.

(** [WHERE budget_id = :budget_id AND active = 1]. *)
Definition active_templates (db : Database) : list RecurringTransaction :=
  filter (fun r => (rt_budget_id r =? budget_id)%string && (rt_active r =? 1))
         (recurring_transactions db).

Definition process_recurring_transactions (now : datetime)
    : Handler (list Transaction) :=
  let current_year := dt_year now in
  let current_month := dt_month now in
  let current_day := dt_day now in
  recurring_rows <- query active_templates ;;
  rows <- query transactions ;;
  let '(created_transactions, rows') :=
    fold_left (process_template current_year current_month current_day)
              recurring_rows ([], rows) in
  execute (set_transactions (fun _ => rows')) ;;;
  ret created_transactions.
End Materialize.

(* ================================================================= *)
(** ** Plain transactions and the remaining recurring routes *)

(** Request body of [POST /budgets/{budget_id}/transactions]. *)
Record CreateTransaction : Type := mk_create_transaction {
  ct_category_id : option string;
  ct_title : string;
  ct_amount : Q;
  ct_transaction_type : string;
  ct_date : string;
  ct_comment : option string;
  ct_paid_by_user_id : option string
}.

(** Request body of [PUT /transactions/{transaction_id}]: a sparse patch. *)
Record UpdateTransaction : Type := mk_update_transaction {
  ut_category_id : option string;
  ut_title : option string;
  ut_amount : option Q;
  ut_transaction_type : option string;
  ut_date : option string;
  ut_comment : option string;
  ut_paid_by_user_id : option string
}.

(** [SELECT ... FROM transactions WHERE id = :id], [fetchone()]. *)
Definition select_transaction (transaction_id : string) (db : Database)
    : option Transaction :=
  find (fun t => (tx_id t =? transaction_id)%string) (transactions db).

Definition date_desc (a b : Transaction) : bool := str_le (tx_date b) (tx_date a).

(** [get_transactions]: the rows of one budget, newest date first. *)
Definition get_transactions (budget_id : string) : Handler (list Transaction) :=
  query (fun db =>
    order_by date_desc
      (filter (fun t => (tx_budget_id t =? budget_id)%string) (transactions db))).

(** [create_transaction]; [transaction_id] is the [uuid4()] drawn by the
    call and [now] the clock reading. *)
Definition create_transaction (budget_id : string) (payload : CreateTransaction)
    (transaction_id : string) (now : datetime) : Handler Transaction :=
  execute (set_transactions (fun rows => rows ++
    [mk_transaction transaction_id budget_id (ct_category_id payload)
       (ct_title payload) (ct_amount payload) (ct_transaction_type payload)
       (ct_date payload) (ct_comment payload) 0 (ct_paid_by_user_id payload)
       now])) ;;;
  row <- query (select_transaction transaction_id) ;;
  match row with
  | None => raise internal_server_error
  | Some row => ret row
  end.

(** [delete_transaction]: one [DELETE ... WHERE id = :id], status 204. *)
Definition delete_transaction (transaction_id : string) : Handler unit :=
  execute (set_transactions
             (filter (fun t => negb (tx_id t =? transaction_id)%string))).

(** The [SET] clauses [update_transaction] collects: one per field of
    the payload that is not [None]. *)
Definition patch_transaction (payload : UpdateTransaction) (t : Transaction)
    : Transaction :=
  mk_transaction (tx_id t) (tx_budget_id t)
    (patch_nullable (ut_category_id payload) (tx_category_id t))
    (if_not_none (ut_title payload) (tx_title t))
    (if_not_none (ut_amount payload) (tx_amount t))
    (if_not_none (ut_transaction_type payload) (tx_transaction_type t))
    (if_not_none (ut_date payload) (tx_date t))
    (patch_nullable (ut_comment payload) (tx_comment t))
    (tx_is_recurring t)
    (patch_nullable (ut_paid_by_user_id payload) (tx_paid_by_user_id t))
    (tx_created_at t).

Definition is_some {A : Type} (x : option A) : bool :=
  match x with Some _ => true | None => false end.

(** [if updates:] -- the list of [SET] clauses is not empty. *)
Definition has_updates (payload : UpdateTransaction) : bool :=
  is_some (ut_category_id payload) || is_some (ut_title payload)
  || is_some (ut_amount payload) || is_some (ut_transaction_type payload)
  || is_some (ut_date payload) || is_some (ut_comment payload)
  || is_some (ut_paid_by_user_id payload).

(** [UPDATE transactions SET ... WHERE id = :id], row by row. *)
Definition patch_where (transaction_id : string) (payload : UpdateTransaction)
    (t : Transaction) : Transaction :=
  if (tx_id t =? transaction_id)%string then patch_transaction payload t else t.

(** [update_transaction]. *)
Definition update_transaction (transaction_id : string)
    (payload : UpdateTransaction) : Handler Transaction :=
  found <- query (select_transaction transaction_id) ;;
  match found with
  | None => raise (HTTP HTTP_404_NOT_FOUND "Transaction not found")
  | Some _ =>
    (if has_updates payload
     then execute (set_transactions (map (patch_where transaction_id payload)))
     else ret tt) ;;;
    row <- query (select_transaction transaction_id) ;;
    match row with
    | None => raise internal_server_error
    | Some row => ret row
    end
  end.


(** [UPDATE recurring_transactions SET active = :active WHERE id = :id],
    row by row. *)
Definition set_active (recurring_id : string) (new_active : Z)
    (r : RecurringTransaction) : RecurringTransaction :=
  if (rt_id r =? recurring_id)%string
  then mk_recurring (rt_id r) (rt_budget_id r) (rt_category_id r) (rt_title r)
         (rt_amount r) (rt_transaction_type r) (rt_frequency r) (rt_day r)
         new_active (rt_created_at r)
  else r.

(** [toggle_recurring_transaction]; [0 if row.active else 1] makes any
    non-zero flag 0 and a zero flag 1. *)
Definition toggle_recurring_transaction (recurring_id : string) (now : datetime)
    : Handler RecurringTransactionWithCategory :=
  row <- query (select_recurring recurring_id) ;;
  match row with
  | None => raise (HTTP HTTP_404_NOT_FOUND "Recurring transaction not found")
  | Some row =>
    let new_active := if rt_active row =? 0 then 1 else 0 in
    execute (set_recurring (map (set_active recurring_id new_active))) ;;;
    let today := strftime_ymd now in
    row <- query (select_recurring recurring_id) ;;
    pending_version <- query (select_pending recurring_id today) ;;
    db <- query (fun db => db) ;;
    match row with
    | None => raise internal_server_error
    | Some row => ret (with_category db row pending_version)
    end
  end.

(* ================================================================= *)
(** ** Timelines: route calls interleaved with the passage of time *)

(** The store together with the reading of the external clock. *)
Record World : Type := mk_world {
  w_db : Database;
  w_now : datetime
}.

Definition w_today (w : World) : string := strftime_ymd (w_now w).

Inductive Op : Type :=
| SubmitUpdate (recurring_id : string) (payload : UpdateRecurringTransaction)
               (version_id : string)
| CancelPending (version_id : string)
| Tick (later : datetime).

Definition apply_op (w : World) (o : Op) : World :=
  match o with
  | SubmitUpdate recurring_id payload version_id =>
      mk_world (snd (update_recurring_transaction recurring_id payload version_id
                       (w_now w) (w_db w)))
               (w_now w)
  | CancelPending version_id =>
      mk_world (snd (delete_recurring_version version_id (w_now w) (w_db w)))
               (w_now w)
  | Tick later => mk_world (w_db w) later
  end.

Definition run (ops : list Op) (w : World) : World := fold_left apply_op ops w.

(** A property of every step of a timeline. *)
Fixpoint every_step (P : World -> Op -> bool) (ops : list Op) (w : World) : bool :=
  match ops with
  | [] => true
  | o :: ops' => P w o && every_step P ops' (apply_op w o)
  end.

(** The clock never runs backwards. *)
Definition forward (w : World) (o : Op) : bool :=
  match o with
  | Tick later => str_le (w_today w) (strftime_ymd later)
  | _ => true
  end.

Definition is_open (v : RecurringTransactionVersion) : bool :=
  match rv_effective_until v with None => true | Some _ => false end.

(** The clock moves onto or past the [effective_from] of a version that
    is still open and pending. *)
Definition overtakes_pending (w : World) (o : Op) : bool :=
  match o with
  | Tick later =>
      existsb (fun v => is_open v
                        && str_gt (rv_effective_from v) (w_today w)
                        && str_le (rv_effective_from v) (strftime_ymd later))
              (recurring_transaction_versions (w_db w))
  | _ => false
  end.

(** The step stays short of every open pending version. *)
Definition leaves_pending (w : World) (o : Op) : bool := negb (overtakes_pending w o).

(** The versions of a template that are open and in force at [today]. *)
Definition current_open (recurring_id today : string) (db : Database)
    : list RecurringTransactionVersion :=
  filter (is_current_open recurring_id today) (recurring_transaction_versions db).

(** The versions of a template with [effective_until] unset. *)
Definition open_versions (recurring_id : string) (db : Database)
    : list RecurringTransactionVersion :=
  filter (fun v => (rv_recurring_transaction_id v =? recurring_id)%string && is_open v)
         (recurring_transaction_versions db).

(** What [ORDER BY effective_from ASC LIMIT 1] promises whatever the
    engine does with equal keys: a pending version of the template that
    no other pending version precedes. *)
Definition earliest_pending (recurring_id today : string) (db : Database)
    (v : RecurringTransactionVersion) : Prop :=
  In v (recurring_transaction_versions db)
  /\ is_pending recurring_id today v = true
  /\ forall w, In w (recurring_transaction_versions db) ->
               is_pending recurring_id today w = true ->
               str_le (rv_effective_from v) (rv_effective_from w) = true.

(** At most one version of each template is open and in force today. *)
Definition at_most_one_current (w : World) : Prop :=
  forall recurring_id,
    (List.length (current_open recurring_id (w_today w) (w_db w)) <= 1)%nat.

(** The store [update_recurring_transaction] commits for a known
    template when its inserts go through. *)
Definition updated_store (row : RecurringTransaction)
    (recurring_id : string) (payload : UpdateRecurringTransaction)
    (version_id : string) (now : datetime) (db : Database) : Database :=
  let today := strftime_ymd now in
  let version := new_version_of row payload recurring_id version_id now in
  if str_le (str_or (up_effective_date payload) today) today
  then set_recurring
         (map (overwrite_fields recurring_id
                 (rv_title version) (rv_amount version) (rv_category_id version)
                 (rv_frequency version) (rv_day version)))
         (set_versions (fun vs => vs ++ [version])
            (set_versions (map (close_current recurring_id today)) db))
  else set_versions (fun vs => vs ++ [version]) db.

(** The existence query of a template and date finds a row. *)
Definition covered (budget_id : string) (rows : list Transaction)
    (rec : RecurringTransaction) (date_str : string) : Prop :=
  existing budget_id rec date_str rows <> None.

(** A calendar date the clock can supply. *)
Definition plausible_date (year month day : Z) : Prop :=
  1000 <= year <= 9999 /\ 1 <= month <= 12 /\ 1 <= day <= 31.

Definition comparison_eqb (c c' : comparison) : bool :=
  match c, c' with
  | Eq, Eq | Lt, Lt | Gt, Gt => true
  | _, _ => false
  end.

(** [t] is the row the materialization builds for one of the templates
    [recs] and one of that template's due dates. *)
Definition generated_from (budget_id : string)
    (current_year current_month current_day : Z)
    (recs : list RecurringTransaction) (t : Transaction) : Prop :=
  exists rec date_str transaction_id created_at,
    In rec recs
    /\ In date_str (dates_to_create rec current_year current_month current_day)
    /\ t = generated budget_id rec date_str transaction_id created_at.

(** How many stored rows the existence query of a template and date matches. *)
Definition count_matching (budget_id : string) (rec : RecurringTransaction)
    (date_str : string) (rows : list Transaction) : nat :=
  List.length (filter (matches_occurrence budget_id rec date_str) rows).

(** The history query of [get_recurring_versions], before sorting. *)
Definition versions_of (recurring_id : string) (db : Database)
    : list RecurringTransactionVersion :=
  filter (fun v => (rv_recurring_transaction_id v =? recurring_id)%string)
         (recurring_transaction_versions db).

(* ================================================================= *)
(** ** Sample data *)

Section SampleData.
Local Open Scope string_scope.

(** Saturday 15 June 2024, mid-morning. *)
Definition sample_now : datetime := mk_datetime 2024 6 15 10 0 0 0.
Definition sample_next_day : datetime := mk_datetime 2024 6 16 9 30 0 0.
Definition sample_june_20 : datetime := mk_datetime 2024 6 20 8 0 0 0.
Definition sample_july_1 : datetime := mk_datetime 2024 7 1 0 5 0 0.
Definition sample_july_5 : datetime := mk_datetime 2024 7 5 12 0 0 0.

Definition sample_rent : RecurringTransaction :=
  mk_recurring "r1" "b1" (Some "c1") "Rent" (1000 # 1) "expense" "monthly"
    (Some 1) 1 sample_now.

Definition sample_db : Database :=
  mk_db [sample_rent] [] [] [mk_category "c1" "Housing" None].

Definition sample_world : World := mk_world sample_db sample_now.

(** A patch of the amount alone, as the tests send it. *)
Definition patch_amount (amount : Q) (effective_date : option string)
    : UpdateRecurringTransaction :=
  mk_update None (Some amount) None None None effective_date None.

(** An update applied at once, one scheduled for 1 July, and the clock
    reaching 1 July. *)
Definition sample_overtaken : list Op :=
  [ SubmitUpdate "r1" (patch_amount (1100 # 1) None) "v1";
    SubmitUpdate "r1" (patch_amount (1200 # 1) (Some "2024-07-01")) "v2";
    Tick sample_july_1 ].

(** The same updates, the scheduled one cancelled before its day. *)
Definition sample_cancelled : list Op :=
  [ SubmitUpdate "r1" (patch_amount (1100 # 1) None) "v1";
    SubmitUpdate "r1" (patch_amount (1200 # 1) (Some "2024-07-01")) "v2";
    Tick sample_june_20;
    CancelPending "v2";
    Tick sample_july_5 ].

(** The store after one update scheduled for 2030. *)
Definition sample_scheduled_db : Database :=
  snd (update_recurring_transaction "r1"
         (patch_amount (1200 # 1) (Some "2030-01-01")) "v1" sample_now sample_db).

(** A template without a category, first of the month. *)
Definition sample_gym : RecurringTransaction :=
  mk_recurring "r2" "b2" None "Gym" (30 # 1) "expense" "monthly"
    (Some 1) 1 sample_now.

Definition sample_gym_db : Database := mk_db [sample_gym] [] [] [].

(** Templates for the calendar rules: the 31st of each month, every
    Friday, and once a year on the 10th. *)
Definition sample_month_end : RecurringTransaction :=
  mk_recurring "r3" "b1" (Some "c1") "Savings" (200 # 1) "expense" "monthly"
    (Some 31) 1 sample_now.
Definition sample_fridays : RecurringTransaction :=
  mk_recurring "r4" "b1" (Some "c1") "Groceries" (100 # 1) "expense" "weekly"
    (Some 4) 1 sample_now.
Definition sample_insurance : RecurringTransaction :=
  mk_recurring "r5" "b1" (Some "c1") "Insurance" (450 # 1) "expense" "yearly"
    (Some 10) 1 sample_now.

(** Identifier and timestamp supplies for the inserts of one run. *)
Definition sample_uuid4 (run_name : string) (n : nat) : string :=
  run_name ++ "-" ++ Fmt.dec (Z.of_nat n).
Definition sample_clock (now : datetime) (_ : nat) : datetime := now.

(** The identifier of the pending version a response carries. *)
Definition pending_id (r : HTTPException + RecurringTransactionWithCategory)
    : option string :=
  match r with
  | inr response => option_map rv_id (wc_pending_version response)
  | inl _ => None
  end.

End SampleData.

(* ================================================================= *)
(** ** The bank-statement import script: line clean-up *)

(** [s.split(sep, 1)[1]] when [sep in s]: what follows the first
    occurrence of the separator.  Strings are the UTF-8 bytes of the
    text, on which the first occurrence of a character is the first
    occurrence of its encoding. *)
Fixpoint after_first (sep s : string) : option string :=
  if String.prefix sep s
  then Some (String.substring (String.length sep)
               (String.length s - String.length sep) s)
  else match s with
       | EmptyString => None
       | String _ s' => after_first sep s'
       end.

(** [clean_line] of [import_transactions.py]. *)
Definition clean_line (line : string) : string :=
  match after_first "→" line with
  | Some rest => rest
  | None => line
  end.

(** No byte of [s] is the byte [c]. *)
Fixpoint free_of (c : ascii) (s : string) : bool :=
  match s with
  | EmptyString => true
  | String x s' => negb (Ascii.eqb x c) && free_of c s'
  end.

(* ================================================================= *)
(** ** Sample data for the remaining routes *)

Section MoreSampleData.
Local Open Scope string_scope.

Definition sample_groceries : Transaction :=
  mk_transaction "t1" "b1" (Some "c1") "Groceries" (151 # 2) "expense"
    "2024-01-15" (Some "Weekly groceries") 0 None sample_now.
Definition sample_salary : Transaction :=
  mk_transaction "t2" "b1" (Some "c1") "Salary" (3000 # 1) "income"
    "2024-02-01" None 0 None sample_now.

Definition sample_ledger_db : Database :=
  mk_db [sample_rent; sample_fridays] [] [sample_groceries; sample_salary]
        [mk_category "c1" "Housing" None].

(** A patch of the title and amount, as the tests send it. *)
Definition sample_patch : UpdateTransaction :=
  mk_update_transaction None (Some "Market") (Some (160 # 1)) None None None None.

Definition sample_purchase : CreateTransaction :=
  mk_create_transaction (Some "c1") "Shared Expense" (100 # 1) "expense"
    "2024-01-15" None (Some "u1").

(** A patch of the day alone; [2 ^ 63] is the first value SQLite's
    INTEGER cannot hold. *)
Definition patch_day (day : Z) (effective_date : option string)
    : UpdateRecurringTransaction :=
  mk_update None None None None (Some day) effective_date None.

(** A scheduled change of amount, category and day, with a reason. *)
Definition sample_future_patch : UpdateRecurringTransaction :=
  mk_update None (Some (1200 # 1)) (Some "c2") None (Some 5)
    (Some "2030-01-01") (Some "raise").

(** A change of amount, category and day applied at once. *)
Definition sample_move_patch : UpdateRecurringTransaction :=
  mk_update None (Some (1100 # 1)) (Some "c2") None (Some 5) None None.

(** Two templates for the same rent, both due on the first. *)
Definition sample_rent_twin : RecurringTransaction :=
  mk_recurring "r7" "b1" (Some "c1") "Rent" (1000 # 1) "expense" "monthly"
    (Some 1) 1 sample_now.
Definition sample_twin_db : Database :=
  mk_db [sample_rent; sample_rent_twin] [] [] [mk_category "c1" "Housing" None].

(** Friday 22 November 2024. *)
Definition sample_november_22 : datetime := mk_datetime 2024 11 22 18 0 0 0.

End MoreSampleData.

(* ================================================================= *)
(** * Properties *)

(* ================================================================= *)
(** ** Order on date strings *)

Section StringOrder.

Lemma ascii_compare_refl (a : ascii) : Ascii.compare a a = Eq.
Proof. unfold Ascii.compare. apply N.compare_refl. Qed.

Lemma ascii_compare_lt_trans (a b c : ascii) :
  Ascii.compare a b = Lt -> Ascii.compare b c = Lt -> Ascii.compare a c = Lt.
Proof.
  unfold Ascii.compare. rewrite !N.compare_lt_iff. apply N.lt_trans.
Qed.

Lemma string_compare_refl (s : string) : String.compare s s = Eq.
Proof. induction s as [|c s IH]; simpl; [reflexivity|]. now rewrite ascii_compare_refl. Qed.

Lemma string_compare_le_trans (a b c : string) :
  String.compare a b <> Gt -> String.compare b c <> Gt -> String.compare a c <> Gt.
Proof.
  revert b c.
  induction a as [|x a IH]; intros [|y b] [|z c]; simpl; try congruence.
  destruct (Ascii.compare x y) eqn:Exy; destruct (Ascii.compare y z) eqn:Eyz;
    try congruence.
  - apply Ascii.compare_eq_iff in Exy, Eyz. subst.
    rewrite ascii_compare_refl. apply IH.
  - apply Ascii.compare_eq_iff in Exy. subst. rewrite Eyz. congruence.
  - apply Ascii.compare_eq_iff in Eyz. subst. rewrite Exy. congruence.
  - rewrite (ascii_compare_lt_trans _ _ _ Exy Eyz). congruence.
Qed.

Lemma str_le_spec (a b : string) : str_le a b = true <-> String.compare a b <> Gt.
Proof.
  unfold str_le, String.leb. destruct (String.compare a b); split; congruence.
Qed.

Lemma str_le_refl (a : string) : str_le a a = true.
Proof. apply str_le_spec. rewrite string_compare_refl. congruence. Qed.

Lemma str_le_trans (a b c : string) :
  str_le a b = true -> str_le b c = true -> str_le a c = true.
Proof. rewrite !str_le_spec. apply string_compare_le_trans. Qed.

Lemma str_gt_not_le (a b : string) : str_gt a b = negb (str_le a b).
Proof.
  unfold str_gt, str_le, String.ltb, String.leb.
  rewrite (String.compare_antisym b a).
  destruct (String.compare a b); reflexivity.
Qed.

Lemma str_le_total (a b : string) : str_le a b = true \/ str_le b a = true.
Proof. apply String.leb_total. Qed.

End StringOrder.

(* ================================================================= *)
(** ** Recurrence calculator *)

Section Recurrence.

Lemma range_In (lo hi d : Z) : In d (Fmt.range lo hi) <-> lo <= d < hi.
Proof.
  unfold Fmt.range. rewrite in_map_iff. split.
  - intros [i [<- Hi]]. apply in_seq in Hi. lia.
  - intros H. exists (Z.to_nat (d - lo)). split; [lia|].
    apply in_seq. lia.
Qed.

Lemma shifted_seq_sorted (lo : Z) (n s : nat) :
  StronglySorted Z.lt (map (fun i => lo + Z.of_nat i) (seq s n)).
Proof.
  revert s. induction n as [|n IH]; intros s; simpl; constructor.
  - apply IH.
  - apply Forall_forall. intros x Hx. apply in_map_iff in Hx.
    destruct Hx as [i [<- Hi]]. apply in_seq in Hi. lia.
Qed.

Lemma range_sorted (lo hi : Z) : StronglySorted Z.lt (Fmt.range lo hi).
Proof. apply shifted_seq_sorted. Qed.

Lemma filter_sorted {A : Type} (R : A -> A -> Prop) (f : A -> bool) (l : list A) :
  StronglySorted R l -> StronglySorted R (filter f l).
Proof.
  induction 1 as [|x l Hl IH Hx]; simpl; [constructor|].
  destruct (f x); [constructor|]; auto.
  apply Forall_forall. intros y Hy. apply filter_In in Hy.
  rewrite Forall_forall in Hx. now apply Hx.
Qed.

Lemma int_or_falsy (x : option Z) (default : Z) :
  x = None \/ x = Some 0 -> int_or x default = default.
Proof. intros [-> | ->]; reflexivity. Qed.

(** C5. A monthly template is due on the single day
    [min(day or 1, last day of the month)] once that day has been
    reached, and not at all before; the date stays in the current
    month, a day of 31 in a 30-day month gives the 30th, and a day of 0
    or no day gives the 1st. *)
Theorem monthly_due_date_rule (rec : RecurringTransaction)
    (year month today_day : Z) :
  rt_frequency rec = "monthly"%string ->
  let target := Z.min (int_or (rt_day rec) 1) (Calendar.last_day_of year month) in
  dates_to_create rec year month today_day
    = (if target <=? today_day then [Fmt.ymd year month target] else [])
  /\ (List.length (dates_to_create rec year month today_day) <= 1)%nat
  /\ target <= Calendar.last_day_of year month
  /\ (rt_day rec = Some 31 -> Calendar.last_day_of year month = 30 -> target = 30)
  /\ (rt_day rec = None \/ rt_day rec = Some 0 ->
      target = Z.min 1 (Calendar.last_day_of year month)).
Proof.
  intros Hfreq target. unfold dates_to_create, due_days.
  rewrite Hfreq. simpl String.eqb. cbv iota. fold target.
  repeat split.
  - destruct (target <=? today_day); reflexivity.
  - destruct (target <=? today_day); simpl; lia.
  - subst target. lia.
  - intros Hd Hl. subst target. rewrite Hd, Hl. reflexivity.
  - intros Hd. subst target. now rewrite (int_or_falsy _ 1 Hd).
Qed.

(** C6. A weekly template is due on exactly the days [d] of the
    current month with [1 <= d <= today] whose weekday (Monday = 0) is
    [day or 0], in ascending order. *)
Theorem weekly_due_date_rule (rec : RecurringTransaction)
    (year month today_day : Z) :
  rt_frequency rec = "weekly"%string ->
  let weekday_wanted := int_or (rt_day rec) 0 in
  dates_to_create rec year month today_day
    = map (Fmt.ymd year month) (due_days rec year month today_day)
  /\ (forall d, In d (due_days rec year month today_day) <->
                1 <= d <= today_day
                /\ Calendar.weekday year month d = weekday_wanted)
  /\ StronglySorted Z.lt (due_days rec year month today_day)
  /\ (rt_day rec = None \/ rt_day rec = Some 0 -> weekday_wanted = 0).
Proof.
  intros Hfreq wanted. unfold dates_to_create, due_days.
  rewrite Hfreq. simpl String.eqb. cbv iota. fold wanted.
  repeat split.
  - apply filter_In in H. destruct H as [H _]. apply range_In in H. lia.
  - apply filter_In in H. destruct H as [H _]. apply range_In in H. lia.
  - apply filter_In in H. destruct H as [_ H]. now apply Z.eqb_eq in H.
  - intros [Hd Hw]. apply filter_In. split.
    + apply range_In. lia.
    + now apply Z.eqb_eq.
  - apply filter_sorted, range_sorted.
  - intros Hd. subst wanted. now apply int_or_falsy.
Qed.

(** C7. A yearly template is due only in the month it was created in,
    on the single day [min(day or 1, last day of the month)] once that
    day has been reached; in every other month nothing is due. *)
Theorem yearly_due_date_rule (rec : RecurringTransaction)
    (year month today_day : Z) :
  rt_frequency rec = "yearly"%string ->
  let target := Z.min (int_or (rt_day rec) 1) (Calendar.last_day_of year month) in
  dates_to_create rec year month today_day
    = (if (dt_month (rt_created_at rec) =? month) && (target <=? today_day)
       then [Fmt.ymd year month target] else [])
  /\ (dt_month (rt_created_at rec) <> month ->
      dates_to_create rec year month today_day = [])
  /\ (dt_month (rt_created_at rec) = month -> target <= today_day ->
      dates_to_create rec year month today_day = [Fmt.ymd year month target])
  /\ (dt_month (rt_created_at rec) = month -> today_day < target ->
      dates_to_create rec year month today_day = []).
Proof.
  intros Hfreq target. unfold dates_to_create, due_days.
  rewrite Hfreq. simpl String.eqb. cbv iota. fold target.
  repeat split.
  - destruct ((dt_month (rt_created_at rec) =? month) && (target <=? today_day));
      reflexivity.
  - intros Hm. apply Z.eqb_neq in Hm. now rewrite Hm.
  - intros Hm Ht. apply Z.eqb_eq in Hm. apply Z.leb_le in Ht. now rewrite Hm, Ht.
  - intros Hm Ht. apply Z.leb_gt in Ht. rewrite Ht, andb_false_r. reflexivity.
Qed.

End Recurrence.

(* ================================================================= *)
(** ** Queries over tables *)

Section Tables.

Lemma insert_row_In {A : Type} (before : A -> A -> bool) (x v : A) (l : list A) :
  In v (insert_row before x l) <-> v = x \/ In v l.
Proof.
  induction l as [|y l IH]; simpl.
  - intuition congruence.
  - destruct (before x y); simpl; rewrite ?IH; intuition congruence.
Qed.

Lemma order_by_In {A : Type} (before : A -> A -> bool) (v : A) (l : list A) :
  In v (order_by before l) <-> In v l.
Proof.
  induction l as [|x l IH]; simpl; [tauto|].
  rewrite insert_row_In, IH. intuition congruence.
Qed.

Lemma filter_all {A : Type} (f : A -> bool) (l : list A) :
  (forall x, In x l -> f x = true) -> filter f l = l.
Proof.
  induction l as [|x l IH]; simpl; intros H; [reflexivity|].
  rewrite (H x (or_introl eq_refl)). f_equal. apply IH. auto.
Qed.

Lemma filter_none {A : Type} (f : A -> bool) (l : list A) :
  (forall x, In x l -> f x = false) -> filter f l = [].
Proof.
  induction l as [|x l IH]; simpl; intros H; [reflexivity|].
  rewrite (H x (or_introl eq_refl)). apply IH. auto.
Qed.

Lemma find_none_all {A : Type} (f : A -> bool) (l : list A) :
  find f l = None -> forall x, In x l -> f x = false.
Proof. intros H x Hx. exact (find_none f l H x Hx). Qed.

(** Deleting by a key that identifies one row removes one row. *)
Lemma delete_by_key_length {A : Type} (key : A -> string) (k : string) (l : list A) :
  NoDup (map key l) ->
  (exists x, In x l /\ key x = k) ->
  List.length l = S (List.length (filter (fun x => negb (key x =? k)%string) l)).
Proof.
  induction l as [|y l IH]; simpl; intros Hnd [x [Hin Hk]]; [contradiction|].
  inversion Hnd as [|? ? Hnotin Hnd']; subst.
  destruct (String.eqb_spec (key y) (key x)) as [E|E]; simpl.
  - f_equal. symmetry. f_equal. apply filter_all.
    intros z Hz. apply negb_true_iff, String.eqb_neq.
    intros Ez. apply Hnotin. rewrite E, <- Ez. now apply in_map.
  - f_equal. apply IH; [assumption|].
    destruct Hin as [->|Hin]; [congruence|]. now exists x.
Qed.

End Tables.

(* ================================================================= *)
(** ** Cancelling a scheduled version and deleting a template *)

Section Cancel.

(** C8. [delete_recurring_version] answers 404 when no version has the
    identifier and 400 when the version's [effective_from] is not after
    today, leaving the store as it was in both cases; for a version
    strictly in the future it deletes the rows with that identifier and
    nothing else, and the version is absent from every history listing
    afterwards. *)
Theorem cancel_guard (version_id : string) (now : datetime) (db : Database) :
  let today := strftime_ymd now in
  let versions := recurring_transaction_versions db in
  let found := find (fun v => (rv_id v =? version_id)%string) versions in
  (found = None ->
     delete_recurring_version version_id now db
       = (inl (HTTP 404 "Version not found"), db))
  /\ (forall row, found = Some row ->
        str_le (rv_effective_from row) today = true ->
        delete_recurring_version version_id now db
          = (inl (HTTP 400 "Cannot delete past or current versions"), db))
  /\ (forall row, found = Some row ->
        str_gt (rv_effective_from row) today = true ->
        exists db',
          delete_recurring_version version_id now db = (inr tt, db')
          /\ recurring_transactions db' = recurring_transactions db
          /\ transactions db' = transactions db
          /\ categories db' = categories db
          /\ (forall v, In v (recurring_transaction_versions db') <->
                        In v versions /\ rv_id v <> version_id)
          /\ (NoDup (map rv_id versions) ->
              List.length versions
                = S (List.length (recurring_transaction_versions db')))
          /\ (forall recurring_id history,
                fst (get_recurring_versions recurring_id db') = inr history ->
                forall v, In v history -> rv_id v <> version_id)).
Proof.
  intros today versions found.
  unfold delete_recurring_version, bind, query, raise, execute.
  fold today versions found.
  split; [|split].
  - intros ->. reflexivity.
  - intros row -> Hle. rewrite Hle. reflexivity.
  - intros row Hfound Hgt. rewrite Hfound.
    rewrite str_gt_not_le in Hgt. apply negb_true_iff in Hgt. rewrite Hgt.
    eexists. split; [reflexivity|]. simpl.
    assert (Hin : forall v,
      In v (filter (fun v => negb (rv_id v =? version_id)%string) versions)
      <-> In v versions /\ rv_id v <> version_id).
    { intros v. rewrite filter_In, negb_true_iff, String.eqb_neq. tauto. }
    repeat split; try (apply Hin; assumption); try (apply Hin; tauto).
    + intros Hnd. apply (delete_by_key_length rv_id); [assumption|].
      apply find_some in Hfound. destruct Hfound as [Hr He].
      apply String.eqb_eq in He. now exists row.
    + intros recurring_id history.
      unfold get_recurring_versions, bind, query, raise. simpl.
      destruct (select_recurring recurring_id _); simpl; [|discriminate].
      intros [= <-] v Hv. apply order_by_In in Hv.
      apply filter_In in Hv. destruct Hv as [Hv _].
      apply Hin in Hv. tauto.
Qed.

(** C10. [delete_recurring_transaction] always answers its 204, also for
    an identifier no template has, and in that case the store is left as
    it was. *)
Theorem delete_recurring_always_succeeds (on_delete_cascade : bool)
    (recurring_id : string) (db : Database) :
  fst (delete_recurring_transaction on_delete_cascade recurring_id db) = inr tt
  /\ (select_recurring recurring_id db = None ->
      snd (delete_recurring_transaction on_delete_cascade recurring_id db) = db).
Proof.
  split; [reflexivity|].
  intros Hnone. unfold delete_recurring_transaction, execute. simpl.
  pose proof (find_none_all _ _ Hnone) as Hall.
  assert (Hex : existsb (fun r => (rt_id r =? recurring_id)%string)
                        (recurring_transactions db) = false).
  { apply not_true_is_false. intros Hex. apply existsb_exists in Hex.
    destruct Hex as [r [Hr He]]. rewrite (Hall r Hr) in He. discriminate. }
  rewrite Hex, andb_false_r.
  unfold set_recurring. rewrite filter_all.
  - now destruct db.
  - intros r Hr. now rewrite (Hall r Hr).
Qed.

End Cancel.

(* ================================================================= *)
(** ** The pending-version query *)

Section Pending.

Lemma find_app_none {A : Type} (f : A -> bool) (l l' : list A) :
  find f l = None -> find f (l ++ l') = find f l'.
Proof.
  induction l as [|x l IH]; simpl; [reflexivity|].
  destruct (f x); [discriminate|exact IH].
Qed.

Lemma find_app_some {A : Type} (f : A -> bool) (l l' : list A) (x : A) :
  find f l = Some x -> find f (l ++ l') = Some x.
Proof.
  induction l as [|y l IH]; simpl; [discriminate|].
  destruct (f y); [trivial|exact IH].
Qed.

(** A row appended to the table with a key strictly before every other
    key comes out first. *)
Lemma order_by_last_first {A : Type} (before : A -> A -> bool) (l : list A) (v : A) :
  (forall w, In w l -> before w v = false) ->
  hd_error (order_by before (l ++ [v])) = Some v.
Proof.
  induction l as [|x l IH]; simpl; intros H; [reflexivity|].
  destruct (order_by before (l ++ [v])) as [|h t] eqn:E.
  - simpl in IH. discriminate IH. auto.
  - simpl in IH. assert (h = v) as -> by (injection IH; auto).
    simpl. now rewrite (H x (or_introl eq_refl)).
Qed.





(** No pending version, no answer. *)
Lemma select_pending_none (recurring_id today : string) (db : Database) :
  (forall v, In v (recurring_transaction_versions db) ->
             rv_recurring_transaction_id v <> recurring_id) ->
  select_pending recurring_id today db = None.
Proof.
  intros H. unfold select_pending. rewrite filter_none; [reflexivity|].
  intros v Hv. unfold is_pending.
  apply H in Hv. apply String.eqb_neq in Hv. now rewrite Hv.
Qed.

End Pending.

(* ================================================================= *)
(** ** Creating and updating a template *)

Section Update.

Lemma update_recurring_transaction_unfold (recurring_id : string)
    (payload : UpdateRecurringTransaction) (version_id : string)
    (now : datetime) (db : Database) :
  update_recurring_transaction recurring_id payload version_id now db =
  match select_recurring recurring_id db with
  | None => (inl (HTTP 404 "Recurring transaction not found"), db)
  | Some row =>
      if sqlite_integer (patch_nullable (up_day payload) (rt_day row))
      then
        let db' := updated_store row recurring_id payload version_id now db in
        match select_recurring recurring_id db' with
        | None => (inl internal_server_error, db')
        | Some row' =>
            (inr (with_category db' row'
                    (select_pending recurring_id (strftime_ymd now) db')), db')
        end
      else (inl overflow_error, db)
  end.
Proof.
  unfold update_recurring_transaction, updated_store, bind, query, raise, execute,
    ret, abort.
  destruct (select_recurring recurring_id db) as [row|]; [|reflexivity].
  cbv zeta.
  destruct (sqlite_integer (patch_nullable (up_day payload) (rt_day row)));
    [|destruct (str_le _ _); reflexivity].
  destruct (str_le _ _); unfold new_version_of;
    cbn [rv_title rv_amount rv_category_id rv_frequency rv_day];
    match goal with
    | |- context [select_recurring ?r ?d] => destruct (select_recurring r d)
    end; reflexivity.
Qed.

Lemma select_recurring_overwritten (recurring_id : string)
    (new_title : string) (new_amount : Q) (new_category_id : option string)
    (new_frequency : string) (new_day : option Z) (rows : list RecurringTransaction) :
  find (fun r => (rt_id r =? recurring_id)%string)
       (map (overwrite_fields recurring_id new_title new_amount new_category_id
               new_frequency new_day) rows)
  = option_map (overwrite_fields recurring_id new_title new_amount new_category_id
                  new_frequency new_day)
               (find (fun r => (rt_id r =? recurring_id)%string) rows).
Proof.
  induction rows as [|r rows IH]; simpl; [reflexivity|].
  unfold overwrite_fields at 1 3.
  destruct (rt_id r =? recurring_id)%string eqn:E; simpl; rewrite E; [reflexivity|].
  exact IH.
Qed.

(** A known template is still there after the update, whichever branch ran. *)
Lemma select_recurring_updated (row : RecurringTransaction)
    (recurring_id : string) (payload : UpdateRecurringTransaction)
    (version_id : string) (now : datetime) (db : Database) :
  select_recurring recurring_id db = Some row ->
  exists row',
    select_recurring recurring_id
      (updated_store row recurring_id payload version_id now db) = Some row'
    /\ rt_id row' = rt_id row
    /\ rt_active row' = rt_active row.
Proof.
  intros Hsel. unfold updated_store.
  destruct (str_le _ _).
  - unfold select_recurring, set_recurring, set_versions. simpl.
    rewrite select_recurring_overwritten.
    unfold select_recurring in Hsel. rewrite Hsel. simpl.
    eexists. split; [reflexivity|].
    unfold overwrite_fields. destruct (rt_id row =? recurring_id)%string; auto.
  - exists row. auto.
Qed.

(** After an update applied at once the template is found with the
    merged values. *)
Lemma select_recurring_updated_now (row : RecurringTransaction)
    (recurring_id : string) (payload : UpdateRecurringTransaction)
    (version_id : string) (now : datetime) (db : Database) :
  select_recurring recurring_id db = Some row ->
  str_le (str_or (up_effective_date payload) (strftime_ymd now)) (strftime_ymd now)
    = true ->
  select_recurring recurring_id
    (updated_store row recurring_id payload version_id now db)
  = Some (mk_recurring (rt_id row) (rt_budget_id row)
            (patch_nullable (up_category_id payload) (rt_category_id row))
            (if_not_none (up_title payload) (rt_title row))
            (if_not_none (up_amount payload) (rt_amount row))
            (rt_transaction_type row)
            (if_not_none (up_frequency payload) (rt_frequency row))
            (patch_nullable (up_day payload) (rt_day row))
            (rt_active row) (rt_created_at row)).
Proof.
  intros Hsel Hle. unfold updated_store. rewrite Hle.
  unfold select_recurring, set_recurring, set_versions. simpl.
  rewrite select_recurring_overwritten.
  unfold select_recurring in Hsel. rewrite Hsel. simpl.
  apply find_some in Hsel. destruct Hsel as [_ Hid].
  unfold overwrite_fields. now rewrite Hid.
Qed.

(** C9. Every template [create_recurring_transaction] produces (the
    identifier drawn by [uuid4()] being new) has [active = 1] and no
    pending version; it is at once among the rows the materialization
    selects for its budget, and its creation month is the month of the
    call, which is what the yearly rule asks for.  The call produces a
    template whenever the day fits SQLite's INTEGER; otherwise it fails
    and stores nothing. *)
Theorem created_template_is_active (budget_id : string)
    (payload : CreateRecurringTransaction) (recurring_id : string)
    (now : datetime) (db : Database) :
  select_recurring recurring_id db = None ->
  let row := mk_recurring recurring_id budget_id (cr_category_id payload)
               (cr_title payload) (cr_amount payload) (cr_transaction_type payload)
               (cr_frequency payload) (cr_day payload) 1 now in
  let db' := set_recurring (fun rows => rows ++ [row]) db in
  (sqlite_integer (cr_day payload) = true ->
   exists response,
     create_recurring_transaction budget_id payload recurring_id now db
       = (inr response, db')
     /\ wc_id response = recurring_id
     /\ wc_active response = 1
     /\ wc_pending_version response = None
     /\ recurring_transaction_versions db' = recurring_transaction_versions db
     /\ In row (active_templates budget_id db')
     /\ dt_month (rt_created_at row) = dt_month now
     /\ ((forall v, In v (recurring_transaction_versions db) ->
                    rv_recurring_transaction_id v <> recurring_id) ->
         forall today, select_pending recurring_id today db' = None))
  /\ (sqlite_integer (cr_day payload) = false ->
      create_recurring_transaction budget_id payload recurring_id now db
        = (inl (HTTP 500 "Internal Server Error"), db))
  /\ (forall response stored,
        create_recurring_transaction budget_id payload recurring_id now db
          = (inr response, stored) ->
        stored = db'
        /\ wc_active response = 1
        /\ wc_pending_version response = None
        /\ In row (active_templates budget_id stored)).
Proof.
  intros Hfresh row db'.
  assert (Hsel : select_recurring recurring_id db' = Some row).
  { unfold select_recurring, db', set_recurring. simpl.
    rewrite find_app_none by exact Hfresh. simpl.
    now rewrite String.eqb_refl. }
  assert (Hin : In row (active_templates budget_id db')).
  { unfold active_templates, db', set_recurring. simpl.
    apply filter_In. split.
    - apply in_or_app. right. now left.
    - simpl. now rewrite String.eqb_refl. }
  assert (Hrun : sqlite_integer (cr_day payload) = true ->
            create_recurring_transaction budget_id payload recurring_id now db
            = (inr (with_category db' row None), db')).
  { intros Hfits.
    unfold create_recurring_transaction, bind, query, raise, execute, ret.
    rewrite Hfits. fold row. fold db'. now rewrite Hsel. }
  assert (Hfail : sqlite_integer (cr_day payload) = false ->
            create_recurring_transaction budget_id payload recurring_id now db
            = (inl (HTTP 500 "Internal Server Error"), db)).
  { intros Hfits.
    unfold create_recurring_transaction, bind, query, raise, execute, ret.
    now rewrite Hfits. }
  split; [|split; [exact Hfail|]].
  - intros Hfits. eexists. split; [exact (Hrun Hfits)|]. simpl.
    repeat split; try exact Hin.
    intros Hnone today. now apply select_pending_none.
  - intros response stored Hout.
    destruct (sqlite_integer (cr_day payload)) eqn:Hfits.
    + rewrite (Hrun eq_refl) in Hout. injection Hout as <- <-.
      repeat split. exact Hin.
    + rewrite (Hfail eq_refl) in Hout. discriminate.
Qed.

(** A date after another one is not the empty string. *)
Lemma str_or_after (effective_date today : string) :
  str_gt effective_date today = true ->
  str_or (Some effective_date) today = effective_date.
Proof.
  intros Hgt. unfold str_or.
  destruct (String.eqb_spec effective_date "") as [->|_]; [|reflexivity].
  unfold str_gt, String.ltb in Hgt. destruct today; discriminate.
Qed.

(** C4, as the code has it.  A call with [effective_date > today] and a
    day that fits SQLite's INTEGER leaves the template table and every
    stored version as they were and appends one version carrying the
    merged values, the reason, [effective_from = effective_date] and no
    [effective_until]; the response shows the template's fields
    unchanged, and shows the new version as pending when every other
    pending version of the template is dated strictly later -- it is
    then the only earliest pending version. *)
Theorem future_update_only_schedules (recurring_id : string)
    (payload : UpdateRecurringTransaction) (version_id : string)
    (now : datetime) (db : Database) (row : RecurringTransaction)
    (effective_date : string) :
  select_recurring recurring_id db = Some row ->
  let today := strftime_ymd now in
  up_effective_date payload = Some effective_date ->
  str_gt effective_date today = true ->
  let merged_day :=
    match up_day payload with Some d => Some d | None => rt_day row end in
  sqlite_integer merged_day = true ->
  let version :=
    mk_version version_id recurring_id
      (match up_title payload with Some t => t | None => rt_title row end)
      (match up_amount payload with Some a => a | None => rt_amount row end)
      (match up_category_id payload with
       | Some c => Some c
       | None => rt_category_id row
       end)
      (match up_frequency payload with Some f => f | None => rt_frequency row end)
      merged_day effective_date None now (up_change_reason payload) in
  let db' := set_versions (fun vs => vs ++ [version]) db in
  exists response,
    update_recurring_transaction recurring_id payload version_id now db
      = (inr response, db')
    /\ recurring_transactions db' = recurring_transactions db
    /\ recurring_transaction_versions db'
         = recurring_transaction_versions db ++ [version]
    /\ transactions db' = transactions db
    /\ response = with_category db' row (wc_pending_version response)
    /\ (wc_title response, wc_amount response, wc_category_id response,
        wc_frequency response, wc_day response, wc_active response)
       = (rt_title row, rt_amount row, rt_category_id row,
          rt_frequency row, rt_day row, rt_active row)
    /\ ((forall w, In w (recurring_transaction_versions db) ->
                   is_pending recurring_id today w = true ->
                   str_gt (rv_effective_from w) effective_date = true) ->
        wc_pending_version response = Some version
        /\ forall w, earliest_pending recurring_id today db' w -> w = version).
Proof.
  intros Hsel today Hdate Hgt merged_day Hfits version db'.
  assert (Heff : str_or (up_effective_date payload) today = effective_date)
    by (rewrite Hdate; now apply str_or_after).
  assert (Hversion : new_version_of row payload recurring_id version_id now
                     = version).
  { unfold new_version_of. fold today. now rewrite Heff. }
  rewrite update_recurring_transaction_unfold, Hsel.
  change (patch_nullable (up_day payload) (rt_day row)) with merged_day.
  rewrite Hfits. cbv zeta.
  assert (Hle : str_le effective_date today = false).
  { rewrite str_gt_not_le in Hgt. now apply negb_true_iff. }
  assert (Hstore : updated_store row recurring_id payload version_id now db = db').
  { unfold updated_store. fold today. now rewrite Heff, Hle, Hversion. }
  rewrite Hstore.
  assert (Hsel' : select_recurring recurring_id db' = Some row) by exact Hsel.
  rewrite Hsel'. eexists. split; [reflexivity|].
  assert (Hpv : is_pending recurring_id today version = true).
  { unfold is_pending. simpl. rewrite String.eqb_refl. simpl. now rewrite Hgt. }
  split; [reflexivity|]. split; [reflexivity|]. split; [reflexivity|].
  split; [reflexivity|]. split; [reflexivity|].
  intros Hlater. split.
  - simpl. unfold select_pending. simpl. rewrite filter_app. simpl.
    fold today. rewrite Hpv. apply order_by_last_first.
    intros w Hw. apply filter_In in Hw. destruct Hw as [Hw Hpw].
    specialize (Hlater w Hw Hpw). unfold effective_from_asc.
    rewrite str_gt_not_le in Hlater. now apply negb_true_iff.
  - intros w [Hin [Hpw Hmin]]. simpl in Hin. apply in_app_or in Hin.
    destruct Hin as [Hin|[<-|[]]]; [|reflexivity].
    exfalso. specialize (Hlater w Hin Hpw).
    assert (Hv : In version (recurring_transaction_versions db'))
      by (simpl; apply in_or_app; right; now left).
    specialize (Hmin version Hv Hpv). simpl in Hmin.
    rewrite str_gt_not_le, Hmin in Hlater. discriminate.
Qed.

End Update.

(* ================================================================= *)
(** ** The version store: closing and opening *)

Section VersionStore.

Lemma updated_store_versions_now (row : RecurringTransaction)
    (recurring_id : string) (payload : UpdateRecurringTransaction)
    (version_id : string) (now : datetime) (db : Database) :
  str_le (str_or (up_effective_date payload) (strftime_ymd now)) (strftime_ymd now)
    = true ->
  recurring_transaction_versions
    (updated_store row recurring_id payload version_id now db)
  = map (close_current recurring_id (strftime_ymd now))
        (recurring_transaction_versions db)
    ++ [new_version_of row payload recurring_id version_id now].
Proof. intros H. unfold updated_store. now rewrite H. Qed.

Lemma updated_store_versions_later (row : RecurringTransaction)
    (recurring_id : string) (payload : UpdateRecurringTransaction)
    (version_id : string) (now : datetime) (db : Database) :
  str_le (str_or (up_effective_date payload) (strftime_ymd now)) (strftime_ymd now)
    = false ->
  recurring_transaction_versions
    (updated_store row recurring_id payload version_id now db)
  = recurring_transaction_versions db
    ++ [new_version_of row payload recurring_id version_id now].
Proof. intros H. unfold updated_store. now rewrite H. Qed.

Lemma update_recurring_transaction_store (recurring_id : string)
    (payload : UpdateRecurringTransaction) (version_id : string)
    (now : datetime) (db : Database) :
  snd (update_recurring_transaction recurring_id payload version_id now db)
  = match select_recurring recurring_id db with
    | None => db
    | Some row =>
        if sqlite_integer (patch_nullable (up_day payload) (rt_day row))
        then updated_store row recurring_id payload version_id now db
        else db
    end.
Proof.
  rewrite update_recurring_transaction_unfold.
  destruct (select_recurring recurring_id db) as [row|]; [|reflexivity].
  destruct (sqlite_integer _); [|reflexivity].
  cbv zeta. destruct (select_recurring _ _); reflexivity.
Qed.

(** After the closing [UPDATE] no version of the template is both open
    and in force. *)
Lemma close_current_closes (recurring_id today : string)
    (vs : list RecurringTransactionVersion) :
  filter (is_current_open recurring_id today)
         (map (close_current recurring_id today) vs) = [].
Proof.
  apply filter_none. intros v Hv. apply in_map_iff in Hv.
  destruct Hv as [w [<- _]]. unfold close_current.
  destruct (is_current_open recurring_id today w) eqn:E; [|exact E].
  unfold is_current_open. simpl. now rewrite andb_false_r.
Qed.

(** The closing [UPDATE] does not touch the versions of other templates. *)
Lemma close_current_other (recurring_id other today today' : string)
    (vs : list RecurringTransactionVersion) :
  other <> recurring_id ->
  filter (is_current_open other today')
         (map (close_current recurring_id today) vs)
  = filter (is_current_open other today') vs.
Proof.
  intros Hne. induction vs as [|v vs IH]; simpl; [reflexivity|].
  rewrite IH. unfold close_current.
  destruct (is_current_open recurring_id today v) eqn:E; [|reflexivity].
  unfold is_current_open in E. apply andb_prop in E. destruct E as [E _].
  apply andb_prop in E. destruct E as [E _]. apply String.eqb_eq in E.
  assert (Hv : (rv_recurring_transaction_id v =? other)%string = false)
    by (apply String.eqb_neq; congruence).
  unfold is_current_open. simpl. now rewrite Hv.
Qed.

Lemma filter_filter_length {A : Type} (f g : A -> bool) (l : list A) :
  (List.length (filter f (filter g l)) <= List.length (filter f l))%nat.
Proof.
  induction l as [|x l IH]; simpl; [lia|].
  destruct (g x), (f x) eqn:F; simpl; rewrite ?F; simpl; lia.
Qed.

Lemma delete_recurring_version_store (version_id : string) (now : datetime)
    (db : Database) :
  snd (delete_recurring_version version_id now db) = db
  \/ snd (delete_recurring_version version_id now db)
     = set_versions (filter (fun v => negb (rv_id v =? version_id)%string)) db.
Proof.
  unfold delete_recurring_version, bind, query, raise, execute.
  destruct (find _ _) as [row|]; [|now left].
  destruct (str_le _ _); [now left|now right].
Qed.

(** Being open and in force does not change while the clock stays short
    of every pending version. *)
Lemma is_current_open_later (recurring_id today later : string)
    (v : RecurringTransactionVersion) :
  str_le today later = true ->
  is_open v && str_gt (rv_effective_from v) today
    && str_le (rv_effective_from v) later = false ->
  is_current_open recurring_id later v = is_current_open recurring_id today v.
Proof.
  intros Hfw Hguard. unfold is_current_open. fold (is_open v).
  destruct (rv_recurring_transaction_id v =? recurring_id)%string; [|reflexivity].
  destruct (is_open v); [|reflexivity]. simpl in *.
  rewrite str_gt_not_le in Hguard.
  destruct (str_le (rv_effective_from v) today) eqn:E; simpl in Hguard.
  - now apply str_le_trans with today.
  - exact Hguard.
Qed.

Lemma apply_op_preserves (w : World) (o : Op) :
  forward w o = true -> leaves_pending w o = true ->
  at_most_one_current w -> at_most_one_current (apply_op w o).
Proof.
  intros Hfw Hlp Hinv other.
  destruct o as [recurring_id payload version_id | version_id | later];
    unfold apply_op, w_today, current_open; simpl.
  - (* submit_update *)
    rewrite update_recurring_transaction_store.
    destruct (select_recurring recurring_id (w_db w)) as [row|]; [|apply Hinv].
    destruct (sqlite_integer (patch_nullable (up_day payload) (rt_day row)));
      [|apply Hinv].
    destruct (str_le (str_or (up_effective_date payload) (strftime_ymd (w_now w)))
                     (strftime_ymd (w_now w))) eqn:Hle.
    + rewrite updated_store_versions_now by exact Hle.
      rewrite filter_app, length_app.
      destruct (String.eqb_spec other recurring_id) as [->|Hne].
      * rewrite close_current_closes. simpl.
        destruct (is_current_open _ _ _); simpl; lia.
      * rewrite close_current_other by exact Hne.
        assert (Hv : is_current_open other (strftime_ymd (w_now w))
                       (new_version_of row payload recurring_id version_id (w_now w))
                     = false).
        { unfold is_current_open. simpl.
          assert ((recurring_id =? other)%string = false) as ->
            by (apply String.eqb_neq; congruence).
          reflexivity. }
        simpl. rewrite Hv. simpl. specialize (Hinv other).
        unfold current_open, w_today in Hinv. lia.
    + rewrite updated_store_versions_later by exact Hle.
      rewrite filter_app, length_app.
      assert (Hv : is_current_open other (strftime_ymd (w_now w))
                     (new_version_of row payload recurring_id version_id (w_now w))
                   = false).
      { unfold is_current_open. simpl. rewrite Hle. now rewrite andb_false_r. }
      simpl. rewrite Hv. simpl. specialize (Hinv other).
      unfold current_open, w_today in Hinv. lia.
  - (* cancel_pending *)
    specialize (Hinv other). unfold current_open, w_today in Hinv.
    destruct (delete_recurring_version_store version_id (w_now w) (w_db w))
      as [-> | ->]; [exact Hinv|]. simpl.
    eapply Nat.le_trans; [apply filter_filter_length|exact Hinv].
  - (* the clock moves *)
    specialize (Hinv other). unfold current_open, w_today in Hinv.
    rewrite (filter_ext_in _ (is_current_open other (strftime_ymd (w_now w))));
      [exact Hinv|].
    intros v Hv. apply is_current_open_later; [exact Hfw|].
    unfold leaves_pending, overtakes_pending in Hlp.
    apply negb_true_iff in Hlp.
    apply not_true_is_false. intros Hc.
    assert (existsb (fun v => is_open v
                        && str_gt (rv_effective_from v) (w_today w)
                        && str_le (rv_effective_from v) (strftime_ymd later))
              (recurring_transaction_versions (w_db w)) = true) as Hex.
    { apply existsb_exists. exists v. split; [exact Hv|exact Hc]. }
    rewrite Hex in Hlp. discriminate.
Qed.

(** C2, as the code has it.  Along any timeline of updates,
    cancellations and clock movements in which the clock never reaches
    the [effective_from] of a version that is still open and pending, at
    most one version of each template is open and in force. *)
Theorem current_open_invariant (ops : list Op) (w : World) :
  every_step forward ops w = true ->
  every_step leaves_pending ops w = true ->
  at_most_one_current w ->
  at_most_one_current (run ops w).
Proof.
  revert w. induction ops as [|o ops IH]; intros w Hfw Hlp Hinv; [exact Hinv|].
  simpl in Hfw, Hlp. apply andb_prop in Hfw, Hlp.
  destruct Hfw as [Hfw Hfws]. destruct Hlp as [Hlp Hlps].
  unfold run. simpl. apply IH; try assumption.
  now apply apply_op_preserves.
Qed.

End VersionStore.

(* ================================================================= *)
(** ** Two updates applied at once *)

Section Chaining.

Lemma close_current_still_open (recurring_id today : string)
    (w : RecurringTransactionVersion) :
  is_open (close_current recurring_id today w) = true ->
  close_current recurring_id today w = w
  /\ is_current_open recurring_id today w = false.
Proof.
  unfold close_current.
  destruct (is_current_open recurring_id today w); [discriminate|auto].
Qed.

Lemma close_current_id (recurring_id today : string)
    (w : RecurringTransactionVersion) :
  rv_recurring_transaction_id (close_current recurring_id today w)
  = rv_recurring_transaction_id w.
Proof.
  unfold close_current. destruct (is_current_open _ _ _); reflexivity.
Qed.

(** A version left open by the closing [UPDATE] of its own template
    was pending. *)
Lemma open_after_close_was_pending (recurring_id today : string)
    (w : RecurringTransactionVersion) :
  rv_recurring_transaction_id w = recurring_id ->
  is_open (close_current recurring_id today w) = true ->
  is_pending recurring_id today w = true.
Proof.
  intros Hid Hopen.
  destruct (close_current_still_open _ _ _ Hopen) as [Heq Hcur].
  rewrite Heq in Hopen. unfold is_open in Hopen.
  unfold is_current_open in Hcur. unfold is_pending.
  rewrite str_gt_not_le. rewrite Hid, String.eqb_refl in *.
  destruct (rv_effective_until w); [discriminate|].
  simpl in *. now rewrite Hcur.
Qed.

(** C3, as the code has it.  After two updates of a template applied at
    once (each with [effective_date <= today] and a day that fits
    SQLite's INTEGER, the second call not before the first), the version
    the first call opened is closed with
    [effective_until] set to the day of the second call, the version the
    second call opened is the only one open and in force, and the only
    open one at all when no version was pending; the two dates chain
    when the second [effective_date] is the day of the call, as it is by
    default. *)
Theorem close_then_open_chaining (recurring_id : string)
    (payload1 payload2 : UpdateRecurringTransaction)
    (version_id1 version_id2 : string) (now1 now2 : datetime)
    (db : Database) (row : RecurringTransaction) :
  select_recurring recurring_id db = Some row ->
  let today1 := strftime_ymd now1 in
  let today2 := strftime_ymd now2 in
  str_le (str_or (up_effective_date payload1) today1) today1 = true ->
  str_le (str_or (up_effective_date payload2) today2) today2 = true ->
  str_le today1 today2 = true ->
  let day1 :=
    match up_day payload1 with Some d => Some d | None => rt_day row end in
  let day2 :=
    match up_day payload2 with Some d => Some d | None => day1 end in
  sqlite_integer day1 = true ->
  sqlite_integer day2 = true ->
  let db1 := snd (update_recurring_transaction recurring_id payload1 version_id1
                    now1 db) in
  let db2 := snd (update_recurring_transaction recurring_id payload2 version_id2
                    now2 db1) in
  exists row1 older newer,
    select_recurring recurring_id db1 = Some row1
    /\ older = set_effective_until (Some today2)
                 (new_version_of row payload1 recurring_id version_id1 now1)
    /\ newer = new_version_of row1 payload2 recurring_id version_id2 now2
    /\ recurring_transaction_versions db2
       = map (close_current recurring_id today2)
           (map (close_current recurring_id today1)
              (recurring_transaction_versions db))
         ++ [older; newer]
    /\ current_open recurring_id today2 db2 = [newer]
    /\ rv_effective_until older = Some today2
    /\ rv_effective_until newer = None
    /\ rv_effective_from newer = str_or (up_effective_date payload2) today2
    /\ (str_or (up_effective_date payload2) today2 = today2 ->
        rv_effective_until older = Some (rv_effective_from newer))
    /\ (up_effective_date payload2 = None ->
        rv_effective_until older = Some (rv_effective_from newer))
    /\ ((forall w, In w (recurring_transaction_versions db) ->
                   is_pending recurring_id today2 w = false) ->
        open_versions recurring_id db2 = [newer]).
Proof.
  intros Hsel today1 today2 Hle1 Hle2 Hfw day1 day2 Hfits1 Hfits2 db1 db2.
  assert (Hdb1 : db1 = updated_store row recurring_id payload1 version_id1 now1 db).
  { unfold db1. rewrite update_recurring_transaction_store, Hsel.
    change (patch_nullable (up_day payload1) (rt_day row)) with day1.
    now rewrite Hfits1. }
  pose proof (select_recurring_updated_now row recurring_id payload1 version_id1
                now1 db Hsel Hle1) as Hsel1.
  rewrite <- Hdb1 in Hsel1.
  match type of Hsel1 with _ = Some ?r => set (row1 := r) in * end.
  assert (Hdb2 : db2 = updated_store row1 recurring_id payload2 version_id2 now2 db1).
  { unfold db2. rewrite update_recurring_transaction_store, Hsel1.
    change (patch_nullable (up_day payload2) (rt_day row1)) with day2.
    now rewrite Hfits2. }
  set (v1 := new_version_of row payload1 recurring_id version_id1 now1).
  set (newer := new_version_of row1 payload2 recurring_id version_id2 now2).
  assert (Hv1 : is_current_open recurring_id today2 v1 = true).
  { unfold is_current_open, v1. simpl. rewrite String.eqb_refl. simpl.
    fold today1. now apply str_le_trans with today1. }
  assert (Hnew : is_current_open recurring_id today2 newer = true).
  { unfold is_current_open, newer. simpl. rewrite String.eqb_refl. simpl.
    exact Hle2. }
  assert (Hvs : recurring_transaction_versions db2
                = map (close_current recurring_id today2)
                    (map (close_current recurring_id today1)
                       (recurring_transaction_versions db))
                  ++ [set_effective_until (Some today2) v1; newer]).
  { rewrite Hdb2, updated_store_versions_now by exact Hle2.
    rewrite Hdb1, updated_store_versions_now by exact Hle1.
    fold today1 today2 v1 newer. rewrite map_app, <- app_assoc. simpl.
    unfold close_current at 3. now rewrite Hv1. }
  exists row1, (set_effective_until (Some today2) v1), newer.
  split; [exact Hsel1|]. split; [reflexivity|]. split; [reflexivity|].
  split; [exact Hvs|].
  assert (Hchain : str_or (up_effective_date payload2) today2 = today2 ->
                   rv_effective_until (set_effective_until (Some today2) v1)
                   = Some (rv_effective_from newer)).
  { intros E. simpl. fold today2. now rewrite E. }
  repeat split.
  - unfold current_open. rewrite Hvs.
    change [set_effective_until (Some today2) v1; newer]
      with ([set_effective_until (Some today2) v1] ++ [newer]).
    rewrite app_assoc, filter_app.
    replace (map (close_current recurring_id today2)
               (map (close_current recurring_id today1)
                  (recurring_transaction_versions db))
             ++ [set_effective_until (Some today2) v1])
      with (map (close_current recurring_id today2)
              (map (close_current recurring_id today1)
                 (recurring_transaction_versions db) ++ [v1])).
    + rewrite close_current_closes. simpl. now rewrite Hnew.
    + rewrite map_app. simpl. unfold close_current at 3. now rewrite Hv1.
  - exact Hchain.
  - intros E. apply Hchain. now rewrite E.
  - intros Hnp. unfold open_versions. rewrite Hvs, filter_app.
    rewrite filter_none.
    + simpl. rewrite String.eqb_refl. reflexivity.
    + intros v Hv. apply in_map_iff in Hv. destruct Hv as [u [<- Hu]].
      apply in_map_iff in Hu. destruct Hu as [w [<- Hw]].
      apply not_true_is_false. intros Hc. apply andb_prop in Hc.
      destruct Hc as [Hid Hopen]. apply String.eqb_eq in Hid.
      rewrite close_current_id in Hid. pose proof Hid as Hid1.
      pose proof (open_after_close_was_pending _ _ _ Hid1 Hopen) as Hp.
      destruct (close_current_still_open _ _ _ Hopen) as [Heq _].
      rewrite Heq in Hopen.
      destruct (close_current_still_open _ _ _ Hopen) as [Heq1 _].
      rewrite Heq1 in Hp. rewrite (Hnp w Hw) in Hp. discriminate.
Qed.

End Chaining.

(* ================================================================= *)
(** ** Materialization: what a second run finds *)

Section Idempotence.

Variables (uuid4 : nat -> string) (clock : nat -> datetime).
Variable budget_id : string.
Variables current_year current_month current_day : Z.

Lemma covered_app (rows more : list Transaction) (rec : RecurringTransaction)
    (date_str : string) :
  covered budget_id rows rec date_str -> covered budget_id (rows ++ more) rec date_str.
Proof.
  unfold covered, existing. intros H.
  destruct (find _ rows) as [t|] eqn:E; [|congruence].
  now rewrite (find_app_some _ _ more _ E).
Qed.

(** The generated row answers the query that preceded its insert, as
    long as the template has a category to compare. *)
Lemma generated_matches (rec : RecurringTransaction) (date_str id : string)
    (at_ : datetime) :
  rt_category_id rec <> None ->
  matches_occurrence budget_id rec date_str
    (generated budget_id rec date_str id at_) = true.
Proof.
  intros Hcat. unfold matches_occurrence, generated. simpl.
  destruct (rt_category_id rec) as [c|]; [|congruence]. simpl.
  rewrite !String.eqb_refl. simpl.
  assert (Qeq_bool (rt_amount rec) (rt_amount rec) = true) as ->
    by (apply Qeq_bool_iff; reflexivity).
  reflexivity.
Qed.

Lemma process_date_extends (rec : RecurringTransaction)
    (acc : list Transaction * list Transaction) (date_str : string) :
  exists more, snd (process_date uuid4 clock budget_id rec acc date_str)
               = snd acc ++ more.
Proof.
  destruct acc as [created rows]. unfold process_date.
  destruct (existing budget_id rec date_str rows).
  - exists []. simpl. now rewrite app_nil_r.
  - eexists. reflexivity.
Qed.

Lemma process_dates_extends (rec : RecurringTransaction) (dates : list string)
    (acc : list Transaction * list Transaction) :
  exists more, snd (fold_left (process_date uuid4 clock budget_id rec) dates acc)
               = snd acc ++ more.
Proof.
  revert acc. induction dates as [|d dates IH]; intros acc; simpl.
  - exists []. now rewrite app_nil_r.
  - destruct (IH (process_date uuid4 clock budget_id rec acc d)) as [m2 H2].
    destruct (process_date_extends rec acc d) as [m1 H1].
    exists (m1 ++ m2). now rewrite H2, H1, app_assoc.
Qed.

Lemma process_templates_extends (recs : list RecurringTransaction)
    (acc : list Transaction * list Transaction) :
  exists more,
    snd (fold_left (process_template uuid4 clock budget_id
                      current_year current_month current_day) recs acc)
    = snd acc ++ more.
Proof.
  revert acc. induction recs as [|r recs IH]; intros acc; cbn [fold_left].
  - exists []. simpl. now rewrite app_nil_r.
  - destruct (IH (process_template uuid4 clock budget_id
                    current_year current_month current_day acc r)) as [m2 H2].
    destruct (process_dates_extends r
                (dates_to_create r current_year current_month current_day) acc)
      as [m1 H1].
    exists (m1 ++ m2). rewrite H2. unfold process_template.
    now rewrite H1, app_assoc.
Qed.

Lemma process_date_covers (rec : RecurringTransaction)
    (acc : list Transaction * list Transaction) (date_str : string) :
  rt_category_id rec <> None ->
  covered budget_id (snd (process_date uuid4 clock budget_id rec acc date_str)) rec date_str.
Proof.
  intros Hcat. destruct acc as [created rows]. unfold process_date, covered.
  destruct (existing budget_id rec date_str rows) eqn:E; simpl.
  - congruence.
  - unfold existing in *. rewrite (find_app_none _ _ _ E). simpl.
    now rewrite generated_matches.
Qed.

Lemma process_dates_cover (rec : RecurringTransaction) (dates : list string)
    (acc : list Transaction * list Transaction) :
  rt_category_id rec <> None ->
  forall d, In d dates ->
    covered budget_id (snd (fold_left (process_date uuid4 clock budget_id rec) dates acc))
            rec d.
Proof.
  intros Hcat. revert acc.
  induction dates as [|d0 dates IH]; intros acc d Hd; simpl; [contradiction|].
  destruct Hd as [<-|Hd].
  - destruct (process_dates_extends rec dates
                (process_date uuid4 clock budget_id rec acc d0)) as [more ->].
    apply covered_app. now apply process_date_covers.
  - now apply IH.
Qed.

Lemma process_templates_cover (recs : list RecurringTransaction)
    (acc : list Transaction * list Transaction) :
  (forall r, In r recs -> rt_category_id r <> None) ->
  forall r d, In r recs ->
    In d (dates_to_create r current_year current_month current_day) ->
    covered budget_id (snd (fold_left (process_template uuid4 clock budget_id
                               current_year current_month current_day) recs acc))
            r d.
Proof.
  revert acc.
  induction recs as [|r0 recs IH]; intros acc Hcat r d Hr Hd; cbn [fold_left];
    [contradiction|].
  destruct Hr as [<-|Hr].
  - destruct (process_templates_extends recs
                (process_template uuid4 clock budget_id
                   current_year current_month current_day acc r0)) as [more ->].
    apply covered_app. unfold process_template.
    apply process_dates_cover; [|exact Hd]. apply Hcat. now left.
  - apply IH; auto. intros r' Hr'. apply Hcat. now right.
Qed.

(** When every query finds a row, nothing is inserted. *)
Lemma process_dates_noop (rec : RecurringTransaction) (dates : list string)
    (created rows : list Transaction) :
  (forall d, In d dates -> covered budget_id rows rec d) ->
  fold_left (process_date uuid4 clock budget_id rec) dates (created, rows)
  = (created, rows).
Proof.
  induction dates as [|d dates IH]; intros H; simpl; [reflexivity|].
  assert (Hd : covered budget_id rows rec d) by (apply H; now left).
  unfold covered in Hd. destruct (existing budget_id rec d rows); [|congruence].
  apply IH. intros d' Hd'. apply H. now right.
Qed.

Lemma process_templates_noop (recs : list RecurringTransaction)
    (created rows : list Transaction) :
  (forall r d, In r recs ->
     In d (dates_to_create r current_year current_month current_day) ->
     covered budget_id rows r d) ->
  fold_left (process_template uuid4 clock budget_id
               current_year current_month current_day) recs (created, rows)
  = (created, rows).
Proof.
  induction recs as [|r recs IH]; intros H; cbn [fold_left]; [reflexivity|].
  unfold process_template at 2. rewrite process_dates_noop.
  - apply IH. intros r' d Hr' Hd. apply (H r' d); [now right|exact Hd].
  - intros d Hd. apply (H r d); [now left|exact Hd].
Qed.

End Idempotence.

(** Materialization is idempotent on the templates that carry a
    category: a second run on the same day, whatever identifiers and
    timestamps it would draw, inserts nothing and returns the empty
    list. *)
Lemma materialize_twice_with_categories
    (uuid4 uuid4' : nat -> string) (clock clock' : nat -> datetime)
    (budget_id : string) (now now' : datetime) (db : Database) :
  dt_year now' = dt_year now ->
  dt_month now' = dt_month now ->
  dt_day now' = dt_day now ->
  (forall r, In r (active_templates budget_id db) -> rt_category_id r <> None) ->
  process_recurring_transactions uuid4' clock' budget_id now'
    (snd (process_recurring_transactions uuid4 clock budget_id now db))
  = (inr [],
     snd (process_recurring_transactions uuid4 clock budget_id now db)).
Proof.
  intros Hy Hm Hd Hcat.
  unfold process_recurring_transactions, bind, query, execute, ret.
  rewrite Hy, Hm, Hd.
  destruct (fold_left
              (process_template uuid4 clock budget_id
                 (dt_year now) (dt_month now) (dt_day now))
              (active_templates budget_id db) ([], transactions db))
    as [created rows'] eqn:E1.
  simpl.
  change (active_templates budget_id
            (set_transactions (fun _ => rows') db))
    with (active_templates budget_id db).
  rewrite process_templates_noop; [reflexivity|].
  intros r d Hr Hdate.
  replace rows' with
    (snd (fold_left
            (process_template uuid4 clock budget_id
               (dt_year now) (dt_month now) (dt_day now))
            (active_templates budget_id db) ([], transactions db)))
    by (now rewrite E1).
  now apply process_templates_cover.
Qed.

(* ================================================================= *)
(** ** The calendar: consistency of the embedded tables *)

Section CalendarFacts.

Lemma weekday_range (year month day : Z) :
  0 <= Calendar.weekday year month day < 7.
Proof. unfold Calendar.weekday. apply Z.mod_pos_bound. lia. Qed.

(** Seven days later is the same weekday. *)
Lemma weekday_next_week (year month day : Z) :
  Calendar.weekday year month (day + 7) = Calendar.weekday year month day.
Proof.
  unfold Calendar.weekday, Calendar.ymd2ord.
  replace (Calendar.days_before_year year + Calendar.days_before_month year month
           + (day + 7) + 6)
    with (Calendar.days_before_year year + Calendar.days_before_month year month
          + day + 6 + 1 * 7) by lia.
  apply Z.mod_add. lia.
Qed.

(** [calendar.monthrange] agrees with the ordinals of [datetime]: the
    first of the next month comes [last_day_of] days after the first of
    this one. *)
Lemma last_day_of_ordinal (year month : Z) :
  1 <= month <= 11 ->
  Calendar.ymd2ord year (month + 1) 1 - Calendar.ymd2ord year month 1
  = Calendar.last_day_of year month.
Proof.
  intros H. unfold Calendar.ymd2ord, Calendar.days_before_month, Calendar.last_day_of.
  assert (month = 1 \/ month = 2 \/ month = 3 \/ month = 4 \/ month = 5 \/ month = 6
          \/ month = 7 \/ month = 8 \/ month = 9 \/ month = 10 \/ month = 11)
    as Hm by lia.
  repeat (destruct Hm as [-> | Hm]); try subst month;
    simpl; destruct (Calendar.isleap year); simpl; lia.
Qed.

(** December runs to the first of January. *)
Lemma december_ordinal (year : Z) :
  Calendar.ymd2ord (year + 1) 1 1 - Calendar.ymd2ord year 12 1
  = Calendar.last_day_of year 12.
Proof.
  unfold Calendar.ymd2ord, Calendar.days_before_month, Calendar.last_day_of,
    Calendar.days_before_year, Calendar.isleap.
  simpl. replace (year + 1 - 1) with year by lia.
  pose proof (Z.div_mod year 4 ltac:(lia)).
  pose proof (Z.div_mod year 100 ltac:(lia)).
  pose proof (Z.div_mod year 400 ltac:(lia)).
  pose proof (Z.div_mod (year - 1) 4 ltac:(lia)).
  pose proof (Z.div_mod (year - 1) 100 ltac:(lia)).
  pose proof (Z.div_mod (year - 1) 400 ltac:(lia)).
  pose proof (Z.mod_pos_bound year 4 ltac:(lia)).
  pose proof (Z.mod_pos_bound year 100 ltac:(lia)).
  pose proof (Z.mod_pos_bound year 400 ltac:(lia)).
  pose proof (Z.mod_pos_bound (year - 1) 4 ltac:(lia)).
  pose proof (Z.mod_pos_bound (year - 1) 100 ltac:(lia)).
  pose proof (Z.mod_pos_bound (year - 1) 400 ltac:(lia)).
  destruct (year mod 4 =? 0) eqn:E4, (year mod 100 =? 0) eqn:E100,
           (year mod 400 =? 0) eqn:E400; simpl;
    rewrite ?Z.eqb_eq, ?Z.eqb_neq in *; lia.
Qed.

End CalendarFacts.

(* ================================================================= *)
(** ** Date strings sort as dates *)

Section DateOrder.

Lemma string_compare_lt_trans (a b c : string) :
  String.compare a b = Lt -> String.compare b c = Lt -> String.compare a c = Lt.
Proof.
  revert b c.
  induction a as [|x a IH]; intros [|y b] [|z c]; simpl; try congruence.
  destruct (Ascii.compare x y) eqn:Exy; destruct (Ascii.compare y z) eqn:Eyz;
    try congruence.
  - apply Ascii.compare_eq_iff in Exy, Eyz. subst.
    rewrite ascii_compare_refl. apply IH.
  - apply Ascii.compare_eq_iff in Exy. subst. now rewrite Eyz.
  - apply Ascii.compare_eq_iff in Eyz. subst. now rewrite Exy.
  - now rewrite (ascii_compare_lt_trans _ _ _ Exy Eyz).
Qed.

(** Fields of equal width compare first; the rest only breaks a tie. *)
Lemma compare_app_same_length (a b s t : string) :
  String.length a = String.length b ->
  String.compare (a ++ s) (b ++ t)
  = match String.compare a b with
    | Eq => String.compare s t
    | c => c
    end.
Proof.
  revert b. induction a as [|x a IH]; intros [|y b]; simpl; try discriminate.
  - reflexivity.
  - intros H. destruct (Ascii.compare x y); [|reflexivity|reflexivity].
    apply IH. congruence.
Qed.

Lemma dec_year_length (y : Z) :
  1000 <= y <= 9999 -> String.length (Fmt.dec y) = 4%nat.
Proof.
  intros H.
  assert (All : forallb (fun y => Nat.eqb (String.length (Fmt.dec y)) 4)
                        (Fmt.range 1000 10000) = true)
    by (vm_compute; reflexivity).
  rewrite forallb_forall in All. apply Nat.eqb_eq, All, range_In. lia.
Qed.

Lemma dec_year_succ (y : Z) :
  1000 <= y < 9999 -> String.compare (Fmt.dec y) (Fmt.dec (y + 1)) = Lt.
Proof.
  intros H.
  assert (All : forallb (fun y => String.ltb (Fmt.dec y) (Fmt.dec (y + 1)))
                        (Fmt.range 1000 9999) = true)
    by (vm_compute; reflexivity).
  rewrite forallb_forall in All.
  assert (Hy : In y (Fmt.range 1000 9999)) by (apply range_In; lia).
  apply All in Hy. unfold String.ltb in Hy.
  destruct (String.compare _ _); congruence.
Qed.

Lemma dec_year_lt (y y' : Z) :
  1000 <= y -> y < y' -> y' <= 9999 ->
  String.compare (Fmt.dec y) (Fmt.dec y') = Lt.
Proof.
  intros Hlo Hlt Hhi.
  replace y' with (y + 1 + Z.of_nat (Z.to_nat (y' - y - 1))) in * by lia.
  generalize dependent (Z.to_nat (y' - y - 1)). intros k.
  induction k as [|k IH]; intros _ Hhi.
  - rewrite Z.add_0_r. apply dec_year_succ. lia.
  - apply string_compare_lt_trans with (Fmt.dec (y + 1 + Z.of_nat k)).
    + apply IH; lia.
    + replace (y + 1 + Z.of_nat (S k)) with (y + 1 + Z.of_nat k + 1) by lia.
      apply dec_year_succ. lia.
Qed.

Lemma dec_year_compare (y y' : Z) :
  1000 <= y <= 9999 -> 1000 <= y' <= 9999 ->
  String.compare (Fmt.dec y) (Fmt.dec y') = (y ?= y').
Proof.
  intros H H'. destruct (Z.compare_spec y y') as [->|Hlt|Hgt].
  - apply string_compare_refl.
  - apply dec_year_lt; lia.
  - rewrite String.compare_antisym, dec_year_lt by lia. reflexivity.
Qed.

Lemma d02_compare (n n' : Z) :
  1 <= n <= 31 -> 1 <= n' <= 31 ->
  String.compare (Fmt.d02 n) (Fmt.d02 n') = (n ?= n')
  /\ String.length (Fmt.d02 n) = 2%nat.
Proof.
  intros H H'.
  assert (All : forallb (fun n =>
                  Nat.eqb (String.length (Fmt.d02 n)) 2
                  && forallb (fun n' =>
                       comparison_eqb (String.compare (Fmt.d02 n) (Fmt.d02 n'))
                                      (n ?= n'))
                     (Fmt.range 1 32))
                (Fmt.range 1 32) = true)
    by (vm_compute; reflexivity).
  rewrite forallb_forall in All.
  assert (Hn : In n (Fmt.range 1 32)) by (apply range_In; lia).
  apply All in Hn. apply andb_prop in Hn. destruct Hn as [Hlen Hcmp].
  rewrite forallb_forall in Hcmp.
  assert (Hn' : In n' (Fmt.range 1 32)) by (apply range_In; lia).
  apply Hcmp in Hn'. split; [|now apply Nat.eqb_eq].
  destruct (String.compare _ _), (n ?= n'); simpl in Hn'; congruence.
Qed.

(** Comparing two [YYYY-MM-DD] strings compares year, then month, then day. *)
Lemma ymd_compare (y m d y' m' d' : Z) :
  plausible_date y m d -> plausible_date y' m' d' ->
  String.compare (Fmt.ymd y m d) (Fmt.ymd y' m' d')
  = match y ?= y' with
    | Eq => match m ?= m' with
            | Eq => d ?= d'
            | c => c
            end
    | c => c
    end.
Proof.
  intros (Hy & Hm & Hd) (Hy' & Hm' & Hd'). unfold Fmt.ymd.
  rewrite compare_app_same_length
    by (rewrite !dec_year_length by assumption; reflexivity).
  rewrite dec_year_compare by assumption.
  destruct (y ?= y'); try reflexivity.
  rewrite (compare_app_same_length "-" "-") by reflexivity.
  cbn [String.compare Ascii.compare]. rewrite ascii_compare_refl.
  destruct (d02_compare m m') as [Cm Lm]; [lia|lia|].
  destruct (d02_compare m' m) as [_ Lm']; [lia|lia|].
  rewrite compare_app_same_length by congruence.
  rewrite Cm. destruct (m ?= m'); try reflexivity.
  rewrite (compare_app_same_length "-" "-") by reflexivity.
  cbn [String.compare Ascii.compare]. rewrite ascii_compare_refl.
  now destruct (d02_compare d d') as [Cd _].
Qed.

(** The string comparison the routes make on dates is the
    chronological one. *)
Lemma str_le_chronological (now later : datetime) :
  plausible_date (dt_year now) (dt_month now) (dt_day now) ->
  plausible_date (dt_year later) (dt_month later) (dt_day later) ->
  str_le (strftime_ymd now) (strftime_ymd later) = true
  <-> dt_year now < dt_year later
      \/ (dt_year now = dt_year later
          /\ (dt_month now < dt_month later
              \/ (dt_month now = dt_month later /\ dt_day now <= dt_day later))).
Proof.
  intros H H'. rewrite str_le_spec. unfold strftime_ymd.
  rewrite (ymd_compare _ _ _ _ _ _ H H').
  destruct (Z.compare_spec (dt_year now) (dt_year later));
    destruct (Z.compare_spec (dt_month now) (dt_month later));
    destruct (Z.compare_spec (dt_day now) (dt_day later));
    split; intros; try congruence; try lia.
Qed.

End DateOrder.

(* ================================================================= *)
(** ** The properties on the sample data *)

Section OnSamples.
Local Open Scope string_scope.

(** C1.  For a template without a category the existence query never
    matches: the second run on the same day inserts the occurrence
    again and returns it, leaving two rows for 1 June where the first
    run had left one. *)
Theorem materialize_twice_without_category :
  map tx_date
      (transactions
         (snd (process_recurring_transactions (sample_uuid4 "first")
                 (sample_clock sample_now) "b2" sample_now sample_gym_db)))
    = ["2024-06-01"]
  /\ option_map (map tx_id)
       (match fst (process_recurring_transactions (sample_uuid4 "second")
                     (sample_clock sample_now) "b2" sample_now
                     (snd (process_recurring_transactions (sample_uuid4 "first")
                             (sample_clock sample_now) "b2" sample_now
                             sample_gym_db)))
        with inr created => Some created | inl _ => None end)
     = Some ["second-0"]
  /\ map tx_date
       (transactions
          (snd (process_recurring_transactions (sample_uuid4 "second")
                  (sample_clock sample_now) "b2" sample_now
                  (snd (process_recurring_transactions (sample_uuid4 "first")
                          (sample_clock sample_now) "b2" sample_now
                          sample_gym_db)))))
     = ["2024-06-01"; "2024-06-01"].
Proof. vm_compute. repeat split. Qed.

(** The end-to-end scenario: a monthly template on the 1st, processed on
    the 15th, yields one recurring transaction dated the 1st with the
    template's amount, and a second run the same day yields none. *)
Example materialize_rent_once :
  map (fun t => (tx_date t, tx_amount t, tx_is_recurring t))
      (transactions
         (snd (process_recurring_transactions (sample_uuid4 "first")
                 (sample_clock sample_now) "b1" sample_now sample_db)))
    = [("2024-06-01", 1000 # 1, 1)]
  /\ fst (process_recurring_transactions (sample_uuid4 "second")
            (sample_clock sample_now) "b1" sample_now
            (snd (process_recurring_transactions (sample_uuid4 "first")
                    (sample_clock sample_now) "b1" sample_now sample_db)))
     = inr [].
Proof. vm_compute. split; reflexivity. Qed.

(** C2, as stated, fails once the clock reaches the day of a scheduled
    version: starting without versions and with the clock only moving
    forward, the version applied on 15 June and the one scheduled for 1
    July are both open and in force on 1 July. *)
Lemma current_open_invariant_counterexample :
  recurring_transaction_versions (w_db sample_world) = []
  /\ every_step forward sample_overtaken sample_world = true
  /\ w_today (run sample_overtaken sample_world) = "2024-07-01"
  /\ map rv_id (current_open "r1" "2024-07-01"
                  (w_db (run sample_overtaken sample_world))) = ["v1"; "v2"]
  /\ ~ at_most_one_current (run sample_overtaken sample_world).
Proof.
  repeat split; try (vm_compute; reflexivity).
  intros H. specialize (H "r1"). vm_compute in H. lia.
Qed.

Lemma current_open_invariant_witness :
  every_step forward sample_cancelled sample_world = true
  /\ every_step leaves_pending sample_cancelled sample_world = true
  /\ at_most_one_current sample_world
  /\ at_most_one_current (run sample_cancelled sample_world).
Proof.
  assert (Hfw : every_step forward sample_cancelled sample_world = true)
    by (vm_compute; reflexivity).
  assert (Hlp : every_step leaves_pending sample_cancelled sample_world = true)
    by (vm_compute; reflexivity).
  assert (Hinv : at_most_one_current sample_world)
    by (intros recurring_id; exact (Nat.le_0_l 1)).
  repeat split; try assumption.
  exact (current_open_invariant sample_cancelled sample_world Hfw Hlp Hinv).
Defined.

(** C3, as stated, fails for a backdated second update: applied on 15
    June with [effective_date] 1 June, it closes the first version with
    [effective_until] 15 June while the new version runs from 1 June.
    It also fails for a template with a version scheduled for later:
    after the two updates that version is open too.  And a second
    update whose day does not fit SQLite's INTEGER fails and stores
    nothing, so no newer version exists. *)
Lemma close_then_open_chaining_counterexample :
  select_recurring "r1" sample_db = Some sample_rent
  /\ str_le "2024-06-01" (strftime_ymd sample_now) = true
  /\ map (fun v => (rv_id v, rv_effective_from v, rv_effective_until v))
       (recurring_transaction_versions
          (snd (update_recurring_transaction "r1"
                  (patch_amount (1150 # 1) (Some "2024-06-01")) "v2" sample_now
                  (snd (update_recurring_transaction "r1"
                          (patch_amount (1100 # 1) None) "v1" sample_now
                          sample_db)))))
     = [("v1", "2024-06-15", Some "2024-06-15"); ("v2", "2024-06-01", None)]
  /\ Some "2024-06-15" <> Some "2024-06-01"
  /\ select_recurring "r1" sample_scheduled_db = Some sample_rent
  /\ map (fun v => (rv_id v, rv_effective_from v, rv_effective_until v))
       (open_versions "r1"
          (snd (update_recurring_transaction "r1"
                  (patch_amount (1150 # 1) None) "v3" sample_now
                  (snd (update_recurring_transaction "r1"
                          (patch_amount (1100 # 1) None) "v2" sample_now
                          sample_scheduled_db)))))
     = [("v1", "2030-01-01", None); ("v3", "2024-06-15", None)]
  /\ update_recurring_transaction "r1" (patch_day (2 ^ 63) None) "v2" sample_now
       (snd (update_recurring_transaction "r1"
               (patch_amount (1100 # 1) None) "v1" sample_now sample_db))
     = (inl (HTTP 500 "Internal Server Error"),
        snd (update_recurring_transaction "r1"
               (patch_amount (1100 # 1) None) "v1" sample_now sample_db))
  /\ map (fun v => (rv_id v, rv_effective_from v, rv_effective_until v))
       (recurring_transaction_versions
          (snd (update_recurring_transaction "r1"
                  (patch_amount (1100 # 1) None) "v1" sample_now sample_db)))
     = [("v1", "2024-06-15", None)].
Proof. repeat split; try (vm_compute; reflexivity). discriminate. Qed.

Lemma close_then_open_chaining_witness :
  select_recurring "r1" sample_db = Some sample_rent
  /\ str_le (strftime_ymd sample_now) (strftime_ymd sample_next_day) = true
  /\ sqlite_integer (rt_day sample_rent) = true
  /\ map (fun v => (rv_id v, rv_effective_from v, rv_effective_until v))
       (recurring_transaction_versions
          (snd (update_recurring_transaction "r1"
                  (patch_amount (1150 # 1) None) "v2" sample_next_day
                  (snd (update_recurring_transaction "r1"
                          (patch_amount (1100 # 1) None) "v1" sample_now
                          sample_db)))))
     = [("v1", "2024-06-15", Some "2024-06-16"); ("v2", "2024-06-16", None)]
  /\ exists older newer,
       current_open "r1" (strftime_ymd sample_next_day)
         (snd (update_recurring_transaction "r1"
                 (patch_amount (1150 # 1) None) "v2" sample_next_day
                 (snd (update_recurring_transaction "r1"
                         (patch_amount (1100 # 1) None) "v1" sample_now
                         sample_db))))
       = [newer]
       /\ rv_effective_until older = Some (rv_effective_from newer).
Proof.
  assert (Hsel : select_recurring "r1" sample_db = Some sample_rent)
    by reflexivity.
  assert (Hfw : str_le (strftime_ymd sample_now) (strftime_ymd sample_next_day)
                = true) by (vm_compute; reflexivity).
  split; [exact Hsel|]. split; [exact Hfw|]. split; [reflexivity|].
  destruct (close_then_open_chaining "r1"
              (patch_amount (1100 # 1) None) (patch_amount (1150 # 1) None)
              "v1" "v2" sample_now sample_next_day sample_db sample_rent
              Hsel (str_le_refl _) (str_le_refl _) Hfw eq_refl eq_refl)
    as (row1 & older & newer & _ & Holder & Hnewer & Hversions & Hcur
        & _ & _ & _ & Hchain & _).
  split.
  - rewrite Hversions, Holder, Hnewer. reflexivity.
  - exists older, newer. split; [exact Hcur|]. apply Hchain. reflexivity.
Defined.

(** C4, as stated, fails when a pending version with the same date is
    already stored: no pending version is dated earlier than 1 January
    2030, yet the response to the second scheduling shows the first
    scheduled version, not the new one.  It also fails
    for a day that does not fit SQLite's INTEGER: the call fails and no
    version is stored. *)
Lemma future_update_counterexample :
  select_recurring "r1" sample_scheduled_db = Some sample_rent
  /\ str_gt "2030-01-01" (strftime_ymd sample_now) = true
  /\ forallb (fun w => negb (is_pending "r1" (strftime_ymd sample_now) w
                             && String.ltb (rv_effective_from w) "2030-01-01"))
             (recurring_transaction_versions sample_scheduled_db) = true
  /\ map (fun v => (rv_id v, rv_effective_from v, rv_effective_until v))
       (recurring_transaction_versions
          (snd (update_recurring_transaction "r1"
                  (patch_amount (1300 # 1) (Some "2030-01-01")) "v2" sample_now
                  sample_scheduled_db)))
     = [("v1", "2030-01-01", None); ("v2", "2030-01-01", None)]
  /\ pending_id
       (fst (update_recurring_transaction "r1"
               (patch_amount (1300 # 1) (Some "2030-01-01")) "v2" sample_now
               sample_scheduled_db))
     = Some "v1"
  /\ Some "v1" <> Some "v2"
  /\ update_recurring_transaction "r1" (patch_day (2 ^ 63) (Some "2030-01-01"))
       "v2" sample_now sample_db
     = (inl (HTTP 500 "Internal Server Error"), sample_db).
Proof. repeat split; try (vm_compute; reflexivity). discriminate. Qed.

Lemma future_update_only_schedules_witness :
  select_recurring "r1" sample_db = Some sample_rent
  /\ up_effective_date sample_future_patch = Some "2030-01-01"
  /\ str_gt "2030-01-01" (strftime_ymd sample_now) = true
  /\ sqlite_integer (Some 5) = true
  /\ exists response db',
       update_recurring_transaction "r1" sample_future_patch "v1" sample_now
         sample_db = (inr response, db')
       /\ recurring_transactions db' = [sample_rent]
       /\ recurring_transaction_versions db'
          = [mk_version "v1" "r1" "Rent" (1200 # 1) (Some "c2") "monthly"
               (Some 5) "2030-01-01" None sample_now (Some "raise")]
       /\ (wc_amount response, wc_category_id response, wc_day response)
          = (1000 # 1, Some "c1", Some 1)
       /\ option_map rv_id (wc_pending_version response) = Some "v1".
Proof.
  assert (Hsel : select_recurring "r1" sample_db = Some sample_rent)
    by reflexivity.
  assert (Hgt : str_gt "2030-01-01" (strftime_ymd sample_now) = true)
    by (vm_compute; reflexivity).
  split; [exact Hsel|]. split; [reflexivity|]. split; [exact Hgt|].
  split; [reflexivity|].
  destruct (future_update_only_schedules "r1" sample_future_patch "v1" sample_now
              sample_db sample_rent "2030-01-01" Hsel eq_refl Hgt eq_refl)
    as (response & Hrun & Hrows & Hversions & _ & _ & Hfields & Hpend).
  eexists response, _. split; [exact Hrun|]. split; [exact Hrows|].
  split; [exact Hversions|].
  split; [injection Hfields; intros; repeat f_equal; assumption|].
  destruct Hpend as [-> _]; [|reflexivity].
  intros w [].
Defined.

Lemma monthly_due_date_rule_witness :
  rt_frequency sample_month_end = "monthly"
  /\ dates_to_create sample_month_end 2024 6 30 = ["2024-06-30"]
  /\ dates_to_create sample_month_end 2024 6 29 = [].
Proof.
  split; [reflexivity|]. split.
  - exact (proj1 (monthly_due_date_rule sample_month_end 2024 6 30 eq_refl)).
  - exact (proj1 (monthly_due_date_rule sample_month_end 2024 6 29 eq_refl)).
Defined.

Lemma weekly_due_date_rule_witness :
  rt_frequency sample_fridays = "weekly"
  /\ dates_to_create sample_fridays 2024 11 22
     = ["2024-11-01"; "2024-11-08"; "2024-11-15"; "2024-11-22"]
  /\ forall d, In d (due_days sample_fridays 2024 11 22) <->
               1 <= d <= 22 /\ Calendar.weekday 2024 11 d = 4.
Proof.
  split; [reflexivity|].
  destruct (weekly_due_date_rule sample_fridays 2024 11 22 eq_refl)
    as (Hdates & Hdays & _).
  split; [exact Hdates|exact Hdays].
Defined.

Lemma yearly_due_date_rule_witness :
  rt_frequency sample_insurance = "yearly"
  /\ dates_to_create sample_insurance 2024 6 15 = ["2024-06-10"]
  /\ dates_to_create sample_insurance 2024 7 15 = [].
Proof.
  split; [reflexivity|]. split.
  - exact (proj1 (yearly_due_date_rule sample_insurance 2024 6 15 eq_refl)).
  - exact (proj1 (yearly_due_date_rule sample_insurance 2024 7 15 eq_refl)).
Defined.

Lemma cancel_guard_witness :
  option_map rv_id
    (find (fun v => (rv_id v =? "v1")%string)
          (recurring_transaction_versions sample_scheduled_db)) = Some "v1"
  /\ delete_recurring_version "v0" sample_now sample_scheduled_db
     = (inl (HTTP 404 "Version not found"), sample_scheduled_db)
  /\ exists db',
       delete_recurring_version "v1" sample_now sample_scheduled_db = (inr tt, db')
       /\ forall v, In v (recurring_transaction_versions db') <->
                    In v (recurring_transaction_versions sample_scheduled_db)
                    /\ rv_id v <> "v1".
Proof.
  split; [reflexivity|].
  split.
  - exact (proj1 (cancel_guard "v0" sample_now sample_scheduled_db) eq_refl).
  - destruct (proj2 (proj2 (cancel_guard "v1" sample_now sample_scheduled_db))
                _ eq_refl eq_refl)
      as (db' & Hrun & _ & _ & _ & Hin & _).
    exists db'. split; [exact Hrun|exact Hin].
Defined.

Lemma created_template_is_active_witness :
  select_recurring "r9" sample_db = None
  /\ sqlite_integer (Some 5) = true
  /\ sqlite_integer (Some (2 ^ 63)) = false
  /\ (exists response,
        fst (create_recurring_transaction "b1"
               (mk_create (Some "c1") "Water" (40 # 1) "expense" "monthly" (Some 5))
               "r9" sample_now sample_db) = inr response
        /\ wc_active response = 1
        /\ wc_pending_version response = None)
  /\ create_recurring_transaction "b1"
       (mk_create (Some "c1") "Water" (40 # 1) "expense" "monthly" (Some (2 ^ 63)))
       "r9" sample_now sample_db
     = (inl (HTTP 500 "Internal Server Error"), sample_db).
Proof.
  split; [reflexivity|]. split; [reflexivity|]. split; [reflexivity|]. split.
  - destruct (proj1 (created_template_is_active "b1"
                (mk_create (Some "c1") "Water" (40 # 1) "expense" "monthly" (Some 5))
                "r9" sample_now sample_db eq_refl) eq_refl)
      as (response & Hrun & _ & Hactive & Hpending & _).
    exists response. rewrite Hrun. repeat split; assumption.
  - exact (proj1 (proj2 (created_template_is_active "b1"
             (mk_create (Some "c1") "Water" (40 # 1) "expense" "monthly"
                (Some (2 ^ 63)))
             "r9" sample_now sample_db eq_refl)) eq_refl).
Defined.

Lemma delete_recurring_always_succeeds_witness :
  select_recurring "r9" sample_db = None
  /\ delete_recurring_transaction true "r9" sample_db = (inr tt, sample_db).
Proof.
  split; [reflexivity|].
  destruct (delete_recurring_always_succeeds true "r9" sample_db) as [Hok Hsame].
  specialize (Hsame eq_refl).
  destruct (delete_recurring_transaction true "r9" sample_db) as [r db'].
  simpl in Hok, Hsame. now rewrite Hok, Hsame.
Defined.

End OnSamples.

(* ================================================================= *)
(** ** Sorted listings *)

Section Sorting.

Context {A : Type} (before : A -> A -> bool).
Hypothesis before_total : forall a b, before a b = true \/ before b a = true.
Hypothesis before_trans :
  forall a b c, before a b = true -> before b c = true -> before a c = true.

Lemma insert_row_perm (x : A) (l : list A) :
  Permutation (x :: l) (insert_row before x l).
Proof.
  induction l as [|y l IH]; simpl; [reflexivity|].
  destruct (before x y); [reflexivity|].
  rewrite perm_swap. now constructor.
Qed.

Lemma order_by_perm (l : list A) : Permutation l (order_by before l).
Proof.
  induction l as [|x l IH]; simpl; [constructor|].
  rewrite <- insert_row_perm. now constructor.
Qed.

Lemma insert_row_sorted (x : A) (l : list A) :
  StronglySorted (fun a b => before a b = true) l ->
  StronglySorted (fun a b => before a b = true) (insert_row before x l).
Proof.
  induction 1 as [|y l Hl IH Hy]; simpl.
  - constructor; constructor.
  - destruct (before x y) eqn:E.
    + constructor; [now constructor|].
      constructor; [exact E|].
      rewrite Forall_forall in *. intros z Hz.
      apply before_trans with y; auto.
    + constructor; [exact IH|].
      rewrite Forall_forall in *. intros z Hz.
      apply insert_row_In in Hz. destruct Hz as [->|Hz]; [|auto].
      destruct (before_total y x) as [T|T]; [exact T|congruence].
Qed.

Lemma order_by_sorted (l : list A) :
  StronglySorted (fun a b => before a b = true) (order_by before l).
Proof.
  induction l as [|x l IH]; simpl; [constructor|].
  now apply insert_row_sorted.
Qed.

End Sorting.

(* ================================================================= *)
(** ** Plain transactions *)

Section Transactions.

Lemma date_desc_total (a b : Transaction) :
  date_desc a b = true \/ date_desc b a = true.
Proof. unfold date_desc. destruct (str_le_total (tx_date a) (tx_date b)); auto. Qed.

Lemma date_desc_trans (a b c : Transaction) :
  date_desc a b = true -> date_desc b c = true -> date_desc a c = true.
Proof. unfold date_desc. intros H1 H2. now apply str_le_trans with (tx_date b). Qed.

(** [get_transactions] never fails and never writes; it lists exactly
    the rows of the budget, each once, no row dated later than the one
    before it. *)
Theorem get_transactions_sorted (budget_id : string) (db : Database) :
  exists rows,
    get_transactions budget_id db = (inr rows, db)
    /\ Permutation rows
         (filter (fun t => (tx_budget_id t =? budget_id)%string) (transactions db))
    /\ (forall t, In t rows <-> In t (transactions db) /\ tx_budget_id t = budget_id)
    /\ StronglySorted (fun a b => str_le (tx_date b) (tx_date a) = true) rows.
Proof.
  eexists. split; [reflexivity|]. split; [|split].
  - symmetry. apply order_by_perm.
  - intros t. rewrite order_by_In, filter_In, String.eqb_eq. tauto.
  - apply (order_by_sorted date_desc date_desc_total date_desc_trans).
Qed.

Lemma patch_transaction_idem (payload : UpdateTransaction) (t : Transaction) :
  patch_transaction payload (patch_transaction payload t)
  = patch_transaction payload t.
Proof.
  unfold patch_transaction. simpl.
  destruct payload as [c ti a ty d co p]; simpl.
  destruct c, ti, a, ty, d, co, p; reflexivity.
Qed.

Lemma patch_transaction_empty (payload : UpdateTransaction) (t : Transaction) :
  has_updates payload = false -> patch_transaction payload t = t.
Proof.
  destruct payload as [c ti a ty d co p]. unfold has_updates. simpl.
  destruct c, ti, a, ty, d, co, p; simpl; try discriminate.
  intros _. now destruct t.
Qed.

Lemma patch_where_id (transaction_id : string) (payload : UpdateTransaction)
    (t : Transaction) :
  tx_id (patch_where transaction_id payload t) = tx_id t.
Proof. unfold patch_where. destruct (tx_id t =? transaction_id)%string; reflexivity. Qed.

Lemma select_transaction_patched (transaction_id : string)
    (payload : UpdateTransaction) (rows : list Transaction) :
  find (fun t => (tx_id t =? transaction_id)%string)
       (map (patch_where transaction_id payload) rows)
  = option_map (patch_transaction payload)
      (find (fun t => (tx_id t =? transaction_id)%string) rows).
Proof.
  induction rows as [|t rows IH]; simpl; [reflexivity|].
  rewrite patch_where_id.
  destruct (tx_id t =? transaction_id)%string eqn:E; [|exact IH].
  unfold patch_where. now rewrite E.
Qed.

Lemma update_transaction_unfold (transaction_id : string)
    (payload : UpdateTransaction) (db : Database) :
  update_transaction transaction_id payload db
  = match select_transaction transaction_id db with
    | None => (inl (HTTP 404 "Transaction not found"), db)
    | Some row =>
        (inr (patch_transaction payload row),
         set_transactions (map (patch_where transaction_id payload)) db)
    end.
Proof.
  unfold update_transaction, bind, query, raise, execute, ret.
  destruct (select_transaction transaction_id db) as [row|] eqn:Hsel;
    [|reflexivity].
  destruct (has_updates payload) eqn:Hup.
  - unfold select_transaction at 1. simpl.
    rewrite select_transaction_patched.
    unfold select_transaction in Hsel. now rewrite Hsel.
  - rewrite Hsel. rewrite patch_transaction_empty by exact Hup.
    f_equal. unfold set_transactions.
    replace (map (patch_where transaction_id payload) (transactions db))
      with (transactions db); [now destruct db|].
    rewrite <- (map_id (transactions db)) at 1. apply map_ext.
    intros t. unfold patch_where.
    destruct (tx_id t =? transaction_id)%string; [|reflexivity].
    now rewrite patch_transaction_empty.
Qed.

(** [update_transaction] answers 404 for an unknown identifier and
    writes nothing.  For a known one, each of category, title, amount,
    transaction type, date, comment and payer of every row with the
    identifier becomes the payload's value when the payload gives one
    and stays as stored otherwise, while the identifier, budget,
    recurring flag and creation time are never changed; the answer is
    the first such row as it is then stored.  Rows with other
    identifiers and the other tables are not touched, and a payload
    without any field changes nothing at all. *)
Theorem update_transaction_patches (transaction_id : string)
    (payload : UpdateTransaction) (db : Database) :
  let merged (t : Transaction) :=
    mk_transaction (tx_id t) (tx_budget_id t)
      (match ut_category_id payload with
       | Some c => Some c
       | None => tx_category_id t
       end)
      (match ut_title payload with Some x => x | None => tx_title t end)
      (match ut_amount payload with Some a => a | None => tx_amount t end)
      (match ut_transaction_type payload with
       | Some x => x
       | None => tx_transaction_type t
       end)
      (match ut_date payload with Some d => d | None => tx_date t end)
      (match ut_comment payload with Some c => Some c | None => tx_comment t end)
      (tx_is_recurring t)
      (match ut_paid_by_user_id payload with
       | Some u => Some u
       | None => tx_paid_by_user_id t
       end)
      (tx_created_at t) in
  (select_transaction transaction_id db = None ->
     update_transaction transaction_id payload db
       = (inl (HTTP 404 "Transaction not found"), db))
  /\ (forall row, select_transaction transaction_id db = Some row ->
        exists db',
          update_transaction transaction_id payload db = (inr (merged row), db')
          /\ select_transaction transaction_id db' = Some (merged row)
          /\ transactions db'
             = map (fun t => if (tx_id t =? transaction_id)%string
                             then merged t else t)
                   (transactions db)
          /\ recurring_transactions db' = recurring_transactions db
          /\ recurring_transaction_versions db' = recurring_transaction_versions db
          /\ categories db' = categories db
          /\ map tx_id (transactions db') = map tx_id (transactions db)
          /\ (forall t, In t (transactions db) -> tx_id t <> transaction_id ->
                        In t (transactions db'))
          /\ (payload = mk_update_transaction None None None None None None None ->
              db' = db /\ merged row = row)).
Proof.
  intros merged.
  assert (Hmerged : forall t, patch_transaction payload t = merged t)
    by reflexivity.
  rewrite update_transaction_unfold. split.
  - intros ->. reflexivity.
  - intros row Hsel. rewrite Hsel, Hmerged. eexists. split; [reflexivity|].
    split; [|split; [reflexivity|split; [reflexivity|split; [reflexivity|
             split; [reflexivity|split; [|split]]]]]].
    + unfold select_transaction in *. simpl.
      now rewrite select_transaction_patched, Hsel.
    + simpl. rewrite map_map. apply map_ext. intros t. apply patch_where_id.
    + intros t Hin Hne. simpl. apply in_map_iff. exists t. split; [|exact Hin].
      unfold patch_where. apply String.eqb_neq in Hne. now rewrite Hne.
    + intros ->.
      assert (Hsame : forall t, merged t = t) by (intros t; now destruct t).
      split; [|apply Hsame].
      unfold set_transactions.
      replace (map _ (transactions db)) with (transactions db);
        [now destruct db|].
      rewrite <- (map_id (transactions db)) at 1. apply map_ext.
      intros t. unfold patch_where.
      destruct (tx_id t =? transaction_id)%string; [|reflexivity].
      symmetry. apply Hsame.
Qed.

(** Sending the same patch twice is the same as sending it once: same
    answer, same store. *)
Theorem update_transaction_idempotent (transaction_id : string)
    (payload : UpdateTransaction) (db : Database) :
  update_transaction transaction_id payload
    (snd (update_transaction transaction_id payload db))
  = update_transaction transaction_id payload db.
Proof.
  rewrite !update_transaction_unfold.
  destruct (select_transaction transaction_id db) as [row|] eqn:Hsel; simpl.
  - unfold select_transaction in *. simpl.
    rewrite select_transaction_patched, Hsel. simpl.
    rewrite patch_transaction_idem. f_equal.
    unfold set_transactions. simpl. f_equal.
    rewrite map_map. apply map_ext. intros t. unfold patch_where.
    destruct (tx_id t =? transaction_id)%string eqn:E; simpl; rewrite E;
      [apply patch_transaction_idem|reflexivity].
  - now rewrite Hsel.
Qed.

(** [create_transaction] with a new identifier stores one row built from
    the payload, marked as not recurring, and returns it; the row is then
    found by its identifier and listed for its budget, and the rows
    already stored are as they were. *)
Theorem create_transaction_round_trip (budget_id : string)
    (payload : CreateTransaction) (transaction_id : string) (now : datetime)
    (db : Database) :
  select_transaction transaction_id db = None ->
  let row := mk_transaction transaction_id budget_id (ct_category_id payload)
               (ct_title payload) (ct_amount payload) (ct_transaction_type payload)
               (ct_date payload) (ct_comment payload) 0 (ct_paid_by_user_id payload)
               now in
  let db' := snd (create_transaction budget_id payload transaction_id now db) in
  fst (create_transaction budget_id payload transaction_id now db) = inr row
  /\ transactions db' = transactions db ++ [row]
  /\ recurring_transactions db' = recurring_transactions db
  /\ recurring_transaction_versions db' = recurring_transaction_versions db
  /\ select_transaction transaction_id db' = Some row
  /\ (exists listed, fst (get_transactions budget_id db') = inr listed
                     /\ In row listed)
  /\ (forall other, other <> transaction_id ->
        select_transaction other db' = select_transaction other db).
Proof.
  intros Hfresh row db'.
  assert (Hsel : select_transaction transaction_id
                   (set_transactions (fun rows => rows ++ [row]) db) = Some row).
  { unfold select_transaction in *. simpl. rewrite find_app_none by exact Hfresh.
    simpl. now rewrite String.eqb_refl. }
  assert (Hrun : create_transaction budget_id payload transaction_id now db
                 = (inr row, set_transactions (fun rows => rows ++ [row]) db)).
  { unfold create_transaction, bind, query, raise, execute, ret.
    fold row. now rewrite Hsel. }
  unfold db'. rewrite Hrun. simpl.
  repeat split; try exact Hsel.
  - eexists. split; [reflexivity|]. apply order_by_In, filter_In. split.
    + simpl. apply in_or_app. right. now left.
    + simpl. apply String.eqb_refl.
  - intros other Hne. unfold select_transaction. simpl.
    destruct (find (fun t => (tx_id t =? other)%string) (transactions db))
      as [t|] eqn:E.
    + now rewrite (find_app_some _ _ _ _ E).
    + rewrite (find_app_none _ _ _ E). simpl.
      assert ((transaction_id =? other)%string = false) as ->
        by (apply String.eqb_neq; congruence).
      reflexivity.
Qed.

(** [delete_transaction] always answers its 204; afterwards no row has
    the identifier, so an update of it answers 404; rows with other
    identifiers stay, in order; deleting an unknown identifier, or the
    same one again, changes nothing. *)
Theorem delete_transaction_removes (transaction_id : string) (db : Database) :
  let db' := snd (delete_transaction transaction_id db) in
  fst (delete_transaction transaction_id db) = inr tt
  /\ select_transaction transaction_id db' = None
  /\ (forall payload,
        fst (update_transaction transaction_id payload db')
        = inl (HTTP 404 "Transaction not found"))
  /\ transactions db'
     = filter (fun t => negb (tx_id t =? transaction_id)%string) (transactions db)
  /\ (forall t, In t (transactions db') <->
                In t (transactions db) /\ tx_id t <> transaction_id)
  /\ (select_transaction transaction_id db = None -> db' = db)
  /\ snd (delete_transaction transaction_id db') = db'.
Proof.
  intros db'.
  assert (Hnone : select_transaction transaction_id db' = None).
  { unfold select_transaction, db'. simpl.
    destruct (find _ _) as [t|] eqn:E; [|reflexivity].
    apply find_some in E. destruct E as [Hin He].
    apply filter_In in Hin. destruct Hin as [_ Hne].
    rewrite He in Hne. discriminate. }
  assert (Hsame : forall d, select_transaction transaction_id d = None ->
                            snd (delete_transaction transaction_id d) = d).
  { intros d Hd. unfold delete_transaction, execute, set_transactions. simpl.
    rewrite filter_all; [now destruct d|].
    intros t Ht. unfold select_transaction in Hd.
    now rewrite (find_none_all _ _ Hd t Ht). }
  split; [reflexivity|]. split; [exact Hnone|]. split; [|split; [reflexivity|]].
  - intros payload. rewrite update_transaction_unfold, Hnone. reflexivity.
  - split; [|split].
    + intros t. unfold db'. simpl.
      rewrite filter_In, negb_true_iff, String.eqb_neq. tauto.
    + apply Hsame.
    + apply Hsame, Hnone.
Qed.

End Transactions.

(* ================================================================= *)
(** ** Version history *)

Section History.

Lemma effective_from_desc_total (a b : RecurringTransactionVersion) :
  effective_from_desc a b = true \/ effective_from_desc b a = true.
Proof.
  unfold effective_from_desc.
  destruct (str_le_total (rv_effective_from a) (rv_effective_from b)); auto.
Qed.

Lemma effective_from_desc_trans (a b c : RecurringTransactionVersion) :
  effective_from_desc a b = true -> effective_from_desc b c = true ->
  effective_from_desc a c = true.
Proof.
  unfold effective_from_desc. intros H1 H2.
  now apply str_le_trans with (rv_effective_from b).
Qed.

Lemma get_recurring_versions_unfold (recurring_id : string) (db : Database) :
  get_recurring_versions recurring_id db
  = match select_recurring recurring_id db with
    | None => (inl (HTTP 404 "Recurring transaction not found"), db)
    | Some _ =>
        (inr (order_by effective_from_desc (versions_of recurring_id db)), db)
    end.
Proof.
  unfold get_recurring_versions, bind, query, raise.
  destruct (select_recurring recurring_id db); reflexivity.
Qed.

(** [get_recurring_versions] answers 404 for an unknown template; for a
    known one it lists exactly the versions of that template, each once,
    none with a later [effective_from] than the one before it, and
    writes nothing. *)
Theorem history_newest_first (recurring_id : string) (db : Database) :
  (select_recurring recurring_id db = None ->
     get_recurring_versions recurring_id db
       = (inl (HTTP 404 "Recurring transaction not found"), db))
  /\ (forall row, select_recurring recurring_id db = Some row ->
        exists history,
          get_recurring_versions recurring_id db = (inr history, db)
          /\ Permutation history (versions_of recurring_id db)
          /\ (forall v, In v history <->
                        In v (recurring_transaction_versions db)
                        /\ rv_recurring_transaction_id v = recurring_id)
          /\ StronglySorted
               (fun a b => str_le (rv_effective_from b) (rv_effective_from a) = true)
               history).
Proof.
  rewrite get_recurring_versions_unfold. split.
  - intros ->. reflexivity.
  - intros row ->. eexists. split; [reflexivity|]. split; [|split].
    + symmetry. apply order_by_perm.
    + intros v. unfold versions_of.
      rewrite order_by_In, filter_In, String.eqb_eq. tauto.
    + apply (order_by_sorted effective_from_desc
               effective_from_desc_total effective_from_desc_trans).
Qed.

Lemma versions_of_closed_length (recurring_id other today : string)
    (vs : list RecurringTransactionVersion) :
  List.length
    (filter (fun v => (rv_recurring_transaction_id v =? other)%string)
            (map (close_current recurring_id today) vs))
  = List.length
      (filter (fun v => (rv_recurring_transaction_id v =? other)%string) vs).
Proof.
  induction vs as [|v vs IH]; simpl; [reflexivity|].
  rewrite close_current_id.
  destruct (rv_recurring_transaction_id v =? other)%string; simpl; congruence.
Qed.

Lemma close_current_rv_id (recurring_id today : string)
    (v : RecurringTransactionVersion) :
  rv_id (close_current recurring_id today v) = rv_id v.
Proof. unfold close_current. destruct (is_current_open _ _ _); reflexivity. Qed.

Lemma updated_store_versions (row : RecurringTransaction)
    (recurring_id : string) (payload : UpdateRecurringTransaction)
    (version_id : string) (now : datetime) (db : Database) :
  recurring_transaction_versions
    (updated_store row recurring_id payload version_id now db)
  = (if str_le (str_or (up_effective_date payload) (strftime_ymd now))
               (strftime_ymd now)
     then map (close_current recurring_id (strftime_ymd now))
              (recurring_transaction_versions db)
     else recurring_transaction_versions db)
    ++ [new_version_of row payload recurring_id version_id now].
Proof. unfold updated_store. destruct (str_le _ _); reflexivity. Qed.

(** Every update of a known template whose day fits SQLite's INTEGER,
    applied at once or scheduled, records exactly one version: the
    history listing is one entry longer afterwards and holds the new
    version, open and dated [effective_date]; the stored versions keep
    their identifiers and their order, the new one coming last.  With a
    day that does not fit, the call fails and records nothing. *)
Theorem update_adds_one_version (recurring_id : string)
    (payload : UpdateRecurringTransaction) (version_id : string)
    (now : datetime) (db : Database) (row : RecurringTransaction) :
  select_recurring recurring_id db = Some row ->
  let merged_day :=
    match up_day payload with Some d => Some d | None => rt_day row end in
  let db' := snd (update_recurring_transaction recurring_id payload version_id
                    now db) in
  (sqlite_integer merged_day = false ->
   update_recurring_transaction recurring_id payload version_id now db
   = (inl (HTTP 500 "Internal Server Error"), db))
  /\ (sqlite_integer merged_day = true ->
      exists before after,
        fst (get_recurring_versions recurring_id db) = inr before
        /\ fst (get_recurring_versions recurring_id db') = inr after
        /\ List.length after = S (List.length before)
        /\ In (new_version_of row payload recurring_id version_id now) after
        /\ rv_effective_until
             (new_version_of row payload recurring_id version_id now) = None
        /\ rv_effective_from
             (new_version_of row payload recurring_id version_id now)
           = str_or (up_effective_date payload) (strftime_ymd now)
        /\ map rv_id (recurring_transaction_versions db')
           = map rv_id (recurring_transaction_versions db) ++ [version_id]).
Proof.
  intros Hsel merged_day db'. split.
  { intros Hfits. rewrite update_recurring_transaction_unfold, Hsel.
    change (patch_nullable (up_day payload) (rt_day row)) with merged_day.
    now rewrite Hfits. }
  intros Hfits.
  assert (Hdb' : db' = updated_store row recurring_id payload version_id now db).
  { unfold db'. rewrite update_recurring_transaction_store, Hsel.
    change (patch_nullable (up_day payload) (rt_day row)) with merged_day.
    now rewrite Hfits. }
  destruct (select_recurring_updated row recurring_id payload version_id now db Hsel)
    as [row' [Hsel' _]].
  rewrite <- Hdb' in Hsel'.
  rewrite !get_recurring_versions_unfold, Hsel, Hsel'. simpl.
  do 2 eexists. split; [reflexivity|]. split; [reflexivity|].
  assert (Hvs := updated_store_versions row recurring_id payload version_id now db).
  rewrite <- Hdb' in Hvs.
  split; [|split; [|split; [reflexivity|split; [reflexivity|]]]].
  - rewrite <- !(Permutation_length (order_by_perm effective_from_desc _)).
    unfold versions_of. rewrite Hvs, filter_app, length_app. simpl.
    rewrite String.eqb_refl. simpl.
    destruct (str_le _ _); [rewrite versions_of_closed_length|]; lia.
  - apply order_by_In. unfold versions_of. apply filter_In. split.
    + rewrite Hvs. apply in_or_app. right. now left.
    + simpl. apply String.eqb_refl.
  - rewrite Hvs, map_app. simpl. f_equal.
    destruct (str_le _ _); [|reflexivity].
    rewrite map_map. apply map_ext. intros v. apply close_current_rv_id.
Qed.

Lemma close_current_not_pending (recurring_id any today : string)
    (vs : list RecurringTransactionVersion) :
  filter (is_pending any today) (map (close_current recurring_id today) vs)
  = filter (is_pending any today) vs.
Proof.
  induction vs as [|v vs IH]; simpl; [reflexivity|].
  rewrite IH. unfold close_current.
  destruct (is_current_open recurring_id today v) eqn:E; [|reflexivity].
  unfold is_current_open in E. apply andb_prop in E. destruct E as [_ Hle].
  assert (Hv : is_pending any today v = false).
  { unfold is_pending. rewrite str_gt_not_le, Hle.
    now rewrite andb_false_r. }
  assert (Hc : is_pending any today (set_effective_until (Some today) v) = false).
  { unfold is_pending. simpl. now rewrite andb_false_r. }
  now rewrite Hv, Hc.
Qed.

(** The pending-version query does not see an update applied at once. *)
Lemma select_pending_updated_now (row : RecurringTransaction)
    (recurring_id : string) (payload : UpdateRecurringTransaction)
    (version_id : string) (now : datetime) (db : Database) (any : string) :
  str_le (str_or (up_effective_date payload) (strftime_ymd now)) (strftime_ymd now)
    = true ->
  select_pending any (strftime_ymd now)
    (updated_store row recurring_id payload version_id now db)
  = select_pending any (strftime_ymd now) db.
Proof.
  intros Hle. unfold select_pending.
  rewrite updated_store_versions, Hle, filter_app.
  rewrite close_current_not_pending. simpl.
  assert (is_pending any (strftime_ymd now)
            (new_version_of row payload recurring_id version_id now) = false)
    as ->.
  { unfold is_pending. simpl. rewrite str_gt_not_le, Hle.
    now rewrite andb_false_r. }
  now rewrite app_nil_r.
Qed.

Lemma versions_of_closed_other (recurring_id other today : string)
    (vs : list RecurringTransactionVersion) :
  other <> recurring_id ->
  filter (fun v => (rv_recurring_transaction_id v =? other)%string)
         (map (close_current recurring_id today) vs)
  = filter (fun v => (rv_recurring_transaction_id v =? other)%string) vs.
Proof.
  intros Hne. induction vs as [|v vs IH]; simpl; [reflexivity|].
  rewrite close_current_id.
  destruct (rv_recurring_transaction_id v =? other)%string eqn:E; [|exact IH].
  rewrite IH. f_equal. unfold close_current.
  destruct (is_current_open recurring_id today v) eqn:Hc; [|reflexivity].
  unfold is_current_open in Hc. apply andb_prop in Hc. destruct Hc as [Hc _].
  apply andb_prop in Hc. destruct Hc as [Hc _].
  apply String.eqb_eq in Hc, E. congruence.
Qed.

(** An update never rewrites history.  Whichever branch runs, the only
    stored versions it changes are those of the same template that are
    open and in force, and of those only [effective_until]; versions of
    other templates, closed versions and scheduled versions are kept as
    they are.  An update applied at once therefore leaves the pending
    version of every template as it was. *)
Theorem update_keeps_other_versions (recurring_id : string)
    (payload : UpdateRecurringTransaction) (version_id : string)
    (now : datetime) (db : Database) (row : RecurringTransaction) :
  select_recurring recurring_id db = Some row ->
  let today := strftime_ymd now in
  let db' := snd (update_recurring_transaction recurring_id payload version_id
                    now db) in
  (forall v, In v (recurring_transaction_versions db) ->
             is_current_open recurring_id today v = false ->
             In v (recurring_transaction_versions db'))
  /\ (forall v, In v (recurring_transaction_versions db) ->
                In v (recurring_transaction_versions db')
                \/ In (set_effective_until (Some today) v)
                      (recurring_transaction_versions db'))
  /\ (forall other, other <> recurring_id ->
                    versions_of other db' = versions_of other db)
  /\ (str_le (str_or (up_effective_date payload) today) today = true ->
      forall any, select_pending any today db' = select_pending any today db).
Proof.
  intros Hsel today db'.
  destruct (sqlite_integer (patch_nullable (up_day payload) (rt_day row)))
    eqn:Hfits.
  2:{ assert (Hdb : db' = db).
      { unfold db'. rewrite update_recurring_transaction_store, Hsel.
        now rewrite Hfits. }
      rewrite Hdb. repeat split; auto. }
  assert (Hdb' : db' = updated_store row recurring_id payload version_id now db).
  { unfold db'. rewrite update_recurring_transaction_store, Hsel.
    now rewrite Hfits. }
  assert (Hvs := updated_store_versions row recurring_id payload version_id now db).
  rewrite <- Hdb' in Hvs. fold today in Hvs.
  assert (Hclose : forall v, In v (recurring_transaction_versions db) ->
            In (close_current recurring_id today v)
               (recurring_transaction_versions db')
            \/ In v (recurring_transaction_versions db')).
  { intros v Hv. rewrite Hvs.
    destruct (str_le _ _).
    - left. apply in_or_app. left. now apply in_map.
    - right. apply in_or_app. now left. }
  split; [|split; [|split]].
  - intros v Hv Hcur. destruct (Hclose v Hv) as [H|H]; [|exact H].
    unfold close_current in H. now rewrite Hcur in H.
  - intros v Hv. destruct (Hclose v Hv) as [H|H]; [|now left].
    unfold close_current in H.
    destruct (is_current_open recurring_id today v); [now right|now left].
  - intros other Hne. unfold versions_of. rewrite Hvs, filter_app. simpl.
    assert ((recurring_id =? other)%string = false) as ->
      by (apply String.eqb_neq; congruence).
    rewrite app_nil_r. destruct (str_le _ _); [|reflexivity].
    now apply versions_of_closed_other.
  - intros Hle any. rewrite Hdb'. now apply select_pending_updated_now.
Qed.

End History.

(* ================================================================= *)
(** ** The template registry *)

Section Registry.

Lemma select_recurring_id (recurring_id : string) (db : Database)
    (row : RecurringTransaction) :
  select_recurring recurring_id db = Some row -> rt_id row = recurring_id.
Proof.
  unfold select_recurring. intros H. apply find_some in H.
  now apply String.eqb_eq.
Qed.

(** An update applied at once, with a day that fits SQLite's INTEGER,
    writes the merged values into the template row and answers with
    them: each of title, amount, category, frequency and day is the
    payload's value when it gives one and the stored value otherwise.
    The row keeps its identifier, budget, transaction type, active flag
    and creation time, the other templates and the transactions are not
    touched, and a payload without field values leaves the row as it
    was. *)
Theorem update_now_overwrites_template (recurring_id : string)
    (payload : UpdateRecurringTransaction) (version_id : string)
    (now : datetime) (db : Database) (row : RecurringTransaction) :
  select_recurring recurring_id db = Some row ->
  let today := strftime_ymd now in
  str_le (str_or (up_effective_date payload) today) today = true ->
  let merged_day :=
    match up_day payload with Some d => Some d | None => rt_day row end in
  sqlite_integer merged_day = true ->
  let row' :=
    mk_recurring (rt_id row) (rt_budget_id row)
      (match up_category_id payload with
       | Some c => Some c
       | None => rt_category_id row
       end)
      (match up_title payload with Some t => t | None => rt_title row end)
      (match up_amount payload with Some a => a | None => rt_amount row end)
      (rt_transaction_type row)
      (match up_frequency payload with Some f => f | None => rt_frequency row end)
      merged_day (rt_active row) (rt_created_at row) in
  exists response db',
    update_recurring_transaction recurring_id payload version_id now db
      = (inr response, db')
    /\ select_recurring recurring_id db' = Some row'
    /\ response = with_category db' row' (select_pending recurring_id today db)
    /\ (wc_id response, wc_budget_id response, wc_transaction_type response,
        wc_active response, wc_created_at response)
       = (rt_id row, rt_budget_id row, rt_transaction_type row,
          rt_active row, rt_created_at row)
    /\ (wc_title response, wc_amount response, wc_category_id response,
        wc_frequency response, wc_day response)
       = (rt_title row', rt_amount row', rt_category_id row',
          rt_frequency row', rt_day row')
    /\ map rt_id (recurring_transactions db') = map rt_id (recurring_transactions db)
    /\ (forall r, In r (recurring_transactions db) -> rt_id r <> recurring_id ->
                  In r (recurring_transactions db'))
    /\ transactions db' = transactions db
    /\ (up_title payload = None -> up_amount payload = None ->
        up_category_id payload = None -> up_frequency payload = None ->
        up_day payload = None -> row' = row).
Proof.
  intros Hsel today Hle merged_day Hfits row'.
  rewrite update_recurring_transaction_unfold, Hsel.
  change (patch_nullable (up_day payload) (rt_day row)) with merged_day.
  rewrite Hfits. cbv zeta.
  set (db' := updated_store row recurring_id payload version_id now db).
  assert (Hrows : recurring_transactions db'
                  = map (overwrite_fields recurring_id
                           (if_not_none (up_title payload) (rt_title row))
                           (if_not_none (up_amount payload) (rt_amount row))
                           (patch_nullable (up_category_id payload)
                              (rt_category_id row))
                           (if_not_none (up_frequency payload) (rt_frequency row))
                           (patch_nullable (up_day payload) (rt_day row)))
                        (recurring_transactions db)).
  { unfold db', updated_store. fold today. now rewrite Hle. }
  assert (Hsel' : select_recurring recurring_id db' = Some row')
    by (apply select_recurring_updated_now; assumption).
  rewrite Hsel'.
  exists (with_category db' row' (select_pending recurring_id today db')), db'.
  split; [reflexivity|]. split; [exact Hsel'|].
  split; [|split; [reflexivity|split; [reflexivity|split; [|split; [|split]]]]].
  - f_equal. unfold db'. now apply select_pending_updated_now.
  - rewrite Hrows, map_map. apply map_ext. intros r. unfold overwrite_fields.
    destruct (rt_id r =? recurring_id)%string; reflexivity.
  - intros r Hr Hne. rewrite Hrows. apply in_map_iff. exists r.
    split; [|exact Hr]. unfold overwrite_fields.
    apply String.eqb_neq in Hne. now rewrite Hne.
  - unfold db', updated_store. fold today. now rewrite Hle.
  - intros H1 H2 H3 H4 H5. subst row' merged_day.
    rewrite H1, H2, H3, H4, H5. now destruct row.
Qed.

(** Scheduling a change and cancelling it before its day is a round
    trip: with a new version identifier, a day that fits SQLite's
    INTEGER and an [effective_date] still ahead when the cancellation
    arrives, the store is back to what it was before the update. *)
Theorem schedule_then_cancel (recurring_id : string)
    (payload : UpdateRecurringTransaction) (version_id : string)
    (now later : datetime) (db : Database) (row : RecurringTransaction) :
  select_recurring recurring_id db = Some row ->
  find (fun v => (rv_id v =? version_id)%string)
       (recurring_transaction_versions db) = None ->
  let effective_date := str_or (up_effective_date payload) (strftime_ymd now) in
  str_gt effective_date (strftime_ymd now) = true ->
  str_gt effective_date (strftime_ymd later) = true ->
  sqlite_integer
    (match up_day payload with Some d => Some d | None => rt_day row end) = true ->
  delete_recurring_version version_id later
    (snd (update_recurring_transaction recurring_id payload version_id now db))
  = (inr tt, db).
Proof.
  intros Hsel Hfresh effective_date Hgt Hgt' Hfits.
  rewrite update_recurring_transaction_store, Hsel.
  change (patch_nullable (up_day payload) (rt_day row))
    with (match up_day payload with Some d => Some d | None => rt_day row end).
  rewrite Hfits.
  assert (Hle : str_le effective_date (strftime_ymd now) = false).
  { rewrite str_gt_not_le in Hgt. now apply negb_true_iff. }
  assert (Hle' : str_le effective_date (strftime_ymd later) = false).
  { rewrite str_gt_not_le in Hgt'. now apply negb_true_iff. }
  unfold updated_store. fold effective_date. rewrite Hle.
  unfold delete_recurring_version, bind, query, raise, execute. simpl.
  rewrite find_app_none by exact Hfresh. simpl.
  rewrite String.eqb_refl. cbn [rv_effective_from new_version_of].
  fold effective_date. rewrite Hle'.
  f_equal. unfold set_versions. simpl.
  rewrite filter_app. simpl. rewrite String.eqb_refl. simpl.
  rewrite app_nil_r, filter_all; [now destruct db|].
  intros v Hv. now rewrite (find_none_all _ _ Hfresh v Hv).
Qed.

(** Rows with a unique key are told apart by it. *)
Lemma unique_key {A : Type} (key : A -> string) (l : list A) (a b : A) :
  NoDup (map key l) -> In a l -> In b l -> key a = key b -> a = b.
Proof.
  induction l as [|x l IH]; simpl; intros Hnd Ha Hb Hk; [contradiction|].
  inversion Hnd as [|? ? Hnotin Hnd']; subst.
  destruct Ha as [->|Ha], Hb as [->|Hb]; auto.
  - exfalso. apply Hnotin. rewrite Hk. now apply in_map.
  - exfalso. apply Hnotin. rewrite <- Hk. now apply in_map.
Qed.

Lemma set_active_id (recurring_id : string) (new_active : Z)
    (r : RecurringTransaction) :
  rt_id (set_active recurring_id new_active r) = rt_id r.
Proof. unfold set_active. destruct (rt_id r =? recurring_id)%string; reflexivity. Qed.

Lemma select_recurring_set_active (recurring_id : string) (new_active : Z)
    (rows : list RecurringTransaction) :
  find (fun r => (rt_id r =? recurring_id)%string)
       (map (set_active recurring_id new_active) rows)
  = option_map (set_active recurring_id new_active)
      (find (fun r => (rt_id r =? recurring_id)%string) rows).
Proof.
  induction rows as [|r rows IH]; simpl; [reflexivity|].
  rewrite set_active_id.
  destruct (rt_id r =? recurring_id)%string; [reflexivity|exact IH].
Qed.

Lemma toggle_recurring_transaction_unfold (recurring_id : string)
    (now : datetime) (db : Database) :
  toggle_recurring_transaction recurring_id now db
  = match select_recurring recurring_id db with
    | None => (inl (HTTP 404 "Recurring transaction not found"), db)
    | Some row =>
        let new_active := if rt_active row =? 0 then 1 else 0 in
        let db' := set_recurring (map (set_active recurring_id new_active)) db in
        (inr (with_category db' (set_active recurring_id new_active row)
                (select_pending recurring_id (strftime_ymd now) db)), db')
    end.
Proof.
  unfold toggle_recurring_transaction, bind, query, raise, execute, ret.
  destruct (select_recurring recurring_id db) as [row|] eqn:Hsel; [|reflexivity].
  cbv zeta. unfold select_recurring at 1. simpl.
  rewrite select_recurring_set_active.
  unfold select_recurring in Hsel. rewrite Hsel. reflexivity.
Qed.

(** [toggle_recurring_transaction] answers 404 for an unknown template
    and writes nothing.  For a known one, the flag of every row with the
    identifier becomes the opposite of the first such row's flag (0 for
    any non-zero flag, 1 for 0) and every other column of those rows,
    every other template, the versions, the transactions and the
    categories are as they were.  The answer carries the new flag, the
    other nine columns of the row as they were stored, the category
    names the row had before, and the template's pending version. *)
Theorem toggle_flips_active (recurring_id : string) (now : datetime)
    (db : Database) :
  (select_recurring recurring_id db = None ->
     toggle_recurring_transaction recurring_id now db
       = (inl (HTTP 404 "Recurring transaction not found"), db))
  /\ (forall row, select_recurring recurring_id db = Some row ->
        let new_active := if rt_active row =? 0 then 1 else 0 in
        exists response db',
          toggle_recurring_transaction recurring_id now db = (inr response, db')
          /\ db'
             = mk_db
                 (map (fun r =>
                         if (rt_id r =? recurring_id)%string
                         then mk_recurring (rt_id r) (rt_budget_id r)
                                (rt_category_id r) (rt_title r) (rt_amount r)
                                (rt_transaction_type r) (rt_frequency r)
                                (rt_day r) new_active (rt_created_at r)
                         else r)
                      (recurring_transactions db))
                 (recurring_transaction_versions db) (transactions db)
                 (categories db)
          /\ select_recurring recurring_id db'
             = Some (mk_recurring recurring_id (rt_budget_id row)
                       (rt_category_id row) (rt_title row) (rt_amount row)
                       (rt_transaction_type row) (rt_frequency row) (rt_day row)
                       new_active (rt_created_at row))
          /\ wc_active response = new_active
          /\ (wc_id response, wc_budget_id response, wc_transaction_type response,
              wc_created_at response)
             = (recurring_id, rt_budget_id row, rt_transaction_type row,
                rt_created_at row)
          /\ (wc_title response, wc_amount response, wc_category_id response,
              wc_frequency response, wc_day response)
             = (rt_title row, rt_amount row, rt_category_id row,
                rt_frequency row, rt_day row)
          /\ (wc_category_name response, wc_parent_category_id response,
              wc_parent_category_name response)
             = (wc_category_name (with_category db row None),
                wc_parent_category_id (with_category db row None),
                wc_parent_category_name (with_category db row None))
          /\ wc_pending_version response
             = select_pending recurring_id (strftime_ymd now) db
          /\ (forall r, In r (recurring_transactions db) ->
                        rt_id r <> recurring_id ->
                        In r (recurring_transactions db'))
          /\ recurring_transaction_versions db' = recurring_transaction_versions db
          /\ transactions db' = transactions db).
Proof.
  rewrite toggle_recurring_transaction_unfold. split.
  - intros ->. reflexivity.
  - intros row Hsel. rewrite Hsel. cbv zeta.
    pose proof (select_recurring_id _ _ _ Hsel) as Hid.
    do 2 eexists. split; [reflexivity|].
    assert (Hrow : forall a, set_active recurring_id a row
                   = mk_recurring recurring_id (rt_budget_id row) (rt_category_id row)
                       (rt_title row) (rt_amount row) (rt_transaction_type row)
                       (rt_frequency row) (rt_day row) a (rt_created_at row)).
    { intros a. unfold set_active. now rewrite Hid, String.eqb_refl. }
    rewrite Hrow.
    split; [reflexivity|]. split.
    { unfold select_recurring in *. simpl.
      now rewrite select_recurring_set_active, Hsel, <- Hrow. }
    split; [reflexivity|]. split; [reflexivity|]. split; [reflexivity|].
    split; [reflexivity|]. split; [reflexivity|].
    split; [|split; reflexivity].
    intros r Hr Hne. simpl. apply in_map_iff. exists r. split; [|exact Hr].
    unfold set_active. apply String.eqb_neq in Hne. now rewrite Hne.
Qed.

(** With identifiers unique and the flag 0 or 1, as every route writes
    it, toggling twice puts the store back as it was. *)
Theorem toggle_twice_restores (recurring_id : string) (now1 now2 : datetime)
    (db : Database) (row : RecurringTransaction) :
  NoDup (map rt_id (recurring_transactions db)) ->
  select_recurring recurring_id db = Some row ->
  rt_active row = 0 \/ rt_active row = 1 ->
  snd (toggle_recurring_transaction recurring_id now2
         (snd (toggle_recurring_transaction recurring_id now1 db)))
  = db.
Proof.
  intros Hnd Hsel Hflag.
  rewrite (toggle_recurring_transaction_unfold recurring_id now1), Hsel.
  cbv zeta. cbn [snd].
  rewrite toggle_recurring_transaction_unfold.
  unfold select_recurring at 1. simpl.
  rewrite select_recurring_set_active.
  unfold select_recurring in Hsel. rewrite Hsel. simpl.
  unfold set_recurring. simpl.
  replace (map _ (map _ (recurring_transactions db)))
    with (recurring_transactions db); [now destruct db|].
  rewrite map_map. rewrite <- (map_id (recurring_transactions db)) at 1.
  apply map_ext_in. intros r Hr.
  pose proof (find_some _ _ Hsel) as [Hrow Hrid].
  apply String.eqb_eq in Hrid.
  unfold set_active at 2.
  destruct (rt_id r =? recurring_id)%string eqn:E.
  - apply String.eqb_eq in E.
    assert (r = row) as ->
      by (apply (unique_key rt_id _ _ _ Hnd Hr Hrow); congruence).
    destruct row as [i b c t a ty f d act cr]. simpl in *. subst i.
    unfold set_active. simpl. rewrite String.eqb_refl. simpl.
    rewrite String.eqb_refl.
    destruct Hflag as [-> | ->]; reflexivity.
  - assert (Hother : forall a, set_active recurring_id a r = r)
      by (intros a; unfold set_active; now rewrite E).
    now rewrite !Hother.
Qed.

(** Once a template has been switched off, the materialization query no
    longer selects it; the other templates are selected as before. *)
Theorem toggled_off_is_not_selected (recurring_id budget_id : string)
    (now : datetime) (db : Database) (row : RecurringTransaction) :
  select_recurring recurring_id db = Some row ->
  rt_active row <> 0 ->
  active_templates budget_id (snd (toggle_recurring_transaction recurring_id now db))
  = filter (fun r => negb (rt_id r =? recurring_id)%string)
           (active_templates budget_id db).
Proof.
  intros Hsel Hact.
  rewrite toggle_recurring_transaction_unfold, Hsel. cbv zeta. cbn [snd].
  assert ((rt_active row =? 0) = false) as -> by now apply Z.eqb_neq.
  unfold active_templates. simpl.
  induction (recurring_transactions db) as [|r rows IH]; [reflexivity|].
  cbn [map filter]. rewrite IH.
  destruct (rt_id r =? recurring_id)%string eqn:E.
  - assert (Hoff : (rt_budget_id (set_active recurring_id 0 r) =? budget_id)%string
                   && (rt_active (set_active recurring_id 0 r) =? 1) = false).
    { unfold set_active. rewrite E. simpl. apply andb_false_r. }
    rewrite Hoff.
    destruct ((rt_budget_id r =? budget_id)%string && (rt_active r =? 1));
      [|reflexivity].
    cbn [filter]. now rewrite E.
  - assert (Hsame : set_active recurring_id 0 r = r)
      by (unfold set_active; now rewrite E).
    rewrite Hsame.
    destruct ((rt_budget_id r =? budget_id)%string && (rt_active r =? 1));
      [|reflexivity].
    cbn [filter]. now rewrite E.
Qed.

(** [delete_recurring_transaction] leaves no template with the
    identifier: updating, toggling or listing the history of it answers
    404 afterwards.  The other templates and their versions stay, and no
    transaction is removed, generated or not. *)
Theorem delete_recurring_removes (on_delete_cascade : bool)
    (recurring_id : string) (db : Database) :
  let db' := snd (delete_recurring_transaction on_delete_cascade recurring_id db) in
  select_recurring recurring_id db' = None
  /\ (forall payload version_id now,
        fst (update_recurring_transaction recurring_id payload version_id now db')
        = inl (HTTP 404 "Recurring transaction not found"))
  /\ (forall now,
        fst (toggle_recurring_transaction recurring_id now db')
        = inl (HTTP 404 "Recurring transaction not found"))
  /\ fst (get_recurring_versions recurring_id db')
     = inl (HTTP 404 "Recurring transaction not found")
  /\ (forall r, In r (recurring_transactions db') <->
                In r (recurring_transactions db) /\ rt_id r <> recurring_id)
  /\ (forall other, other <> recurring_id ->
                    versions_of other db' = versions_of other db)
  /\ transactions db' = transactions db.
Proof.
  intros db'.
  assert (Hrows : recurring_transactions db'
                  = filter (fun r => negb (rt_id r =? recurring_id)%string)
                           (recurring_transactions db)).
  { unfold db', delete_recurring_transaction, execute. simpl.
    destruct (on_delete_cascade && _); reflexivity. }
  assert (Hnone : select_recurring recurring_id db' = None).
  { unfold select_recurring. rewrite Hrows.
    destruct (find _ _) as [r|] eqn:E; [|reflexivity].
    apply find_some in E. destruct E as [Hin He].
    apply filter_In in Hin. destruct Hin as [_ Hne].
    rewrite He in Hne. discriminate. }
  split; [exact Hnone|]. split; [|split; [|split; [|split; [|split]]]].
  - intros. now rewrite update_recurring_transaction_unfold, Hnone.
  - intros. now rewrite toggle_recurring_transaction_unfold, Hnone.
  - now rewrite get_recurring_versions_unfold, Hnone.
  - intros r. rewrite Hrows, filter_In, negb_true_iff, String.eqb_neq. tauto.
  - intros other Hne. unfold versions_of, db', delete_recurring_transaction,
      execute. simpl.
    destruct (on_delete_cascade && _); [|reflexivity]. simpl.
    induction (recurring_transaction_versions db) as [|v vs IH]; simpl;
      [reflexivity|].
    destruct (rv_recurring_transaction_id v =? recurring_id)%string eqn:E; simpl.
    + apply String.eqb_eq in E.
      assert ((rv_recurring_transaction_id v =? other)%string = false) as ->
        by (apply String.eqb_neq; congruence).
      exact IH.
    + destruct (rv_recurring_transaction_id v =? other)%string;
        [now rewrite IH|exact IH].
  - unfold db', delete_recurring_transaction, execute. simpl.
    destruct (on_delete_cascade && _); reflexivity.
Qed.


End Registry.

(* ================================================================= *)
(** ** Materialization: what a run inserts *)

Section Inserts.

Variables (uuid4 : nat -> string) (clock : nat -> datetime).
Variable budget_id : string.
Variables current_year current_month current_day : Z.

Lemma process_dates_trace (rec : RecurringTransaction) (dates : list string)
    (acc : list Transaction * list Transaction) :
  exists new,
    fold_left (process_date uuid4 clock budget_id rec) dates acc
    = (fst acc ++ new, snd acc ++ new)
    /\ Forall (fun t => exists d id at_,
                 In d dates /\ t = generated budget_id rec d id at_) new.
Proof.
  revert acc. induction dates as [|d dates IH]; intros [created rows]; simpl.
  - exists []. now rewrite !app_nil_r.
  - destruct (existing budget_id rec d rows) as [found|].
    + destruct (IH (created, rows)) as [new [-> Hnew]]. exists new.
      split; [reflexivity|]. eapply Forall_impl; [|exact Hnew].
      intros t (d' & id & at_ & Hd & ->). exists d', id, at_. auto.
    + match goal with
      | |- context [fold_left _ dates (created ++ [?t], _)] => set (t0 := t)
      end.
      destruct (IH (created ++ [t0], rows ++ [t0])) as [new [-> Hnew]].
      exists (t0 :: new). simpl. rewrite <- !app_assoc. split; [reflexivity|].
      constructor.
      * exists d, (uuid4 (List.length created)), (clock (List.length created)).
        auto.
      * eapply Forall_impl; [|exact Hnew].
        intros t (d' & id & at_ & Hd & ->). exists d', id, at_. auto.
Qed.

Lemma process_templates_trace (recs : list RecurringTransaction)
    (acc : list Transaction * list Transaction) :
  exists new,
    fold_left (process_template uuid4 clock budget_id
                 current_year current_month current_day) recs acc
    = (fst acc ++ new, snd acc ++ new)
    /\ Forall (generated_from budget_id current_year current_month current_day recs)
              new.
Proof.
  revert acc. induction recs as [|r recs IH]; intros acc; cbn [fold_left].
  - exists []. rewrite !app_nil_r. now destruct acc.
  - unfold process_template at 2.
    destruct (process_dates_trace r
                (dates_to_create r current_year current_month current_day) acc)
      as [new1 [-> H1]].
    destruct (IH (fst acc ++ new1, snd acc ++ new1)) as [new2 [-> H2]].
    exists (new1 ++ new2). simpl. rewrite <- !app_assoc. split; [reflexivity|].
    apply Forall_app. split.
    + eapply Forall_impl; [|exact H1].
      intros t (d & id & at_ & Hd & ->). exists r, d, id, at_.
      split; [now left|auto].
    + eapply Forall_impl; [|exact H2].
      intros t (r' & d & id & at_ & Hr & Hd & ->). exists r', d, id, at_.
      split; [now right|auto].
Qed.

(** Two templates whose generated rows answer each other's existence
    query ask the same query. *)
Lemma same_occurrence (rec rec' : RecurringTransaction) (d d' id : string)
    (at_ : datetime) :
  matches_occurrence budget_id rec' d' (generated budget_id rec d id at_) = true ->
  forall t, matches_occurrence budget_id rec' d' t
            = matches_occurrence budget_id rec d t.
Proof.
  unfold matches_occurrence, generated. simpl. intros H t.
  apply andb_prop in H. destruct H as [H _].
  apply andb_prop in H. destruct H as [H Hdate].
  apply andb_prop in H. destruct H as [H Hamount].
  apply andb_prop in H. destruct H as [H Htitle].
  apply andb_prop in H. destruct H as [_ Hcat].
  destruct (rt_category_id rec) as [c|], (rt_category_id rec') as [c'|];
    simpl in Hcat; try discriminate.
  apply String.eqb_eq in Hcat, Htitle, Hdate. subst c' d'. rewrite Htitle.
  assert (Hq : Qeq_bool (tx_amount t) (rt_amount rec')
               = Qeq_bool (tx_amount t) (rt_amount rec)).
  { apply Qeq_bool_iff in Hamount.
    destruct (Qeq_bool (tx_amount t) (rt_amount rec')) eqn:E1,
             (Qeq_bool (tx_amount t) (rt_amount rec)) eqn:E2; try reflexivity.
    - apply Qeq_bool_iff in E1. apply Qeq_bool_neq in E2.
      exfalso. apply E2. now rewrite E1, Hamount.
    - apply Qeq_bool_iff in E2. apply Qeq_bool_neq in E1.
      exfalso. apply E1. now rewrite E2, Hamount. }
  now rewrite Hq.
Qed.

Lemma process_date_count (rec key : RecurringTransaction) (d key_date : string)
    (acc : list Transaction * list Transaction) :
  (count_matching budget_id key key_date
     (snd (process_date uuid4 clock budget_id rec acc d))
   <= Nat.max 1 (count_matching budget_id key key_date (snd acc)))%nat.
Proof.
  destruct acc as [created rows]. unfold process_date, count_matching.
  destruct (existing budget_id rec d rows) eqn:E; cbn [snd]; [lia|].
  rewrite filter_app, length_app. cbn [filter].
  destruct (matches_occurrence budget_id key key_date _) eqn:M;
    cbn [List.length]; [|lia].
  rewrite (filter_ext _ _ (same_occurrence _ _ _ _ _ _ M)).
  rewrite filter_none; [cbn [List.length]; lia|].
  intros t Ht. exact (find_none_all _ _ E t Ht).
Qed.

Lemma process_dates_count (rec key : RecurringTransaction) (key_date : string)
    (dates : list string) (acc : list Transaction * list Transaction) :
  (count_matching budget_id key key_date
     (snd (fold_left (process_date uuid4 clock budget_id rec) dates acc))
   <= Nat.max 1 (count_matching budget_id key key_date (snd acc)))%nat.
Proof.
  revert acc. induction dates as [|d dates IH]; intros acc; cbn [fold_left];
    [lia|].
  specialize (IH (process_date uuid4 clock budget_id rec acc d)).
  pose proof (process_date_count rec key d key_date acc). lia.
Qed.

Lemma process_templates_count (key : RecurringTransaction) (key_date : string)
    (recs : list RecurringTransaction)
    (acc : list Transaction * list Transaction) :
  (count_matching budget_id key key_date
     (snd (fold_left (process_template uuid4 clock budget_id
                        current_year current_month current_day) recs acc))
   <= Nat.max 1 (count_matching budget_id key key_date (snd acc)))%nat.
Proof.
  revert acc. induction recs as [|r recs IH]; intros acc; cbn [fold_left];
    [lia|].
  specialize (IH (process_template uuid4 clock budget_id
                    current_year current_month current_day acc r)).
  pose proof (process_dates_count r key key_date
                (dates_to_create r current_year current_month current_day) acc).
  fold (process_template uuid4 clock budget_id current_year current_month
          current_day acc r) in H.
  lia.
Qed.

End Inserts.

Lemma process_recurring_transactions_unfold
    (uuid4 : nat -> string) (clock : nat -> datetime) (budget_id : string)
    (now : datetime) (db : Database) :
  process_recurring_transactions uuid4 clock budget_id now db
  = let result :=
      fold_left (process_template uuid4 clock budget_id
                   (dt_year now) (dt_month now) (dt_day now))
                (active_templates budget_id db) ([], transactions db) in
    (inr (fst result), set_transactions (fun _ => snd result) db).
Proof.
  unfold process_recurring_transactions, bind, query, execute, ret. cbv zeta.
  destruct (fold_left _ _ _); reflexivity.
Qed.

Section Materialization.

Variables (uuid4 : nat -> string) (clock : nat -> datetime).

(** [process_recurring_transactions] never raises and only ever appends:
    the stored transactions are kept, in order, the rows it returns are
    exactly the rows it added after them, and templates and versions are
    left alone. *)
Theorem materialize_appends (budget_id : string) (now : datetime)
    (db : Database) :
  exists created db',
    process_recurring_transactions uuid4 clock budget_id now db
      = (inr created, db')
    /\ transactions db' = transactions db ++ created
    /\ recurring_transactions db' = recurring_transactions db
    /\ recurring_transaction_versions db' = recurring_transaction_versions db
    /\ categories db' = categories db.
Proof.
  rewrite process_recurring_transactions_unfold. cbv zeta.
  destruct (process_templates_trace uuid4 clock budget_id
              (dt_year now) (dt_month now) (dt_day now)
              (active_templates budget_id db) ([], transactions db))
    as [new [-> _]].
  do 2 eexists. split; [reflexivity|]. simpl. auto.
Qed.

(** Every transaction a run creates comes from an active template of
    the budget and one of that template's due dates: it carries the
    template's title, amount, category and type, the budget of the call,
    the recurring flag, no payer, and the comment naming the template. *)
Theorem materialize_provenance (budget_id : string) (now : datetime)
    (db : Database) (created : list Transaction) :
  fst (process_recurring_transactions uuid4 clock budget_id now db)
    = inr created ->
  forall t, In t created ->
    tx_budget_id t = budget_id
    /\ tx_is_recurring t = 1
    /\ tx_paid_by_user_id t = None
    /\ exists rec,
         In rec (recurring_transactions db)
         /\ rt_budget_id rec = budget_id
         /\ rt_active rec = 1
         /\ In (tx_date t)
               (dates_to_create rec (dt_year now) (dt_month now) (dt_day now))
         /\ tx_title t = rt_title rec
         /\ tx_amount t = rt_amount rec
         /\ tx_category_id t = rt_category_id rec
         /\ tx_transaction_type t = rt_transaction_type rec
         /\ tx_comment t
            = Some ("Auto-generated from recurring: " ++ rt_title rec)%string.
Proof.
  rewrite process_recurring_transactions_unfold. cbv zeta.
  destruct (process_templates_trace uuid4 clock budget_id
              (dt_year now) (dt_month now) (dt_day now)
              (active_templates budget_id db) ([], transactions db))
    as [new [-> Hnew]].
  simpl. intros [= <-] t Ht. rewrite Forall_forall in Hnew.
  destruct (Hnew t Ht) as (rec & d & id & at_ & Hrec & Hd & ->).
  unfold active_templates in Hrec. apply filter_In in Hrec.
  destruct Hrec as [Hrec Hsel]. apply andb_prop in Hsel.
  destruct Hsel as [Hb Ha]. apply String.eqb_eq in Hb. apply Z.eqb_eq in Ha.
  simpl. repeat split. exists rec. repeat split; assumption.
Qed.

(** After a run, every due date of every active template that carries a
    category is matched by a stored transaction. *)
Theorem materialize_covers_due_dates (budget_id : string) (now : datetime)
    (db : Database) (rec : RecurringTransaction) (date_str : string) :
  (forall r, In r (active_templates budget_id db) -> rt_category_id r <> None) ->
  In rec (active_templates budget_id db) ->
  In date_str (dates_to_create rec (dt_year now) (dt_month now) (dt_day now)) ->
  exists t,
    In t (transactions
            (snd (process_recurring_transactions uuid4 clock budget_id now db)))
    /\ matches_occurrence budget_id rec date_str t = true.
Proof.
  intros Hcat Hrec Hd.
  rewrite process_recurring_transactions_unfold. cbv zeta. simpl.
  pose proof (process_templates_cover uuid4 clock budget_id
                (dt_year now) (dt_month now) (dt_day now)
                (active_templates budget_id db) ([], transactions db)
                Hcat rec date_str Hrec Hd) as Hcov.
  unfold covered, existing in Hcov.
  destruct (find _ _) as [t|] eqn:E; [|congruence].
  apply find_some in E. now exists t.
Qed.

(** For a template that carries a category, a run does not pile up rows
    on one of its occurrences.  Take the stored rows of the call's
    budget that are marked recurring and have the template's category,
    title and amount and a given date: the run keeps them, adds no such
    row when there was one already, and adds at most one otherwise.
    Nothing is said of a template without a category, whose occurrences
    the existence query never matches. *)
Theorem materialize_adds_at_most_one (budget_id : string) (now : datetime)
    (db : Database) (rec : RecurringTransaction)
    (category_id date_str : string) :
  rt_category_id rec = Some category_id ->
  let occurrences (rows : list Transaction) :=
    filter (fun t =>
              (tx_budget_id t =? budget_id)%string
              && match tx_category_id t with
                 | Some c => (c =? category_id)%string
                 | None => false
                 end
              && (tx_title t =? rt_title rec)%string
              && Qeq_bool (tx_amount t) (rt_amount rec)
              && (tx_date t =? date_str)%string
              && (tx_is_recurring t =? 1))
           rows in
  exists added,
    occurrences
      (transactions
         (snd (process_recurring_transactions uuid4 clock budget_id now db)))
    = occurrences (transactions db) ++ added
    /\ (List.length added <= 1)%nat
    /\ (occurrences (transactions db) <> [] -> added = []).
Proof.
  intros Hcat occurrences.
  assert (Hocc : forall rows,
            occurrences rows
            = filter (matches_occurrence budget_id rec date_str) rows).
  { intros rows. apply filter_ext. intros t.
    unfold matches_occurrence. now rewrite Hcat. }
  pose proof (process_templates_count uuid4 clock budget_id
                (dt_year now) (dt_month now) (dt_day now) rec date_str
                (active_templates budget_id db) ([], transactions db)) as Hcount.
  rewrite process_recurring_transactions_unfold. cbv zeta. cbn [snd].
  destruct (process_templates_trace uuid4 clock budget_id
              (dt_year now) (dt_month now) (dt_day now)
              (active_templates budget_id db) ([], transactions db))
    as [new [Hnew _]].
  rewrite Hnew in Hcount. cbn [snd] in Hcount.
  unfold count_matching in Hcount.
  rewrite filter_app, length_app, <- !Hocc in Hcount.
  exists (occurrences new). rewrite Hnew. cbn [snd transactions set_transactions].
  split; [unfold occurrences; apply filter_app|]. split; [lia|].
  intros Hsome. destruct (occurrences (transactions db)) as [|t rows] eqn:E;
    [congruence|].
  cbn [List.length] in Hcount.
  destruct (occurrences new); [reflexivity|cbn [List.length] in Hcount; lia].
Qed.

End Materialization.

(* ================================================================= *)
(** ** Due dates: bounds *)

Section DueDates.

(** No due date lies after today, whatever the frequency, and a
    frequency other than monthly, weekly and yearly makes nothing due. *)
Theorem due_days_not_after_today (rec : RecurringTransaction)
    (year month today_day : Z) :
  (forall d, In d (due_days rec year month today_day) -> d <= today_day)
  /\ dates_to_create rec year month today_day
     = map (Fmt.ymd year month) (due_days rec year month today_day)
  /\ (rt_frequency rec <> "monthly"%string ->
      rt_frequency rec <> "weekly"%string ->
      rt_frequency rec <> "yearly"%string ->
      dates_to_create rec year month today_day = []).
Proof.
  split; [|split; [reflexivity|]].
  - intros d. unfold due_days.
    destruct (rt_frequency rec =? "monthly")%string.
    { destruct (Z.leb_spec (Z.min (int_or (rt_day rec) 1)
                              (Calendar.last_day_of year month)) today_day);
        simpl; intros []; try contradiction; lia. }
    destruct (rt_frequency rec =? "weekly")%string.
    { intros H. apply filter_In in H. destruct H as [H _].
      apply range_In in H. lia. }
    destruct (rt_frequency rec =? "yearly")%string; [|contradiction].
    destruct (dt_month (rt_created_at rec) =? month); simpl; [|contradiction].
    destruct (Z.leb_spec (Z.min (int_or (rt_day rec) 1)
                            (Calendar.last_day_of year month)) today_day);
      simpl; intros []; try contradiction; lia.
  - intros H1 H2 H3. unfold dates_to_create, due_days.
    apply String.eqb_neq in H1, H2, H3. now rewrite H1, H2, H3.
Qed.

(** The due days of a weekly template are whole weeks apart: any two of
    them differ by a multiple of seven, so two different ones lie at
    least seven days from each other. *)
Theorem weekly_due_days_a_week_apart (rec : RecurringTransaction)
    (year month today_day d1 d2 : Z) :
  rt_frequency rec = "weekly"%string ->
  In d1 (due_days rec year month today_day) ->
  In d2 (due_days rec year month today_day) ->
  (d2 - d1) mod 7 = 0 /\ (d1 < d2 -> d1 + 7 <= d2).
Proof.
  intros Hfreq. unfold due_days. rewrite Hfreq. simpl String.eqb. cbv iota.
  intros H1 H2. apply filter_In in H1, H2.
  destruct H1 as [_ H1], H2 as [_ H2]. apply Z.eqb_eq in H1, H2.
  assert (Hmod : (d2 - d1) mod 7 = 0).
  { unfold Calendar.weekday, Calendar.ymd2ord in H1, H2.
    set (base := Calendar.days_before_year year
                 + Calendar.days_before_month year month) in *.
    replace (d2 - d1) with ((base + d2 + 6) - (base + d1 + 6)) by lia.
    rewrite Zminus_mod, H1, H2, Z.sub_diag. reflexivity. }
  split; [exact Hmod|]. intros Hlt.
  apply Z.mod_divide in Hmod; [|lia]. destruct Hmod as [k Hk]. lia.
Qed.

End DueDates.

(* ================================================================= *)
(** ** The import script: line clean-up *)

Section CleanLine.

Lemma prefix_app (s r : string) : String.prefix s (s ++ r) = true.
Proof.
  induction s as [|c s IH]; simpl; [now destruct r|].
  destruct (ascii_dec c c); [exact IH|congruence].
Qed.

Lemma substring_all (r : string) : String.substring 0 (String.length r) r = r.
Proof. induction r as [|c r IH]; simpl; [reflexivity|]. now rewrite IH. Qed.

Lemma substring_after (s r : string) :
  String.substring (String.length s)
    (String.length (s ++ r) - String.length s) (s ++ r) = r.
Proof.
  induction s as [|c s IH]; simpl.
  - rewrite Nat.sub_0_r. apply substring_all.
  - exact IH.
Qed.

Lemma after_first_here (c : ascii) (sep r : string) :
  after_first (String c sep) (String c sep ++ r) = Some r.
Proof.
  cbn [after_first append].
  change (String c (sep ++ r)) with (String c sep ++ r)%string.
  rewrite prefix_app. f_equal. apply substring_after.
Qed.

Lemma after_first_skip (c : ascii) (sep p rest : string) :
  free_of c p = true ->
  after_first (String c sep) (p ++ String c rest)
  = after_first (String c sep) (String c rest).
Proof.
  induction p as [|x p IH]; simpl; [reflexivity|].
  intros H. apply andb_prop in H. destruct H as [Hx Hp].
  apply negb_true_iff, Ascii.eqb_neq in Hx.
  destruct (ascii_dec c x) as [->|_]; [congruence|]. now apply IH.
Qed.

Lemma after_first_none (c : ascii) (sep line : string) :
  free_of c line = true -> after_first (String c sep) line = None.
Proof.
  induction line as [|x line IH]; simpl; [reflexivity|].
  intros H. apply andb_prop in H. destruct H as [Hx Hp].
  apply negb_true_iff, Ascii.eqb_neq in Hx.
  destruct (ascii_dec c x) as [->|_]; [congruence|]. now apply IH.
Qed.

(** [clean_line] drops a prefix up to and including the first arrow and
    keeps what follows untouched, further arrows included; a line
    without the arrow comes back unchanged.  The prefix and the
    arrow-free line are taken free of the arrow's lead byte, which
    covers every ASCII line number and text. *)
Theorem clean_line_strips_prefix (numbering rest line : string) :
  (free_of "226"%char numbering = true ->
   clean_line (numbering ++ "→" ++ rest) = rest)
  /\ (free_of "226"%char line = true -> clean_line line = line).
Proof.
  split; intros H; unfold clean_line.
  - change ("→" ++ rest)%string
      with (String "226"%char (String "134"%char (String "146"%char rest))).
    rewrite (after_first_skip _ _ _ _ H).
    change (String "226"%char (String "134"%char (String "146"%char rest)))
      with ("→" ++ rest)%string.
    now rewrite after_first_here.
  - now rewrite (after_first_none _ _ _ H).
Qed.

End CleanLine.

(* ================================================================= *)
(** ** The further properties on the sample data *)

Section OnMoreSamples.
Local Open Scope string_scope.

Lemma clean_line_strips_prefix_witness :
  free_of "226"%char "   12" = true
  /\ clean_line "   12→lundi 5 janvier 2026" = "lundi 5 janvier 2026"
  /\ clean_line "Alimentation" = "Alimentation".
Proof.
  split; [reflexivity|]. split.
  - exact (proj1 (clean_line_strips_prefix "   12" "lundi 5 janvier 2026" "")
             eq_refl).
  - exact (proj2 (clean_line_strips_prefix "" "" "Alimentation") eq_refl).
Defined.

Lemma update_transaction_patches_witness :
  select_transaction "t1" sample_ledger_db = Some sample_groceries
  /\ select_transaction "t9" sample_ledger_db = None
  /\ update_transaction "t9" sample_patch sample_ledger_db
     = (inl (HTTP 404 "Transaction not found"), sample_ledger_db)
  /\ exists db',
       update_transaction "t1" sample_patch sample_ledger_db
       = (inr (mk_transaction "t1" "b1" (Some "c1") "Market" (160 # 1) "expense"
                 "2024-01-15" (Some "Weekly groceries") 0 None sample_now), db')
       /\ transactions db'
          = [mk_transaction "t1" "b1" (Some "c1") "Market" (160 # 1) "expense"
               "2024-01-15" (Some "Weekly groceries") 0 None sample_now;
             sample_salary].
Proof.
  split; [reflexivity|]. split; [reflexivity|]. split.
  - exact (proj1 (update_transaction_patches "t9" sample_patch sample_ledger_db)
             eq_refl).
  - destruct (proj2 (update_transaction_patches "t1" sample_patch sample_ledger_db)
                sample_groceries eq_refl)
      as (db' & Hrun & _ & Hrows & _).
    exists db'. split; [exact Hrun|exact Hrows].
Defined.

Lemma create_transaction_round_trip_witness :
  select_transaction "t3" sample_ledger_db = None
  /\ option_map tx_title
       (select_transaction "t3"
          (snd (create_transaction "b1" sample_purchase "t3" sample_now
                  sample_ledger_db)))
     = Some "Shared Expense".
Proof.
  split; [reflexivity|].
  destruct (create_transaction_round_trip "b1" sample_purchase "t3" sample_now
              sample_ledger_db eq_refl)
    as (_ & _ & _ & _ & Hsel & _).
  now rewrite Hsel.
Defined.

Lemma delete_transaction_removes_witness :
  select_transaction "t9" sample_ledger_db = None
  /\ snd (delete_transaction "t9" sample_ledger_db) = sample_ledger_db
  /\ select_transaction "t1" (snd (delete_transaction "t1" sample_ledger_db))
     = None.
Proof.
  split; [reflexivity|].
  destruct (delete_transaction_removes "t9" sample_ledger_db)
    as (_ & _ & _ & _ & _ & Hsame & _).
  destruct (delete_transaction_removes "t1" sample_ledger_db) as (_ & Hnone & _).
  split; [exact (Hsame eq_refl)|exact Hnone].
Defined.

Lemma history_newest_first_witness :
  select_recurring "r1" sample_scheduled_db = Some sample_rent
  /\ select_recurring "r9" sample_scheduled_db = None
  /\ get_recurring_versions "r9" sample_scheduled_db
     = (inl (HTTP 404 "Recurring transaction not found"), sample_scheduled_db)
  /\ exists history,
       get_recurring_versions "r1" sample_scheduled_db
       = (inr history, sample_scheduled_db)
       /\ Permutation history (versions_of "r1" sample_scheduled_db).
Proof.
  split; [reflexivity|]. split; [reflexivity|]. split.
  - exact (proj1 (history_newest_first "r9" sample_scheduled_db) eq_refl).
  - destruct (proj2 (history_newest_first "r1" sample_scheduled_db)
                sample_rent eq_refl)
      as (history & Hrun & Hperm & _).
    exists history. split; [exact Hrun|exact Hperm].
Defined.

Lemma update_adds_one_version_witness :
  select_recurring "r1" sample_scheduled_db = Some sample_rent
  /\ map rv_id
       (recurring_transaction_versions
          (snd (update_recurring_transaction "r1" (patch_amount (1100 # 1) None)
                  "v2" sample_now sample_scheduled_db)))
     = ["v1"; "v2"]
  /\ update_recurring_transaction "r1" (patch_day (2 ^ 63) None) "v2" sample_now
       sample_scheduled_db
     = (inl (HTTP 500 "Internal Server Error"), sample_scheduled_db).
Proof.
  split; [reflexivity|]. split.
  - destruct (proj2 (update_adds_one_version "r1" (patch_amount (1100 # 1) None)
                       "v2" sample_now sample_scheduled_db sample_rent eq_refl)
                eq_refl)
      as (before & after & _ & _ & _ & _ & _ & _ & Hids).
    exact Hids.
  - exact (proj1 (update_adds_one_version "r1" (patch_day (2 ^ 63) None) "v2"
                    sample_now sample_scheduled_db sample_rent eq_refl)
             eq_refl).
Defined.

Lemma update_keeps_other_versions_witness :
  select_recurring "r1" sample_scheduled_db = Some sample_rent
  /\ str_le (strftime_ymd sample_now) (strftime_ymd sample_now) = true
  /\ select_pending "r1" (strftime_ymd sample_now)
       (snd (update_recurring_transaction "r1" (patch_amount (1100 # 1) None)
               "v2" sample_now sample_scheduled_db))
     = select_pending "r1" (strftime_ymd sample_now) sample_scheduled_db.
Proof.
  split; [reflexivity|]. split; [exact (str_le_refl _)|].
  destruct (update_keeps_other_versions "r1" (patch_amount (1100 # 1) None) "v2"
              sample_now sample_scheduled_db sample_rent eq_refl)
    as (_ & _ & _ & Hpending).
  exact (Hpending (str_le_refl _) "r1").
Defined.

Lemma update_now_overwrites_template_witness :
  select_recurring "r1" sample_db = Some sample_rent
  /\ str_le (strftime_ymd sample_now) (strftime_ymd sample_now) = true
  /\ sqlite_integer (Some 5) = true
  /\ exists response db',
       update_recurring_transaction "r1" sample_move_patch "v1" sample_now
         sample_db = (inr response, db')
       /\ select_recurring "r1" db'
          = Some (mk_recurring "r1" "b1" (Some "c2") "Rent" (1100 # 1) "expense"
                    "monthly" (Some 5) 1 sample_now)
       /\ (wc_title response, wc_amount response, wc_category_id response,
           wc_frequency response, wc_day response)
          = ("Rent", 1100 # 1, Some "c2", "monthly", Some 5).
Proof.
  split; [reflexivity|]. split; [exact (str_le_refl _)|].
  split; [reflexivity|].
  destruct (update_now_overwrites_template "r1" sample_move_patch "v1" sample_now
              sample_db sample_rent eq_refl (str_le_refl _) eq_refl)
    as (response & db' & Hrun & Hsel & _ & _ & Hfields & _).
  exists response, db'. split; [exact Hrun|]. split; [exact Hsel|exact Hfields].
Defined.

Lemma schedule_then_cancel_witness :
  select_recurring "r1" sample_db = Some sample_rent
  /\ str_gt "2024-07-01" (strftime_ymd sample_now) = true
  /\ str_gt "2024-07-01" (strftime_ymd sample_june_20) = true
  /\ sqlite_integer (rt_day sample_rent) = true
  /\ delete_recurring_version "v2" sample_june_20
       (snd (update_recurring_transaction "r1"
               (patch_amount (1200 # 1) (Some "2024-07-01")) "v2" sample_now
               sample_db))
     = (inr tt, sample_db).
Proof.
  assert (H1 : str_gt "2024-07-01" (strftime_ymd sample_now) = true)
    by (vm_compute; reflexivity).
  assert (H2 : str_gt "2024-07-01" (strftime_ymd sample_june_20) = true)
    by (vm_compute; reflexivity).
  split; [reflexivity|]. split; [exact H1|]. split; [exact H2|].
  split; [reflexivity|].
  exact (schedule_then_cancel "r1" (patch_amount (1200 # 1) (Some "2024-07-01"))
           "v2" sample_now sample_june_20 sample_db sample_rent
           eq_refl eq_refl H1 H2 eq_refl).
Defined.

Lemma toggle_flips_active_witness :
  select_recurring "r1" sample_ledger_db = Some sample_rent
  /\ select_recurring "r9" sample_ledger_db = None
  /\ toggle_recurring_transaction "r9" sample_now sample_ledger_db
     = (inl (HTTP 404 "Recurring transaction not found"), sample_ledger_db)
  /\ exists response db',
       toggle_recurring_transaction "r1" sample_now sample_ledger_db
       = (inr response, db')
       /\ db'
          = mk_db
              [mk_recurring "r1" "b1" (Some "c1") "Rent" (1000 # 1) "expense"
                 "monthly" (Some 1) 0 sample_now;
               sample_fridays]
              [] [sample_groceries; sample_salary]
              [mk_category "c1" "Housing" None]
       /\ wc_active response = 0
       /\ (wc_id response, wc_budget_id response, wc_transaction_type response,
           wc_created_at response)
          = ("r1", "b1", "expense", sample_now).
Proof.
  split; [reflexivity|]. split; [reflexivity|]. split.
  - exact (proj1 (toggle_flips_active "r9" sample_now sample_ledger_db) eq_refl).
  - destruct (proj2 (toggle_flips_active "r1" sample_now sample_ledger_db)
                sample_rent eq_refl)
      as (response & db' & Hrun & Hdb & _ & Hactive & Hkept & _).
    exists response, db'.
    split; [exact Hrun|]. split; [exact Hdb|]. split; [exact Hactive|exact Hkept].
Defined.

Lemma toggle_twice_restores_witness :
  select_recurring "r4" sample_ledger_db = Some sample_fridays
  /\ rt_active sample_fridays = 1
  /\ snd (toggle_recurring_transaction "r4" sample_next_day
            (snd (toggle_recurring_transaction "r4" sample_now sample_ledger_db)))
     = sample_ledger_db.
Proof.
  split; [reflexivity|]. split; [reflexivity|].
  apply (toggle_twice_restores "r4" sample_now sample_next_day sample_ledger_db
           sample_fridays).
  - repeat constructor; simpl; intuition discriminate.
  - reflexivity.
  - right. reflexivity.
Defined.

Lemma toggled_off_is_not_selected_witness :
  select_recurring "r4" sample_ledger_db = Some sample_fridays
  /\ rt_active sample_fridays <> 0
  /\ map rt_id
       (active_templates "b1"
          (snd (toggle_recurring_transaction "r4" sample_now sample_ledger_db)))
     = ["r1"].
Proof.
  assert (Hact : rt_active sample_fridays <> 0) by discriminate.
  split; [reflexivity|]. split; [exact Hact|].
  now rewrite (toggled_off_is_not_selected "r4" "b1" sample_now sample_ledger_db
                 sample_fridays eq_refl Hact).
Defined.

Lemma delete_recurring_removes_witness :
  "r4" <> "r1"
  /\ select_recurring "r1"
       (snd (delete_recurring_transaction false "r1" sample_scheduled_db)) = None
  /\ versions_of "r4"
       (snd (delete_recurring_transaction true "r1" sample_scheduled_db))
     = versions_of "r4" sample_scheduled_db.
Proof.
  assert (Hne : "r4" <> "r1") by discriminate.
  split; [exact Hne|]. split.
  - exact (proj1 (delete_recurring_removes false "r1" sample_scheduled_db)).
  - destruct (delete_recurring_removes true "r1" sample_scheduled_db)
      as (_ & _ & _ & _ & _ & Hother & _).
    exact (Hother "r4" Hne).
Defined.


Lemma materialize_provenance_witness :
  map tx_title
    (match fst (process_recurring_transactions (sample_uuid4 "first")
                  (sample_clock sample_now) "b1" sample_now sample_db)
     with inr created => created | inl _ => [] end) = ["Rent"]
  /\ forall created,
       fst (process_recurring_transactions (sample_uuid4 "first")
              (sample_clock sample_now) "b1" sample_now sample_db) = inr created ->
       forall t, In t created -> tx_budget_id t = "b1" /\ tx_is_recurring t = 1.
Proof.
  split; [reflexivity|].
  intros created Hrun t Ht.
  destruct (materialize_provenance (sample_uuid4 "first") (sample_clock sample_now)
              "b1" sample_now sample_db created Hrun t Ht)
    as (Hb & Hr & _).
  split; [exact Hb|exact Hr].
Defined.

Lemma materialize_covers_due_dates_witness :
  In sample_rent (active_templates "b1" sample_db)
  /\ In "2024-06-01" (dates_to_create sample_rent 2024 6 15)
  /\ exists t,
       In t (transactions
               (snd (process_recurring_transactions (sample_uuid4 "first")
                       (sample_clock sample_now) "b1" sample_now sample_db)))
       /\ matches_occurrence "b1" sample_rent "2024-06-01" t = true.
Proof.
  assert (Hrec : In sample_rent (active_templates "b1" sample_db))
    by (left; reflexivity).
  assert (Hd : In "2024-06-01" (dates_to_create sample_rent 2024 6 15))
    by (left; reflexivity).
  split; [exact Hrec|]. split; [exact Hd|].
  apply (materialize_covers_due_dates (sample_uuid4 "first")
           (sample_clock sample_now) "b1" sample_now sample_db sample_rent
           "2024-06-01"); [|exact Hrec|exact Hd].
  intros r [<-|[]]. discriminate.
Defined.

Lemma materialize_adds_at_most_one_witness :
  rt_category_id sample_rent = Some "c1"
  /\ exists added,
       filter (fun t =>
                 (tx_budget_id t =? "b1")
                 && match tx_category_id t with
                    | Some c => (c =? "c1")
                    | None => false
                    end
                 && (tx_title t =? "Rent")
                 && Qeq_bool (tx_amount t) (1000 # 1)
                 && (tx_date t =? "2024-06-01")
                 && (tx_is_recurring t =? 1)%Z)
              (transactions
                 (snd (process_recurring_transactions (sample_uuid4 "first")
                         (sample_clock sample_now) "b1" sample_now
                         sample_twin_db)))
       = added
       /\ (List.length added <= 1)%nat.
Proof.
  split; [reflexivity|].
  destruct (materialize_adds_at_most_one (sample_uuid4 "first")
              (sample_clock sample_now) "b1" sample_now sample_twin_db
              sample_rent "c1" "2024-06-01" eq_refl)
    as (added & Hrows & Hlen & _).
  exists added. split; [exact Hrows|exact Hlen].
Defined.

Lemma due_days_not_after_today_witness :
  rt_frequency sample_gym = "monthly"
  /\ (forall d, In d (due_days sample_fridays 2024 11 22) -> d <= 22)
  /\ dates_to_create
       (mk_recurring "r6" "b1" None "Odd" (1 # 1) "expense" "daily" None 1
          sample_now) 2024 6 15 = [].
Proof.
  split; [reflexivity|]. split.
  - exact (proj1 (due_days_not_after_today sample_fridays 2024 11 22)).
  - apply (proj2 (proj2 (due_days_not_after_today
                           (mk_recurring "r6" "b1" None "Odd" (1 # 1) "expense"
                              "daily" None 1 sample_now) 2024 6 15)));
      discriminate.
Defined.

Lemma weekly_due_days_a_week_apart_witness :
  rt_frequency sample_fridays = "weekly"
  /\ In 8 (due_days sample_fridays 2024 11 22)
  /\ In 22 (due_days sample_fridays 2024 11 22)
  /\ (22 - 8) mod 7 = 0.
Proof.
  assert (H1 : In 8 (due_days sample_fridays 2024 11 22))
    by (right; left; reflexivity).
  assert (H2 : In 22 (due_days sample_fridays 2024 11 22))
    by (right; right; right; left; reflexivity).
  split; [reflexivity|]. split; [exact H1|]. split; [exact H2|].
  exact (proj1 (weekly_due_days_a_week_apart sample_fridays 2024 11 22 8 22
                  eq_refl H1 H2)).
Defined.

Lemma str_le_chronological_witness :
  plausible_date 2024 6 15
  /\ plausible_date 2024 7 1
  /\ str_le (strftime_ymd sample_now) (strftime_ymd sample_july_1) = true.
Proof.
  assert (H1 : plausible_date 2024 6 15) by (unfold plausible_date; lia).
  assert (H2 : plausible_date 2024 7 1) by (unfold plausible_date; lia).
  split; [exact H1|]. split; [exact H2|].
  apply (proj2 (str_le_chronological sample_now sample_july_1 H1 H2)).
  right. split; [reflexivity|]. left. simpl. lia.
Defined.

Lemma materialize_twice_with_categories_witness :
  (forall r, In r (active_templates "b1" sample_ledger_db) ->
             rt_category_id r <> None)
  /\ fst (process_recurring_transactions (sample_uuid4 "second")
            (sample_clock sample_next_day) "b1" sample_now
            (snd (process_recurring_transactions (sample_uuid4 "first")
                    (sample_clock sample_now) "b1" sample_now sample_ledger_db)))
     = inr [].
Proof.
  assert (Hcat : forall r, In r (active_templates "b1" sample_ledger_db) ->
                           rt_category_id r <> None).
  { intros r [<-|[<-|[]]]; discriminate. }
  split; [exact Hcat|].
  now rewrite (materialize_twice_with_categories (sample_uuid4 "first")
                 (sample_uuid4 "second") (sample_clock sample_now)
                 (sample_clock sample_next_day) "b1" sample_now sample_now
                 sample_ledger_db eq_refl eq_refl eq_refl Hcat).
Defined.

End OnMoreSamples.
